(** * vidlu: adversarial attacks and the lazy dataset pipeline

    A shallow embedding of
      - [vidlu/training/adversarial/attacks.py] (attack base class, the
        iterative perturbation optimizer, the Carlini-Wagner constructor),
      - [vidlu/data/dataset.py] (dataset identity, [permute], [sample],
        the per-example disk cache),
    followed by the properties established about them.

    Python code that can raise is embedded in an exception monad; code that
    touches the file system threads the file system explicitly. *)

From Stdlib Require Import ZArith QArith Qminmax Ascii String List Bool Lia.
From stdpp Require Import base option list strings gmap pretty.

Local Open Scope string_scope.
Local Open Scope list_scope.
Local Open Scope Z_scope.

(* ===================================================================== *)
(** * Python prelude *)
(* ===================================================================== *)

(** The built-in exception classes that the modelled code can raise. *)
Inductive exn :=
| RuntimeError | TypeError | NotImplementedError | AttributeError
| UnboundLocalError | ValueError | AssertionError | IndexError
| ZeroDivisionError | KeyError.

#[global] Instance exn_eq_dec : EqDecision exn.
Proof. solve_decision. Defined.

(** A computation either returns a value or raises. *)
Inductive result (A : Type) :=
| Ok (a : A)
| Raise (e : exn).
Arguments Ok {A} a.
Arguments Raise {A} e.

#[global] Instance result_ret : MRet result := fun _ a => Ok a.
#[global] Instance result_bind : MBind result := fun _ _ f m =>
  match m with
  | Ok a => f a
  | Raise e => Raise e
  end.

(** [l[i]] for a Python list: negative indices count from the end,
    anything out of range raises [IndexError]. *)
Definition py_index {A} (l : list A) (i : Z) : result A :=
  let n := Z.of_nat (length l) in
  let j := if i <? 0 then i + n else i in
  if (j <? 0) || (n <=? j) then Raise IndexError
  else match l !! Z.to_nat j with
       | Some a => Ok a
       | None => Raise IndexError
       end.

(** Truthiness of [str] and of [int] operands of [or] / [if]. *)
Definition str_truthy (s : string) : bool :=
  match s with EmptyString => false | _ => true end.

(** [a or b] where [a] is [None] or a string. *)
Definition or_str (a : option string) (b : option string) : option string :=
  match a with
  | Some s => if str_truthy s then Some s else b
  | None => b
  end.

(** [a or b] where [a] is [None] or an int and [b] is an int. *)
Definition or_int (a : option Z) (b : Z) : Z :=
  match a with
  | Some n => if n =? 0 then b else n
  | None => b
  end.

(* ===================================================================== *)
(** * Tensors *)
(* ===================================================================== *)

(** A float tensor is a batch (dimension 0) of flattened examples; an
    integer tensor of class indices is a list of integers.  Entries are
    rationals: none of the properties below depends on rounding. *)
Abbreviation tensor := (list (list Q)).
Abbreviation labels := (list Z).

Definition tmap (f : Q -> Q) (a : tensor) : tensor := map (map f) a.
Definition tmap2 (f : Q -> Q -> Q) (a b : tensor) : tensor :=
  zip_with (zip_with f) a b.

Definition tadd : tensor -> tensor -> tensor := tmap2 Qplus.
Definition tsub : tensor -> tensor -> tensor := tmap2 Qminus.
Definition zeros_like : tensor -> tensor := tmap (fun _ => 0%Q).
Definition tmul_scalar (a : tensor) (c : Q) : tensor := tmap (fun v => (v * c)%Q) a.

(** [torch.clamp(x, lo, hi)] is [min(max(x, lo), hi)] entry by entry. *)
Definition Qclamp (lo hi v : Q) : Q := Qmin (Qmax v lo) hi.
Definition clamp (a : tensor) (bounds : Q * Q) : tensor :=
  tmap (Qclamp (fst bounds) (snd bounds)) a.

Definition Qsign (v : Q) : Q :=
  match Qcompare v 0 with Lt => (-1)%Q | Eq => 0%Q | Gt => 1%Q end.
Definition sign : tensor -> tensor := tmap Qsign.

(** [row.argmax()]: the index of the first largest entry. *)
Fixpoint argmax_from (best : Q) (besti i : Z) (row : list Q) : Z :=
  match row with
  | [] => besti
  | v :: r =>
      if Qle_bool v best then argmax_from best besti (i + 1) r
      else argmax_from v i (i + 1) r
  end.

Definition argmax_row (row : list Q) : result Z :=
  match row with
  | [] => Raise IndexError
  | v :: r => Ok (argmax_from v 0 1 r)
  end.

(** [t.argmax(dim=1)] *)
Definition argmax_dim1 (t : tensor) : result labels := mapM argmax_row t.

(** [a != b] on one-dimensional integer tensors, with broadcasting of a
    one-element operand; other length combinations raise. *)
Definition ne_tensor (a b : labels) : result (list bool) :=
  let ne := fun u v : Z => negb (u =? v) in
  if (length a =? length b)%nat then Ok (zip_with ne a b)
  else match a, b with
       | _, [v] => Ok (map (fun u => ne u v) a)
       | [u], _ => Ok (map (fun v => ne u v) b)
       | _, _ => Raise RuntimeError
       end.

(** [mask.all()] *)
Definition all_true (mask : list bool) : bool := forallb id mask.

(** [t[mask]] with a boolean mask over dimension 0. *)
Fixpoint mask_filter {A} (mask : list bool) (l : list A) : list A :=
  match mask, l with
  | b :: mask', a :: l' => if b then a :: mask_filter mask' l' else mask_filter mask' l'
  | _, _ => []
  end.

Definition mask_select {A} (mask : list bool) (l : list A) : result (list A) :=
  if (length mask =? length l)%nat then Ok (mask_filter mask l)
  else Raise IndexError.

(** [t[indices] = values] with an integer index tensor. *)
Fixpoint index_put {A} (t : list A) (indices : list nat) (values : list A)
  : result (list A) :=
  match indices, values with
  | [], [] => Ok t
  | i :: indices', v :: values' =>
      if (i <? length t)%nat then index_put (<[i := v]> t) indices' values'
      else Raise IndexError
  | _, _ => Raise RuntimeError
  end.

(** The order [p] of a norm: [np.inf] or a finite number. *)
Inductive pnorm := PInf | PNum (p : Q).

Definition p_is_inf (p : pnorm) : bool :=
  match p with PInf => true | PNum _ => false end.

(** [p in [1, 2]] *)
Definition p_in_1_2 (p : pnorm) : bool :=
  match p with
  | PInf => false
  | PNum q => Qeq_bool q 1 || Qeq_bool q 2
  end.

(* ===================================================================== *)
(** * External collaborators of the attack module *)
(* ===================================================================== *)

(** The model, the loss and the automatic-differentiation engine are
    consumed as black boxes; [vidlu.ops] and [vidlu.modules.loss] are
    imported by [attacks.py] but defined elsewhere. *)
Class Engine := {
  Model : Type;
  Loss : Type;
  (** [model(x)] *)
  forward : Model -> tensor -> tensor;
  (** the gradient left in [x.grad] by [loss(model(x), y).backward()] *)
  autograd : Model -> Loss -> tensor -> labels -> tensor;
  autograd_length : forall m l x y, length (autograd m l x y) = length x;
  (** [SoftmaxCrossEntropyLoss(reduction='sum', ignore_index=-1)] *)
  SoftmaxCrossEntropyLoss : Loss;
  (** [ops.batch.project_to_p_ball(x, r, p=p)] *)
  project_to_p_ball : tensor -> Q -> pnorm -> tensor;
  (** [ops.batch.norm(x, p, keep_dims=True)], one norm per example *)
  batch_norm : tensor -> pnorm -> list Q;
  (** [ops.clamp(x, min=lo, max=hi)] and [ops.atanh(x)] *)
  ops_clamp : tensor -> Q -> Q -> tensor;
  ops_atanh : tensor -> tensor;
}.

(* ===================================================================== *)
(** * attacks.py *)
(* ===================================================================== *)

(** ** Objects seen by [type(...)] and [==]

    Function objects, bound methods and type objects, as far as the
    constructor check of [Attack] inspects them.  A [def] is identified by
    its qualified name; [==] on these objects is identity, except that two
    bound methods are equal when function and receiver are. *)
Inductive pyobj :=
| PyFunction (qualname : string)
| PyMethod (func : string) (receiver_class : string)
| PyType (name : string).

#[global] Instance pyobj_eq_dec : EqDecision pyobj.
Proof. solve_decision. Defined.

(** [type(o)] *)
Definition py_type (o : pyobj) : pyobj :=
  match o with
  | PyFunction _ => PyType "function"
  | PyMethod _ _ => PyType "method"
  | PyType _ => PyType "type"
  end.

(** [a == b] *)
Definition py_eq (a b : pyobj) : bool := bool_decide (a = b).

(** ** Values handed to callables that are stored in attributes

    Such callables are invoked with whatever positional arguments the call
    site supplies, so they are modelled on argument lists: a call whose
    arguments do not fit the parameters of the [def] raises [TypeError]. *)
Inductive pyval `{Engine} :=
| VNone
| VBool (b : bool)
| VNum (q : Q)
| VModel (m : Model)
| VTensor (t : tensor)
| VLabels (y : labels).

Definition callable `{Engine} : Type := list pyval -> result pyval.

(** A per-example success predicate [(pred, label) -> bool tensor]. *)
Definition success_fn : Type := tensor -> labels -> result (list bool).

(** [predict(x)] for a value [predict] *)
Definition call_model `{Engine} (predict x : pyval) : result tensor :=
  match predict, x with
  | VModel m, VTensor t => Ok (forward m t)
  | _, _ => Raise TypeError
  end.

(** [def _predict_hard(predict, x)]; [torch.no_grad()] only switches off
    gradient tracking for the forward pass. *)
Definition _predict_hard `{Engine} : callable := fun args =>
  match args with
  | [predict; x] =>
      out ← call_model predict x;
      y ← argmax_dim1 out;
      Ok (VLabels y)
  | _ => Raise TypeError
  end.

Definition classification_untargeted_is_sucess : success_fn := fun pred label =>
  am ← argmax_dim1 pred;
  ne_tensor am label.

Definition classification_targeted_is_sucess : success_fn := fun pred label =>
  am ← argmax_dim1 pred;
  ne_tensor am label.

(** ** The Carlini-Wagner loss closure *)

Definition TARGET_MULT : Q := 10000.
Definition REPEAT_STEP : Z := 10.

(** [ops.one_hot(y, n)] for one label *)
Definition one_hot_row (n : nat) (y : Z) : list Q :=
  map (fun k => if Z.of_nat k =? y then 1%Q else 0%Q) (seq 0 n).

Definition Qsum (l : list Q) : Q := foldr Qplus 0%Q l.
Definition Qmax_list (l : list Q) : Q :=
  match l with [] => 0%Q | v :: r => foldr Qmax v r end.
Definition relu (v : Q) : Q := Qmax v 0.

(** The body of [carlini_loss(logits, y, l2distsq, c)] inside
    [get_carlini_loss(targeted, confidence_threshold)]. *)
Definition carlini_loss (targeted : bool) (confidence_threshold : Q)
    (logits : tensor) (y : labels) (l2distsq c : list Q) : Q :=
  let per_example := fun (row : list Q) (yi : Z) =>
    let y_onehot := one_hot_row (length row) yi in
    let real := Qsum (zip_with Qmult y_onehot row) in
    let other := Qmax_list
      (zip_with (fun o l => ((1 - o) * l - o * TARGET_MULT)%Q) y_onehot row) in
    if targeted then relu (other - real + confidence_threshold)%Q
    else relu (real - other + confidence_threshold)%Q in
  let loss1 := zip_with per_example logits y in
  let loss2 := Qsum l2distsq in
  let loss1 := Qsum (zip_with Qmult c loss1) in
  (loss1 + loss2)%Q.

(** What the attribute [loss] of an attack can hold: a loss module of the
    engine, or the closure returned by [get_carlini_loss]. *)
Inductive loss_fn `{Engine} :=
| LossModule (l : Loss)
| LossCarlini (targeted : bool) (confidence_threshold : Q).

(** [def get_carlini_loss(targeted, confidence_threshold)] *)
Definition get_carlini_loss `{Engine} (args : list pyval) : result loss_fn :=
  match args with
  | [VBool targeted; VNum confidence_threshold] =>
      Ok (LossCarlini targeted confidence_threshold)
  | _ => Raise TypeError
  end.

(** [loss(model(x), y).backward()] followed by reading [x.grad]: a loss
    module is differentiated by the engine; the four-parameter closure
    cannot be called with two arguments. *)
Definition loss_backward `{Engine} (m : Model) (l : loss_fn) (x : tensor)
    (y : labels) : result tensor :=
  match l with
  | LossModule l => Ok (autograd m l x y)
  | LossCarlini _ _ => Raise TypeError
  end.

(** ** class Attack *)

(** The payload [Namespace(x=x, y=y, x_adv=x_adv)] of [perturb_completed]. *)
Record Namespace := { ns_x : tensor; ns_y : labels; ns_x_adv : tensor }.

Module Attack.

(** The attributes assigned by [Attack.__init__]. *)
Record t `{Engine} := {
  model : Model;
  loss : loss_fn;
  clip_bounds : option (Q * Q);
  get_predicted_label : callable;
  is_success : success_fn;
}.

(** A class derived from [Attack]: its name and, when the class body
    defines it, its [_perturb]. *)
Record subclass `{Engine} := {
  cls_name : string;
  cls__perturb : option (t -> tensor -> labels -> result tensor);
}.

(** An instance: the classes of [type(self).__mro__] that precede
    [Attack], most derived first, and the instance attributes. *)
Record instance `{Engine} := {
  mro : list subclass;
  attrs : t;
}.

(** [def _perturb(self, x, y)] of the base class *)
Definition _perturb `{Engine} (self : t) (x : tensor) (y : labels)
  : result tensor :=
  Raise NotImplementedError.

(** The function object [Attack._perturb]. *)
Definition _perturb_function : pyobj := PyFunction "Attack._perturb".

(** [type(self).__name__] *)
Definition type_name `{Engine} (mro : list subclass) : string :=
  match mro with
  | [] => "Attack"
  | c :: _ => cls_name c
  end.

(** Attribute lookup of [_perturb] along the MRO: the qualified name of
    the function found and its body. *)
Fixpoint lookup__perturb `{Engine} (mro : list subclass)
  : string * (t -> tensor -> labels -> result tensor) :=
  match mro with
  | [] => ("Attack._perturb", _perturb)
  | c :: rest =>
      match cls__perturb c with
      | Some f => (cls_name c +:+ "._perturb", f)
      | None => lookup__perturb rest
      end
  end.

(** The object [self._perturb]: the function found on the class, bound
    to the instance. *)
Definition getattr__perturb `{Engine} (mro : list subclass) : pyobj :=
  PyMethod (fst (lookup__perturb mro)) (type_name mro).

(** [def __init__(self, model, loss=None, clip_bounds=None,
    is_success=None, get_predicted_label=None)] *)
Definition __init__ `{Engine} (self_mro : list subclass) (model : Model)
    (loss : option loss_fn) (clip_bounds : option (Q * Q))
    (is_success : option success_fn) (get_predicted_label : option callable)
  : result instance :=
  if py_eq (py_type (getattr__perturb self_mro)) _perturb_function then
    Raise RuntimeError
  else
    Ok {| mro := self_mro;
          attrs := {|
            model := model;
            loss := match loss with
                    | None => LossModule SoftmaxCrossEntropyLoss
                    | Some l => l
                    end;
            clip_bounds := clip_bounds;
            get_predicted_label :=
              match get_predicted_label with
              | None => _predict_hard
              | Some g => g
              end;
            is_success :=
              match is_success with
              | None => classification_untargeted_is_sucess
              | Some s => s
              end |} |}.

(** [def _clip(self, x)] *)
Definition _clip `{Engine} (self : t) (x : tensor) : result tensor :=
  match clip_bounds self with
  | Some b => Ok (clamp x b)
  | None => Raise TypeError
  end.

(** [def _get_output_loss_grad(self, x, y)], the gradient component *)
Definition _get_output_loss_grad `{Engine} (self : t) (x : tensor) (y : labels)
  : result (tensor * tensor) :=
  let output := forward (model self) x in
  grad ← loss_backward (model self) (loss self) x y;
  Ok (output, grad).

(** [def perturb(self, x, y=None)]; returns the adversarial input
    together with the payload passed to [perturb_completed]. *)
Definition perturb `{Engine} (self : instance) (x : tensor) (y : option labels)
  : result (tensor * Namespace) :=
  let a := attrs self in
  y ← match y with
      | None =>
          r ← get_predicted_label a [VTensor x];
          match r with
          | VLabels y => Ok y
          | _ => Raise AttributeError
          end
      | Some y => Ok y
      end;
  x_adv ← snd (lookup__perturb (mro self)) a x y;
  x_adv ← match clip_bounds a with
          | Some _ => _clip a x_adv
          | None => Ok x_adv
          end;
  Ok (x_adv, {| ns_x := x; ns_y := y; ns_x_adv := x_adv |}).

End Attack.

(** ** class GradientSignAttack(Attack) *)
Module GradientSignAttack.

(** [def _perturb(self, x, y=None)] for an instance with attribute [eps] *)
Definition _perturb `{Engine} (eps : Q) (self : Attack.t) (x : tensor)
    (y : labels) : result tensor :=
  '(_, grad) ← Attack._get_output_loss_grad self x y;
  let grad_sign := sign grad in
  Ok (tadd x (tmul_scalar grad_sign eps)).

Definition cls `{Engine} (eps : Q) : Attack.subclass :=
  {| Attack.cls_name := "GradientSignAttack";
     Attack.cls__perturb := Some (_perturb eps) |}.

Definition __init__ `{Engine} (model : Model) (loss : option loss_fn)
    (clip_bounds : option (Q * Q)) (is_success : option success_fn)
    (get_predicted_label : option callable) (eps : Q)
  : result Attack.instance :=
  Attack.__init__ [cls eps] model loss clip_bounds is_success get_predicted_label.

End GradientSignAttack.

(** ** rand_init_delta *)

(** [def rand_init_delta(x, p, eps, bounds, batch=False)]; [sample] is the
    value drawn by [ops.random.uniform_sample_from_p_ball]. *)
Definition rand_init_delta (sample : tensor) (x : tensor) (eps : Q)
    (bounds : option (Q * Q)) : tensor :=
  let delta := tmul_scalar sample eps in
  match bounds with
  | None => tadd x delta
  | Some b => tsub (clamp (tadd x delta) b) x
  end.

(** ** perturb_iterative *)

(** The argument [grad_preprocessing]: one of the two documented strings,
    or some other string, which is left in place and then called. *)
Inductive grad_preprocessing_arg :=
| GPSign
| GPNormalize
| GPOther (s : string).

Definition apply_grad_preprocessing `{Engine} (gp : grad_preprocessing_arg)
    (p : pnorm) (g : tensor) : result tensor :=
  match gp with
  | GPSign => Ok (sign g)
  | GPNormalize =>
      Ok (zip_with (fun row n => map (fun v => (v / n)%Q) row) g (batch_norm g p))
  | GPOther _ => Raise TypeError
  end.

(** The local variables of [perturb_iterative] that the loop updates.
    The list [deltas] of the source is [st_deltas ++ [st_delta]]: its last
    entry is the very tensor that [delta] names and that the update step
    mutates in place, the earlier entries are no longer written.
    [st_delta_grad] is [delta.grad], which [backward()] accumulates into;
    [st_times] is the length of [times] (its entries are clock readings);
    [st_step] is the loop variable, unbound before the first iteration. *)
Record pi_state := {
  st_x : tensor;
  st_y : labels;
  st_delta : tensor;
  st_delta_grad : option tensor;
  st_xs : list tensor;
  st_ys : list labels;
  st_deltas : list tensor;
  st_successes : list (list bool);
  st_origins : list (list nat);
  st_origin : list nat;
  st_times : nat;
  st_step : option nat;
}.

Definition deltas_of (st : pi_state) : list tensor := st_deltas st ++ [st_delta st].

(** [update_times()]: the elapsed time is not modelled, the computation of
    [proportion] is:
    [100 * len(deltas[min((0, len(deltas) - 2))]) / len(deltas[0])]. *)
Definition update_times (deltas : list tensor) : result unit :=
  d ← py_index deltas (Z.min 0 (Z.of_nat (length deltas) - 2));
  d0 ← py_index deltas 0;
  if (length d0 =? 0)%nat then Raise ZeroDivisionError else Ok ().

Inductive flow := Continue | Break.

Section perturb_iterative_body.
Context `{Engine}.
Variables (predict : Model) (loss_fn : loss_fn).
Variables (eps step_size : Q) (grad_preprocessing : grad_preprocessing_arg).
Variables (p : pnorm) (clip_bounds : option (Q * Q)).
Variable (is_success_for_stopping : option success_fn).

(** The block guarded by [if stop_on_success:] at the top of the loop
    body.  Returns the state, the working gradient and whether [break]
    was executed. *)
Definition pi_early_stop (st : pi_state) (pred grad : tensor)
  : result (pi_state * tensor * flow) :=
  match is_success_for_stopping with
  | None => Ok (st, grad, Continue)
  | Some is_success =>
      success ← is_success pred (st_y st);
      let fail := map negb success in
      if negb (all_true fail) then
        origin ← mask_select fail (st_origin st);
        x ← mask_select fail (st_x st);
        y ← mask_select fail (st_y st);
        delta ← mask_select fail (st_delta st);
        grad ← mask_select fail grad;
        let st' := {|
          st_x := x; st_y := y; st_delta := delta; st_delta_grad := None;
          st_xs := st_xs st ++ [x];
          st_ys := st_ys st ++ [y];
          st_deltas := st_deltas st ++ [st_delta st];
          st_successes := st_successes st ++ [success];
          st_origins := st_origins st ++ [origin];
          st_origin := origin;
          st_times := st_times st;
          st_step := st_step st |} in
        if all_true success then
          _ ← update_times (deltas_of st');
          Ok (st', grad, Break)
        else Ok (st', grad, Continue)
      else Ok (st, grad, Continue)
  end.

(** The [with torch.no_grad():] block that updates [delta]. *)
Definition pi_update (st : pi_state) (grad : tensor) : result pi_state :=
  pgrad ← apply_grad_preprocessing grad_preprocessing p grad;
  if p_is_inf p then
    let delta := tadd (st_delta st) (tmul_scalar pgrad step_size) in
    let delta := project_to_p_ball delta eps p in
    let delta :=
      match clip_bounds with
      | Some b => tsub (clamp (tadd (st_x st) delta) b) (st_x st)
      | None => delta
      end in
    Ok {| st_x := st_x st; st_y := st_y st; st_delta := delta;
          st_delta_grad := st_delta_grad st;
          st_xs := st_xs st; st_ys := st_ys st; st_deltas := st_deltas st;
          st_successes := st_successes st; st_origins := st_origins st;
          st_origin := st_origin st; st_times := st_times st;
          st_step := st_step st |}
  else if p_in_1_2 p then Raise NotImplementedError
  else Raise NotImplementedError.

(** One execution of the loop body with [step] bound. *)
Definition pi_body (step : nat) (st : pi_state) : result (pi_state * flow) :=
  let x_delta := tadd (st_x st) (st_delta st) in
  let pred := forward predict x_delta in
  g ← loss_backward predict loss_fn x_delta (st_y st);
  let delta_grad :=
    match st_delta_grad st with
    | None => g
    | Some acc => tadd acc g
    end in
  let grad := delta_grad in
  let st := {|
    st_x := st_x st; st_y := st_y st; st_delta := st_delta st;
    st_delta_grad := Some delta_grad;
    st_xs := st_xs st; st_ys := st_ys st; st_deltas := st_deltas st;
    st_successes := st_successes st; st_origins := st_origins st;
    st_origin := st_origin st;
    st_times := S (st_times st);
    st_step := Some step |} in
  '(st, grad, fl) ← pi_early_stop st pred grad;
  match fl with
  | Break => Ok (st, Break)
  | Continue =>
      st ← pi_update st grad;
      _ ← match is_success_for_stopping with
          | Some _ => update_times (deltas_of st)
          | None => Ok ()
          end;
      Ok (st, Continue)
  end.

(** [for step in range(step_count): ...] over the remaining values of
    [step]; [Continue] means the iterator was exhausted. *)
Fixpoint pi_loop (steps : list nat) (st : pi_state) : result (pi_state * flow) :=
  match steps with
  | [] => Ok (st, Continue)
  | step :: rest =>
      '(st, fl) ← pi_body step st;
      match fl with
      | Break => Ok (st, Break)
      | Continue => pi_loop rest st
      end
  end.

(** The [else:] clause of the loop, [step += 1]. *)
Definition pi_else (st : pi_state) : result pi_state :=
  match st_step st with
  | None => Raise UnboundLocalError
  | Some s =>
      Ok {| st_x := st_x st; st_y := st_y st; st_delta := st_delta st;
            st_delta_grad := st_delta_grad st;
            st_xs := st_xs st; st_ys := st_ys st; st_deltas := st_deltas st;
            st_successes := st_successes st; st_origins := st_origins st;
            st_origin := st_origin st; st_times := st_times st;
            st_step := Some (S s) |}
  end.

(** [successes[-1].fill_(True)] *)
Definition fill_last_true (successes : list (list bool))
  : result (list (list bool)) :=
  last ← py_index successes (-1);
  Ok (take (length successes - 1) successes ++ [map (fun _ => true) last]).

(** [for i in range(len(successes) - 1): ...] over the remaining [i] *)
Fixpoint pi_scatter (idxs : list nat) (successes : list (list bool))
    (origins : list (list nat)) (deltas : list tensor) (delta : tensor)
  : result tensor :=
  match idxs with
  | [] => Ok delta
  | i :: rest =>
      o ← py_index origins (Z.of_nat i);
      s ← py_index successes (Z.of_nat i + 1);
      indices ← mask_select s o;
      d ← py_index deltas (Z.of_nat i);
      values ← mask_select s d;
      delta ← index_put delta indices values;
      pi_scatter rest successes origins deltas delta
  end.

(** The code after the loop. *)
Definition pi_finish (st : pi_state) : result tensor :=
  '(x, delta) ←
    match is_success_for_stopping with
    | Some _ =>
        successes ← fill_last_true (st_successes st);
        x ← py_index (st_xs st) 0;
        delta ← py_index (deltas_of st) 0;
        let deltas := drop 1 (deltas_of st) in
        delta ← pi_scatter (seq 0 (length successes - 1)) successes
                  (st_origins st) deltas delta;
        Ok (x, delta)
    | None => Ok (st_x st, st_delta st)
    end;
  let x_adv := tadd x delta in
  Ok (match clip_bounds with
      | None => x_adv
      | Some b => clamp (tadd x delta) b
      end).

End perturb_iterative_body.

(** [def perturb_iterative(x, y, predict, step_count, eps, step_size, loss,
    grad_preprocessing='sign', delta_init=None, p=np.inf,
    clip_bounds=(0, 1), is_success_for_stopping=None)], returning the
    result together with the final values of the loop variables. *)
Definition perturb_iterative_run `{Engine} (x : tensor) (y : labels)
    (predict : Model) (step_count : Z) (eps step_size : Q) (loss : loss_fn)
    (grad_preprocessing : grad_preprocessing_arg) (delta_init : option tensor)
    (p : pnorm) (clip_bounds : option (Q * Q))
    (is_success_for_stopping : option success_fn)
  : result (tensor * pi_state) :=
  let delta := match delta_init with None => zeros_like x | Some d => d end in
  let st := {|
    st_x := x; st_y := y; st_delta := delta; st_delta_grad := None;
    st_xs := [x]; st_ys := [y]; st_deltas := [];
    st_successes := []; st_origins := [];
    st_origin := seq 0 (length x);
    st_times := 0; st_step := None |} in
  '(st, fl) ← pi_loop predict loss eps step_size grad_preprocessing p clip_bounds
                is_success_for_stopping (seq 0 (Z.to_nat step_count)) st;
  st ← match fl with
       | Break => Ok st
       | Continue => pi_else st
       end;
  x_adv ← pi_finish clip_bounds is_success_for_stopping st;
  Ok (x_adv, st).

Definition perturb_iterative `{Engine} (x : tensor) (y : labels)
    (predict : Model) (step_count : Z) (eps step_size : Q) (loss : loss_fn)
    (grad_preprocessing : grad_preprocessing_arg) (delta_init : option tensor)
    (p : pnorm) (clip_bounds : option (Q * Q))
    (is_success_for_stopping : option success_fn)
  : result tensor :=
  r ← perturb_iterative_run x y predict step_count eps step_size loss
        grad_preprocessing delta_init p clip_bounds is_success_for_stopping;
  Ok (fst r).

(** ** class PGDAttack(Attack) *)
Module PGDAttack.

(** The attributes added by [PGDAttack.__init__]; [rand_sample] stands
    for the draw made by [rand_init_delta] when [rand_init] is set. *)
Record params := {
  eps : Q;
  step_count : Z;
  step_size : Q;
  grad_preprocessing : grad_preprocessing_arg;
  rand_init : bool;
  p : pnorm;
  stop_on_success : bool;
  rand_sample : tensor;
}.

(** [def _perturb(self, x, y=None)] *)
Definition _perturb `{Engine} (ps : params) (self : Attack.t) (x : tensor)
    (y : labels) : result tensor :=
  let delta_init :=
    if rand_init ps
    then rand_init_delta (rand_sample ps) x (eps ps) (Attack.clip_bounds self)
    else zeros_like x in
  perturb_iterative x y (Attack.model self) (step_count ps) (eps ps)
    (step_size ps) (Attack.loss self) (grad_preprocessing ps)
    (Some delta_init) (p ps) (Attack.clip_bounds self)
    (if stop_on_success ps then Some (Attack.is_success self) else None).

Definition cls `{Engine} (ps : params) : Attack.subclass :=
  {| Attack.cls_name := "PGDAttack";
     Attack.cls__perturb := Some (_perturb ps) |}.

Definition __init__ `{Engine} (model : Model) (loss : option loss_fn)
    (clip_bounds : option (Q * Q)) (is_success : option success_fn)
    (get_predicted_label : callable) (ps : params)
  : result Attack.instance :=
  Attack.__init__ [cls ps] model loss clip_bounds is_success
    (Some get_predicted_label).

End PGDAttack.

(** ** class CarliniWagnerL2Attack(Attack) *)

Definition ONE_MINUS_EPS : Q := 999999 # 1000000.

(** Values of the attributes that [CarliniWagnerL2Attack.__init__] itself
    assigns. *)
Inductive attr_val :=
| ANone
| ABool (b : bool)
| AInt (n : Z)
| ANum (q : Q)
| ADistanceFn.

Module CarliniWagnerL2Attack.

(** The keyword parameters of the constructor after
    [get_predicted_label]; [distance_fn] is [ops.batch.l2_distace_sqr]. *)
Record params := {
  num_classes : option Z;
  confidence : Q;
  learning_rate : Q;
  binary_search_steps : Z;
  max_iter : Z;
  abort_early : bool;
  initial_const : Q;
}.

(** The assignments [self.distance_fn = distance_fn] ...
    [self.repeat = binary_search_steps >= REPEAT_STEP], as the instance
    dictionary they leave behind. *)
Definition own_attributes (ps : params) : gmap string attr_val :=
  <["repeat" := ABool (REPEAT_STEP <=? binary_search_steps ps)]>
  (<["num_classes" := match num_classes ps with
                      | None => ANone
                      | Some n => AInt n
                      end]>
  (<["initial_const" := ANum (initial_const ps)]>
  (<["confidence" := ANum (confidence ps)]>
  (<["abort_early" := ABool (abort_early ps)]>
  (<["binary_search_steps" := AInt (binary_search_steps ps)]>
  (<["max_iter" := AInt (max_iter ps)]>
  (<["learning_rate" := ANum (learning_rate ps)]>
  (<["distance_fn" := ADistanceFn]> ∅)))))))).

(** The names bound on every instance by [Attack.__init__]. *)
Definition base_attributes : list string :=
  ["model"; "loss"; "clip_bounds"; "get_predicted_label"; "is_success";
   "perturb_completed"].

(** [self.<name>] used as a number.  Neither class defines class-level
    data attributes, so the lookup is decided by the instance: the base
    attributes hold no numbers, the others are in [own]. *)
Definition getattr_num (own : gmap string attr_val) (name : string) : result Q :=
  if bool_decide (name ∈ base_attributes) then Raise TypeError
  else match own !! name with
       | Some (ANum q) => Ok q
       | Some (AInt n) => Ok (inject_Z n)
       | Some _ => Raise TypeError
       | None => Raise AttributeError
       end.

(** [def _arctanh_clip(self, x)] *)
Definition _arctanh_clip `{Engine} (own : gmap string attr_val) (x : tensor)
  : result tensor :=
  clip_min ← getattr_num own "clip_min";
  clip_max ← getattr_num own "clip_max";
  clip_min' ← getattr_num own "clip_min";
  lo ← getattr_num own "clip_min";
  hi ← getattr_num own "clip_max";
  let scaled := tmap (fun v => ((v - clip_min) / (clip_max - clip_min'))%Q) x in
  let result := tmap (fun v => (v * 2 - 1)%Q) (ops_clamp scaled lo hi) in
  Ok (ops_atanh (tmul_scalar result ONE_MINUS_EPS)).

(** [def _perturb(self, x, y)].  The statements up to
    [x_atanh = self._arctanh_clip(x)] only allocate tensors; [search]
    stands for everything from [y_onehot = ...] on, the binary search
    driven by [torch.optim.Adam]. *)
Definition _perturb `{Engine} (ps : params)
    (search : Attack.t -> tensor -> tensor -> labels -> result tensor)
    (self : Attack.t) (x : tensor) (y : labels) : result tensor :=
  let final_advs := x in
  x_atanh ← _arctanh_clip (own_attributes ps) x;
  search self final_advs x_atanh y.

Definition cls `{Engine} (ps : params)
    (search : Attack.t -> tensor -> tensor -> labels -> result tensor)
  : Attack.subclass :=
  {| Attack.cls_name := "CarliniWagnerL2Attack";
     Attack.cls__perturb := Some (_perturb ps search) |}.

(** [def __init__(self, model, loss=None, clip_bounds=None,
    is_success=None, get_predicted_label=_predict_hard, ...)] *)
Definition __init__ `{Engine}
    (search : Attack.t -> tensor -> tensor -> labels -> result tensor)
    (model : Model) (loss : option loss_fn)
    (clip_bounds : option (Q * Q)) (is_success : option success_fn)
    (get_predicted_label : callable) (ps : params)
  : result Attack.instance :=
  match loss with
  | Some _ => Raise NotImplementedError
  | None =>
      loss ← get_carlini_loss [];
      Attack.__init__ [cls ps search] model (Some loss) clip_bounds is_success
        (Some get_predicted_label)
  end.

End CarliniWagnerL2Attack.

(* ===================================================================== *)
(** * dataset.py *)
(* ===================================================================== *)

(** What [dataset.py] takes from the interpreter and from NumPy. *)
Class PyRuntime := {
  (** [__debug__]: [assert] statements are executed unless Python runs
      with [-O] *)
  py_debug : bool;
  (** [hash(tuple(indices))] *)
  hash_tuple : list Z -> Z;
  (** [np.random.RandomState(seed=seed).permutation(n)] *)
  permutation : Z -> Z -> list Z;
  (** the successive results of [rand.randint(0, n)] for a fresh
      [RandomState(seed=seed)] *)
  randint_stream : Z -> Z -> nat -> list Z;
}.

(** ** Helpers *)

(** [s.endswith(suffix)] *)
Definition str_endswith (s suffix : string) : bool :=
  let n := String.length s in
  let m := String.length suffix in
  (m <=? n)%nat && String.eqb (substring (n - m) m s) suffix.

(** [f"{n:x}"] for a non-negative [n] *)
Definition hex_digit (d : Z) : string :=
  match d with
  | 10 => "a" | 11 => "b" | 12 => "c" | 13 => "d" | 14 => "e" | 15 => "f"
  | _ => pretty d
  end.

Fixpoint hex_go (fuel : nat) (n : Z) (acc : string) : string :=
  match fuel with
  | O => acc
  | S fuel' =>
      let acc' := hex_digit (n mod 16) +:+ acc in
      if n / 16 =? 0 then acc' else hex_go fuel' (n / 16) acc'
  end.

Definition format_hex (n : Z) : string := hex_go (S (Z.to_nat (Z.log2 n))) n "".

(** [def _compress_indices(indices, max)]: the first unsigned dtype that
    holds [max]; the conversion reduces each entry modulo the width. *)
Definition _compress_indices (indices : list Z) (max : Z) : list Z :=
  let fix go (widths : list Z) : list Z :=
    match widths with
    | [] => indices
    | w :: rest =>
        if max <=? 2 ^ w - 1 then map (fun i => i mod 2 ^ w) indices
        else go rest
    end in
  go [8; 16; 32; 64].

(** [def _subset_hash(indices)] *)
Definition _subset_hash `{PyRuntime} (indices : list Z) : Z :=
  hash_tuple indices mod 16 ^ 5.

(** [l[:k]] *)
Definition slice_to {A} (l : list A) (k : Z) : list A :=
  if k <? 0 then take (Z.to_nat (Z.of_nat (length l) + k)) l
  else take (Z.to_nat k) l.

(** ** class Dataset *)

(** The [modifiers] keyword argument: absent/[None], a string, or a list. *)
Inductive modifiers_arg :=
| MNone
| MStr (s : string)
| MList (l : list string).

Module Dataset.

(** A dataset with examples of type [V]: the identity attributes, and
    the methods [__len__] and [get_example] of its class.  ([info] plays
    no part in what follows.) *)
Record t (V : Type) := {
  name : string;
  subset : option string;
  modifiers : list string;
  len : Z;
  get_example : Z -> result V;
}.
Arguments name {V}. Arguments subset {V}. Arguments modifiers {V}.
Arguments len {V}. Arguments get_example {V}.

(** [def __init__(self, *, name=None, subset=None, modifiers=None,
    info=None, data=None)] for an instance of the class named [cname],
    as far as it assigns [name], [subset] and [modifiers].  [data_attrs]
    are the attributes that [getattr(data, ..., default)] finds when
    [data] is a dataset.  [count] is the class attribute
    [Dataset._instance_count]; its new value is returned as well. *)
Definition __init__ (cname : string) (count : Z)
    (name : option string) (subset : option string) (modifiers : modifiers_arg)
    (data_attrs : option (string * option string * list string))
  : (string * option string * list string) * Z :=
  let data_name := (fun a => fst (fst a)) <$> data_attrs in
  let data_subset := data_attrs ≫= (fun a => snd (fst a)) in
  let data_modifiers := default [] (snd <$> data_attrs) in
  let self_name := or_str name data_name in
  let '(self_name, count) :=
    match self_name with
    | Some n => (n, count)
    | None =>
        let count := if String.eqb cname "Dataset" then count + 1 else count in
        (if str_endswith cname "Dataset"
         then substring 0 (String.length cname - String.length "Dataset") cname
         else cname, count)
    end in
  let self_subset := or_str subset data_subset in
  let self_modifiers :=
    match modifiers with
    | MNone => data_modifiers
    | MStr s => if str_truthy s then data_modifiers ++ [s] else data_modifiers
    | MList l => data_modifiers ++ l
    end in
  ((self_name, self_subset, self_modifiers), count).

(** [def identifier(self)] *)
Definition identifier {V} (self : t V) : string :=
  let fn := name self in
  let fn :=
    match subset self with
    | Some s => if str_truthy s then fn +:+ "-" +:+ s else fn
    | None => fn
    end in
  if (0 <? length (modifiers self))%nat
  then fn +:+ "." +:+ String.concat "." (modifiers self)
  else fn.

(** [def __getitem__(self, idx)] for an integer [idx] *)
Definition __getitem__ {V} (self : t V) (idx : Z) : result V :=
  let idx := if idx <? 0 then idx + len self else idx in
  if (idx <? 0) || (len self <=? idx) then Raise IndexError
  else get_example self idx.

Definition attrs_of {V} (self : t V) : string * option string * list string :=
  (name self, subset self, modifiers self).

End Dataset.

(** ** class SubDataset(Dataset) *)

(** The [indices] argument: a [slice] or a sequence of indices. *)
Inductive indices_arg :=
| IdxSlice
| IdxSeq (l : list Z).

Module SubDataset.

(** [def __init__(self, dataset, indices, **kwargs)]; [kw_modifiers] is
    [None] when [kwargs] has no key ['modifiers']. *)
Definition __init__ `{PyRuntime} {V} (count : Z) (dataset : Dataset.t V)
    (indices : indices_arg) (kw_modifiers : option modifiers_arg)
    (kw_name kw_subset : option string)
  : result (Dataset.t V * Z) :=
  match indices with
  | IdxSlice => Raise AttributeError
  | IdxSeq indices =>
      let _len := Z.of_nat (length indices) in
      let indices := _compress_indices indices (Dataset.len dataset) in
      let _get_index := fun i => py_index indices i in
      let modifier := "[indices_" +:+ format_hex (_subset_hash indices) +:+ "]" in
      let modifiers := default (MStr modifier) kw_modifiers in
      let '((n, s, m), count) :=
        Dataset.__init__ "SubDataset" count kw_name kw_subset modifiers
          (Some (Dataset.attrs_of dataset)) in
      Ok ({| Dataset.name := n; Dataset.subset := s; Dataset.modifiers := m;
             Dataset.len := _len;
             Dataset.get_example := fun idx =>
               i ← _get_index idx; Dataset.__getitem__ dataset i |},
          count)
  end.

End SubDataset.

(** [def permute(self, seed=53, **kwargs)] of [Dataset] *)
Definition permute `{PyRuntime} {V} (count : Z) (self : Dataset.t V) (seed : Z)
    (kw_name kw_subset : option string) : result (Dataset.t V * Z) :=
  let indices := permutation seed (Dataset.len self) in
  SubDataset.__init__ count self (IdxSeq indices) (Some (MStr "permute({seed})"))
    kw_name kw_subset.

(** ** class SampleDataset(Dataset) *)
Module SampleDataset.

(** [def __init__(self, dataset, length=None, replace=False, seed=53,
    **kwargs)] *)
Definition __init__ `{PyRuntime} {V} (count : Z) (dataset : Dataset.t V)
    (length : option Z) (replace : bool) (seed : Z)
    (kw_name kw_subset : option string)
  : result (Dataset.t V * Z) :=
  let n := Dataset.len dataset in
  let length := or_int length n in
  if py_debug && negb (replace || (length <=? n)) then Raise AssertionError
  else
    indices ←
      (if replace then Ok (randint_stream seed n (Z.to_nat n))
       else
         let indices := slice_to (permutation seed n) length in
         if n <? length then Raise ValueError else Ok indices);
    let _indices := _compress_indices indices n in
    let args := pretty seed +:+ "," +:+ pretty length in
    let modifier := "sample" +:+ (if replace then "_r" else "")
                    +:+ "(" +:+ args +:+ ")" in
    let '((nm, s, m), count) :=
      Dataset.__init__ "SampleDataset" count kw_name kw_subset (MStr modifier)
        (Some (Dataset.attrs_of dataset)) in
    Ok ({| Dataset.name := nm; Dataset.subset := s; Dataset.modifiers := m;
           Dataset.len := or_int (Some length) n;
           (* [self.data[self._indices(idx)]] calls the index array *)
           Dataset.get_example := fun idx => Raise TypeError |},
        count).

End SampleDataset.

(** [def sample(self, length, replace=False, seed=53, **kwargs)] of [Dataset] *)
Definition sample `{PyRuntime} {V} (count : Z) (self : Dataset.t V) (length : Z)
    (replace : bool) (seed : Z) (kw_name kw_subset : option string)
  : result (Dataset.t V * Z) :=
  SampleDataset.__init__ count self (Some length) replace seed kw_name kw_subset.

(** ** class HDDCacheDataset(Dataset) *)

(** Serialized file contents. *)
Abbreviation bytes := string.

(** What the cache needs from the examples: [pickle] and the indexing
    [example[field]] of a record.  [pickle_load] is [None] when
    [pickle.load] raises. *)
Class Example (V : Type) := {
  pickle_dump : V -> bytes;
  pickle_load : bytes -> option V;
  pickle_load_dump : forall v, pickle_load (pickle_dump v) = Some v;
  getitem_field : V -> string -> result V;
}.

(** The file system: the regular files by path, and the calls that
    changed it, oldest first.  Directories are not modelled: opening a
    file for writing always succeeds. *)
Inductive fs_event :=
| EvRemove (path : string)
| EvWrite (path : string) (content : bytes).

Record filesystem := {
  files : gmap string bytes;
  events : list fs_event;
}.

(** [os.remove(path)] on an existing file *)
Definition os_remove (path : string) (fs : filesystem) : filesystem :=
  {| files := delete path (files fs); events := events fs ++ [EvRemove path] |}.

(** [with open(path, 'wb') as f: pickle.dump(v, f, protocol=4)] *)
Definition write_pickle `{Example V} (path : string) (v : V) (fs : filesystem)
  : filesystem :=
  {| files := <[path := pickle_dump v]> (files fs);
     events := events fs ++ [EvWrite path (pickle_dump v)] |}.

Module HDDCacheDataset.

(** The attributes of an instance built without [separate_fields] or
    with it; [data] is the wrapped dataset and [cache_dir] the string
    of [Path(cache_dir) / self.identifier]. *)
Record t (V : Type) := {
  data : Dataset.t V;
  cache_dir : string;
  separate_fields : bool;
  keys : list string;
}.
Arguments data {V}. Arguments cache_dir {V}.
Arguments separate_fields {V}. Arguments keys {V}.

(** [def _get_cache_path(self, idx, field=None)] *)
Definition _get_cache_path {V} (self : t V) (idx : Z) (field : option string)
  : string :=
  let path := cache_dir self +:+ "/" +:+ pretty idx in
  match field with
  | Some f => if str_truthy f then path +:+ "_" +:+ f +:+ ".p" else path +:+ ".p"
  | None => path +:+ ".p"
  end.

(** The [if os.path.exists(cache_path): try: ... except: ...] block:
    the value to return when the file was read, and the file system. *)
Definition read_cached `{Example V} (cache_path : string) (fs : filesystem)
  : option V * filesystem :=
  match files fs !! cache_path with
  | Some content =>
      match pickle_load content with
      | Some v => (Some v, fs)
      | None => (None, os_remove cache_path fs)
      end
  | None => (None, fs)
  end.

(** [def _get_example_or_field(self, idx, field=None)] *)
Definition _get_example_or_field `{Example V} (self : t V) (idx : Z)
    (field : option string) (fs : filesystem) : result V * filesystem :=
  let cache_path := _get_cache_path self idx field in
  match read_cached cache_path fs with
  | (Some v, fs) => (Ok v, fs)
  | (None, fs) =>
      let example :=
        example ← Dataset.__getitem__ (data self) idx;
        match field with
        | Some f => getitem_field example f
        | None => Ok example
        end in
      match example with
      | Ok example => (Ok example, write_pickle cache_path example fs)
      | Raise e => (Raise e, fs)
      end
  end.

(** [def __len__(self)], inherited *)
Definition __len__ {V} (self : t V) : Z := Dataset.len (data self).

(** [self[idx]] for an integer [idx] on an instance with
    [separate_fields=False]: [Dataset.__getitem__] followed by
    [get_example]. *)
Definition __getitem__ `{Example V} (self : t V) (idx : Z) (fs : filesystem)
  : result V * filesystem :=
  let idx := if idx <? 0 then idx + __len__ self else idx in
  if (idx <? 0) || (__len__ self <=? idx) then (Raise IndexError, fs)
  else _get_example_or_field self idx None fs.

(** Evaluating the lazy field [k_] of the record that [get_example]
    returns on an instance with [separate_fields=True]. *)
Definition get_example_field `{Example V} (self : t V) (idx : Z) (k : string)
    (fs : filesystem) : result V * filesystem :=
  _get_example_or_field self idx (Some k) fs.

End HDDCacheDataset.

(* ===================================================================== *)
(** * dataset.py, the other dataset views *)
(* ===================================================================== *)

(** ** Iteration

    [Dataset] inherits [__iter__] from [collections.abc.Sequence]: it
    yields [self[0]], [self[1]], ... until an indexing raises
    [IndexError], which ends the iteration; any other exception
    propagates.  [iter_from fuel self i] is the list of the values yielded
    from index [i] on.  [self[len(self)]] raises [IndexError], so
    [len(self) + 1] indexings are enough. *)
Fixpoint iter_from {V} (fuel : nat) (self : Dataset.t V) (i : Z)
  : result (list V) :=
  match fuel with
  | O => Ok []
  | S fuel' =>
      match Dataset.__getitem__ self i with
      | Ok v => rest ← iter_from fuel' self (i + 1); Ok (v :: rest)
      | Raise IndexError => Ok []
      | Raise e => Raise e
      end
  end.

(** [[x for x in dataset]] *)
Definition to_list {V} (self : Dataset.t V) : result (list V) :=
  iter_from (S (Z.to_nat (Dataset.len self))) self 0.

(** [[i for i, d in enumerate(dataset) if func(d)]], from index [i] on:
    [func] is called on each value before the next one is fetched. *)
Fixpoint filter_indices_from {V} (fuel : nat) (self : Dataset.t V)
    (func : V -> result bool) (i : Z) : result (list Z) :=
  match fuel with
  | O => Ok []
  | S fuel' =>
      match Dataset.__getitem__ self i with
      | Ok d =>
          keep ← func d;
          rest ← filter_indices_from fuel' self func (i + 1);
          Ok (if (keep : bool) then i :: rest else rest)
      | Raise IndexError => Ok []
      | Raise e => Raise e
      end
  end.

(** ** class MapDataset(Dataset) *)
Module MapDataset.

(** [def __init__(self, dataset, func=lambda x: x, func_name=None,
    **kwargs)] with [get_example] and the inherited [__len__] *)
Definition __init__ {V W} (count : Z) (dataset : Dataset.t V)
    (func : V -> result W) (func_name : option string)
    (kw_name kw_subset : option string) : Dataset.t W * Z :=
  let transform :=
    "map" +:+ match func_name with
              | Some s => if str_truthy s then "_" +:+ s else ""
              | None => ""
              end in
  let '((n, s, m), count) :=
    Dataset.__init__ "MapDataset" count kw_name kw_subset (MStr transform)
      (Some (Dataset.attrs_of dataset)) in
  ({| Dataset.name := n; Dataset.subset := s; Dataset.modifiers := m;
      Dataset.len := Dataset.len dataset;
      Dataset.get_example := fun idx =>
        d ← Dataset.__getitem__ dataset idx; func d |},
   count).

End MapDataset.

(** ** class ZipDataset(Dataset) *)
(** The builtin [len(d)]: a negative result of [__len__] raises
    [ValueError]. *)
Definition py_len {V} (d : Dataset.t V) : result Z :=
  if Dataset.len d <? 0 then Raise ValueError else Ok (Dataset.len d).

Module ZipDataset.

(** [all(len(d) == len(datasets[0]) for d in datasets)] over the
    remaining datasets: both lengths are taken for each [d], and the
    first difference ends the iteration. *)
Fixpoint all_same_len {V} (first : Dataset.t V) (ds : list (Dataset.t V))
  : result bool :=
  match ds with
  | [] => Ok true
  | d :: rest =>
      a ← py_len d;
      b ← py_len first;
      if a =? b then all_same_len first rest else Ok false
  end.

(** [def __init__(self, datasets, **kwargs)] for
    [datasets = [first] + others], the list that [Dataset.zip] passes.
    An element is the tuple of the elements of the zipped datasets. *)
Definition __init__ {V} (count : Z) (first : Dataset.t V)
    (others : list (Dataset.t V)) (kw_subset : option string)
    (kw_modifiers : modifiers_arg) : result (Dataset.t (list V) * Z) :=
  let datasets := first :: others in
  same ← all_same_len first datasets;
  if negb same
  then Raise ValueError
  else
    let name := "zip[" +:+ String.concat "," (List.map Dataset.identifier datasets)
                +:+ "]" in
    let '((n, s, m), count) :=
      Dataset.__init__ "ZipDataset" count (Some name) kw_subset kw_modifiers None in
    Ok ({| Dataset.name := n; Dataset.subset := s; Dataset.modifiers := m;
           Dataset.len := Dataset.len first;
           Dataset.get_example := fun idx =>
             mapM (fun d => Dataset.__getitem__ d idx) datasets |},
        count).

End ZipDataset.

(** ** class CacheDataset(Dataset) *)
Module CacheDataset.

(** [def __init__(self, dataset, max_cache_size=np.inf, **kwargs)] with
    [get_example]; [max_cache_size] is [None] for [np.inf]. *)
Definition __init__ {V} (count : Z) (dataset : Dataset.t V)
    (max_cache_size : option Z) (kw_name kw_subset : option string)
  : result (Dataset.t V * Z) :=
  let n := Dataset.len dataset in
  let cache_size :=
    match max_cache_size with
    | None => n
    | Some m => Z.min n m
    end in
  let _cache_all := cache_size =? n in
  let modifier :=
    if _cache_all then "cache"
    else "(0.." +:+ pretty (cache_size - 1) +:+ ")" in
  let '((nm, s, m), count) :=
    Dataset.__init__ "CacheDataset" count kw_name kw_subset (MStr modifier)
      (Some (Dataset.attrs_of dataset)) in
  _cached_data ←
    (if _cache_all then to_list dataset
     else mapM (Dataset.__getitem__ dataset) (seqZ 0 cache_size));
  Ok ({| Dataset.name := nm; Dataset.subset := s; Dataset.modifiers := m;
         Dataset.len := n;
         Dataset.get_example := fun idx =>
           let cache_hit :=
             _cache_all || (idx <? Z.of_nat (length _cached_data)) in
           if cache_hit then py_index _cached_data idx
           else Dataset.__getitem__ dataset idx |},
      count).

End CacheDataset.

(** ** class RepeatDataset(Dataset) *)
Module RepeatDataset.

(** [def __init__(self, dataset, number_of_repeats, **kwargs)] with
    [get_example] and [__len__]; [idx % 0] raises. *)
Definition __init__ {V} (count : Z) (dataset : Dataset.t V)
    (number_of_repeats : Z) (kw_name kw_subset : option string)
  : Dataset.t V * Z :=
  let modifier := "repeat(" +:+ pretty number_of_repeats +:+ ")" in
  let '((n, s, m), count) :=
    Dataset.__init__ "RepeatDataset" count kw_name kw_subset (MList [modifier])
      (Some (Dataset.attrs_of dataset)) in
  ({| Dataset.name := n; Dataset.subset := s; Dataset.modifiers := m;
      Dataset.len := Dataset.len dataset * number_of_repeats;
      Dataset.get_example := fun idx =>
        if Dataset.len dataset =? 0 then Raise ZeroDivisionError
        else Dataset.__getitem__ dataset (idx mod Dataset.len dataset) |},
   count).

End RepeatDataset.

(** ** class BatchDataset(Dataset) *)
Module BatchDataset.

(** [def __init__(self, dataset, batch_size, **kwargs)] with
    [get_example] and [__len__]; an element is the tuple of the examples
    of one batch.  [//] is floor division and raises for a zero divisor. *)
Definition __init__ {V} (count : Z) (dataset : Dataset.t V) (batch_size : Z)
    (kw_name kw_subset : option string) : result (Dataset.t (list V) * Z) :=
  let modifier := "batch(" +:+ pretty batch_size +:+ ")" in
  let '((n, s, m), count) :=
    Dataset.__init__ "BatchDataset" count kw_name kw_subset (MStr modifier)
      (Some (Dataset.attrs_of dataset)) in
  if batch_size =? 0 then Raise ZeroDivisionError
  else
    let _length := Dataset.len dataset / batch_size in
    let _length :=
      if _length * batch_size <? Dataset.len dataset then _length + 1
      else _length in
    let _last_batch_size :=
      batch_size - (_length * batch_size - Dataset.len dataset) in
    Ok ({| Dataset.name := n; Dataset.subset := s; Dataset.modifiers := m;
           Dataset.len := _length;
           Dataset.get_example := fun idx =>
             let size :=
               if idx =? _length - 1 then _last_batch_size else batch_size in
             let i_start := idx * batch_size in
             mapM (Dataset.__getitem__ dataset) (seqZ i_start size) |},
        count).

End BatchDataset.

(** ** The composition methods of [Dataset] *)
Module DatasetOps.

(** [def map(self, func, *, func_name=None, **kwargs)] *)
Definition map {V W} (count : Z) (self : Dataset.t V) (func : V -> result W)
    (func_name : option string) (kw_name kw_subset : option string)
  : Dataset.t W * Z :=
  MapDataset.__init__ count self func func_name kw_name kw_subset.

(** [def batch(self, batch_size, **kwargs)] *)
Definition batch {V} (count : Z) (self : Dataset.t V) (batch_size : Z)
    (kw_name kw_subset : option string) : result (Dataset.t (list V) * Z) :=
  BatchDataset.__init__ count self batch_size kw_name kw_subset.

(** [def repeat(self, number_of_repeats, **kwargs)] *)
Definition repeat {V} (count : Z) (self : Dataset.t V) (number_of_repeats : Z)
    (kw_name kw_subset : option string) : Dataset.t V * Z :=
  RepeatDataset.__init__ count self number_of_repeats kw_name kw_subset.

(** [def zip(self, *other, **kwargs)] *)
Definition zip {V} (count : Z) (self : Dataset.t V)
    (other : list (Dataset.t V)) (kw_subset : option string)
    (kw_modifiers : modifiers_arg) : result (Dataset.t (list V) * Z) :=
  ZipDataset.__init__ count self other kw_subset kw_modifiers.

(** [def filter(self, func, *, func_name=None, **kwargs)] *)
Definition filter `{PyRuntime} {V} (count : Z) (self : Dataset.t V)
    (func : V -> result bool) (func_name : option string)
    (kw_name kw_subset : option string) : result (Dataset.t V * Z) :=
  indices ← filter_indices_from (S (Z.to_nat (Dataset.len self))) self func 0;
  let func_name :=
    match func_name with
    | Some s => if str_truthy s then s else format_hex (_subset_hash indices)
    | None => format_hex (_subset_hash indices)
    end in
  SubDataset.__init__ count self (IdxSeq indices)
    (Some (MStr ("filter(" +:+ func_name +:+ ")"))) kw_name kw_subset.

End DatasetOps.

(** ** pathlib, POSIX flavour

    [Path(cache_dir) / self.identifier] as [PurePosixPath] computes it: a
    path is a root (empty, one slash or two) and its components; parsing
    drops empty components and [.]; joining with an absolute right operand
    discards the left one. *)

(** [s.split(sep)] *)
Fixpoint str_split (sep : ascii) (s : string) : list string :=
  match s with
  | EmptyString => [EmptyString]
  | String c s' =>
      if Ascii.eqb c sep then EmptyString :: str_split sep s'
      else match str_split sep s' with
           | [] => [String c EmptyString]
           | w :: ws => String c w :: ws
           end
  end.

(** The number of separators that [part.lstrip(sep)] removes. *)
Fixpoint leading_seps (s : string) : nat :=
  match s with
  | String c s' => if Ascii.eqb c "/" then S (leading_seps s') else 0%nat
  | EmptyString => 0%nat
  end.

Record PurePath := {
  path_root : string;
  path_parts : list string;
}.

(** [splitroot]: exactly two leading slashes are kept as the root [//],
    any other number of them is the root [/]. *)
Definition splitroot (part : string) : string :=
  match leading_seps part with
  | O => ""
  | 2%nat => "//"
  | _ => "/"
  end.

(** [Path(s)] *)
Definition Path (s : string) : PurePath :=
  {| path_root := splitroot s;
     path_parts :=
       List.filter (fun x => str_truthy x && negb (String.eqb x "."))
         (str_split "/" s) |}.

(** [a / b] for a path [a] and a string [b] *)
Definition truediv (a : PurePath) (b : string) : PurePath :=
  let b := Path b in
  if str_truthy (path_root b) then b
  else {| path_root := path_root a;
          path_parts := path_parts a ++ path_parts b |}.

(** [str(p)] *)
Definition path_str (p : PurePath) : string :=
  let s := path_root p +:+ String.concat "/" (path_parts p) in
  if str_truthy s then s else ".".

(** ** Construction of the disk caches *)

(** Reading a slot of an instance: a slot that no assignment has filled
    yet raises [AttributeError]. *)
Definition read_slot {A} (slot : option A) : result A :=
  match slot with
  | Some a => Ok a
  | None => Raise AttributeError
  end.

(** The property [identifier] evaluated on an instance whose slots
    [name], [subset] and [modifiers] are in the given state. *)
Definition identifier_of_slots (name : option string)
    (subset : option (option string)) (modifiers : option (list string))
  : result string :=
  fn ← read_slot name;
  subset ← read_slot subset;
  let fn :=
    match subset with
    | Some s => if str_truthy s then fn +:+ "-" +:+ s else fn
    | None => fn
    end in
  modifiers ← read_slot modifiers;
  Ok (if (0 <? length modifiers)%nat
      then fn +:+ "." +:+ String.concat "." modifiers
      else fn).

(** *** class HDDAndRAMCacheDataset(Dataset) *)
Module HDDAndRAMCacheDataset.

(** [def __init__(self, dataset, cache_dir, chunk_size=100, **kwargs)].
    [self.cache_dir = cache_dir] and [os.makedirs] come first (directories
    are not part of the file-system model); then [cache_path] is built
    from [self.identifier], before [super().__init__] has assigned any of
    [name], [subset], [modifiers].  [rest] stands for the statements after
    the assignment of [cache_path]: loading or building the pickled
    chunks, and the call of [super().__init__]. *)
Definition __init__ {V}
    (rest : string -> filesystem -> result (Dataset.t V * Z) * filesystem)
    (count : Z) (dataset : Dataset.t V) (cache_dir : string) (chunk_size : Z)
    (fs : filesystem) : result (Dataset.t V * Z) * filesystem :=
  match identifier_of_slots None None None with
  | Ok identifier => rest (cache_dir +:+ "/" +:+ identifier +:+ ".p") fs
  | Raise e => (Raise e, fs)
  end.

End HDDAndRAMCacheDataset.

(** [shutil.rmtree(dir)]: every file below [dir] is removed. *)
Definition below (dir path : string) : bool := String.prefix (dir +:+ "/") path.

Definition rmtree (dir : string) (fs : filesystem) : filesystem :=
  let removed :=
    List.filter (below dir) (fst <$> map_to_list (files fs)) in
  {| files := filter (fun kv => below dir (fst kv) = false) (files fs);
     events := events fs ++ (EvRemove <$> removed) |}.

(** *** HDDCacheDataset: construction *)
Module HDDCacheDataset_init.

(** [def delete_cache(self)] *)
Definition delete_cache {V} (self : HDDCacheDataset.t V) (fs : filesystem)
  : filesystem :=
  rmtree (HDDCacheDataset.cache_dir self) fs.

(** The loop [for i in range(consistency_check_sample_count): ...] over
    the remaining values of [i], on an instance with
    [separate_fields=False].  The result is [false] when the loop was
    left by [break], after the cache was deleted. *)
Fixpoint consistency_check `{Example V} (self : HDDCacheDataset.t V)
    (dataset : Dataset.t V) (samples : list Z) (fs : filesystem)
  : result bool * filesystem :=
  match samples with
  | [] => (Ok true, fs)
  | i :: samples' =>
      let ii := i * Dataset.len dataset / 16 in
      match Dataset.__getitem__ dataset ii with
      | Raise e => (Raise e, fs)
      | Ok fresh =>
          match HDDCacheDataset.__getitem__ self ii fs with
          | (Raise e, fs) => (Raise e, fs)
          | (Ok cached, fs) =>
              if negb (String.eqb (pickle_dump fresh) (pickle_dump cached))
              then (Ok false, delete_cache self fs)
              else consistency_check self dataset samples' fs
          end
      end
  end.

(** [def __init__(self, dataset, cache_dir, separate_fields=True,
    **kwargs)] called with [separate_fields=False].
    The slot [cache_dir] holds [Path(cache_dir) / self.identifier]; the
    record keeps its [str], which is what [_get_cache_path] formats. *)
Definition __init__ `{Example V} (count : Z) (dataset : Dataset.t V)
    (cache_dir : string) (kw_name kw_subset : option string) (fs : filesystem)
  : result (HDDCacheDataset.t V * Z) * filesystem :=
  let '((n, s, m), count) :=
    Dataset.__init__ "HDDCacheDataset" count kw_name kw_subset
      (MStr "cache_hdd") (Some (Dataset.attrs_of dataset)) in
  let identifier :=
    Dataset.identifier
      {| Dataset.name := n; Dataset.subset := s; Dataset.modifiers := m;
         Dataset.len := Dataset.len dataset;
         Dataset.get_example := Dataset.get_example dataset |} in
  let self :=
    {| HDDCacheDataset.data := dataset;
       HDDCacheDataset.cache_dir := path_str (truediv (Path cache_dir) identifier);
       HDDCacheDataset.separate_fields := false;
       HDDCacheDataset.keys := [] |} in
  match consistency_check self dataset (seqZ 0 16) fs with
  | (Raise e, fs) => (Raise e, fs)
  | (Ok _, fs) => (Ok (self, count), fs)
  end.

End HDDCacheDataset_init.

(** [def cache(self, max_cache_size=np.inf, directory=None,
    chunk_size=100, **kwargs)] of [Dataset]; [rest] is the continuation
    of [HDDAndRAMCacheDataset.__init__]. *)
Definition cache {V}
    (rest : string -> filesystem -> result (Dataset.t V * Z) * filesystem)
    (count : Z) (self : Dataset.t V) (max_cache_size : option Z)
    (directory : option string) (chunk_size : Z)
    (kw_name kw_subset : option string) (fs : filesystem)
  : result (Dataset.t V * Z) * filesystem :=
  match directory with
  | Some dir => HDDAndRAMCacheDataset.__init__ rest count self dir chunk_size fs
  | None => (CacheDataset.__init__ count self max_cache_size kw_name kw_subset, fs)
  end.

(* ===================================================================== *)
(** * Vocabulary of the statements *)
(* ===================================================================== *)

(** The perturbation with which [perturb_iterative] starts. *)
Definition initial_delta (x : tensor) (delta_init : option tensor) : tensor :=
  match delta_init with None => zeros_like x | Some d => d end.

(** [x + delta], clipped when clip bounds are given: the last two lines
    of [perturb_iterative]. *)
Definition apply_delta (x delta : tensor) (clip_bounds : option (Q * Q)) : tensor :=
  match clip_bounds with
  | None => tadd x delta
  | Some b => clamp (tadd x delta) b
  end.



(** [grad_preprocessing] is one of the two documented modes. *)
Definition grad_preprocessing_supported (gp : grad_preprocessing_arg) : bool :=
  match gp with
  | GPSign | GPNormalize => true
  | GPOther _ => false
  end.

(** Two tensors have the same shape: as many examples, and example by
    example as many entries.  Elementwise operations on such operands
    neither broadcast nor fail. *)
Definition same_shape (a b : tensor) : Prop :=
  Forall2 (fun r s : list Q => length r = length s) a b.

(** The loop invariant of [perturb_iterative] without early stopping: the
    batch is the caller's, and the perturbation and the accumulated
    gradient have its shape. *)
Definition shapes_kept (x : tensor) (st : pi_state) : Prop :=
  st_x st = x
  /\ same_shape (st_delta st) x
  /\ (forall acc, st_delta_grad st = Some acc -> same_shape acc x).


(** The local variables with which the loop is left when the first check
    succeeds for the whole batch: one iteration was started ([st_times],
    [st_step]), the working batch is empty. *)
Definition state_after_first_check (x : tensor) (y : labels) (delta : tensor)
    (success : list bool) : pi_state :=
  {| st_x := []; st_y := []; st_delta := []; st_delta_grad := None;
     st_xs := [x; []]; st_ys := [y; []]; st_deltas := [delta];
     st_successes := [success]; st_origins := [[]]; st_origin := [];
     st_times := 1; st_step := Some 0%nat |}.

(* ===================================================================== *)
(** * Concrete collaborators, used to run the definitions *)
(* ===================================================================== *)

(** An engine whose model returns its input as logits and whose loss has
    gradient one everywhere. *)
Definition identity_engine : Engine.
Proof.
  refine {|
    Model := unit;
    Loss := unit;
    forward := fun _ x => x;
    autograd := fun _ _ x _ => tmap (fun _ => 1%Q) x;
    SoftmaxCrossEntropyLoss := tt;
    project_to_p_ball := fun d r _ => tmap (Qclamp (- r) r) d;
    batch_norm := fun g _ => map (fun _ => 1%Q) g;
    ops_clamp := fun x lo hi => clamp x (lo, hi);
    ops_atanh := fun x => x;
  |}.
  intros _ _ x _. unfold tmap. apply length_map.
Defined.

(** A runtime with assertions enabled, whose "permutation" rotates the
    indices by the seed. *)
Definition rotating_runtime : PyRuntime :=
  {| py_debug := true;
     hash_tuple := fun l => foldr Z.add 0 l;
     permutation := fun seed n =>
       map (fun i => (Z.of_nat i + seed) mod n) (seq 0 (Z.to_nat n));
     randint_stream := fun seed n k => map (fun _ => seed mod n) (seq 0 k) |}.

(** Examples that are strings, pickled by prefixing a tag. *)
Definition tagged_string_example : Example string.
Proof.
  refine {|
    pickle_dump := fun v => String "P"%char v;
    pickle_load := fun b =>
      match b with
      | String c v => if Ascii.eqb c "P"%char then Some v else None
      | EmptyString => None
      end;
    getitem_field := fun v f => Ok (v +:+ "." +:+ f);
  |}.
  intros v. reflexivity.
Defined.

(** A subclass of [Attack] whose body is [pass]. *)
Definition Broken `{Engine} : Attack.subclass :=
  {| Attack.cls_name := "Broken"; Attack.cls__perturb := None |}.

(** A gradient-sign attack on the identity model, as its constructor
    leaves it with default arguments. *)
Definition fgsm_instance : @Attack.instance identity_engine :=
  {| Attack.mro := [GradientSignAttack.cls (1 # 10)];
     Attack.attrs :=
       {| Attack.model := tt : @Model identity_engine;
          Attack.loss := LossModule SoftmaxCrossEntropyLoss;
          Attack.clip_bounds := None;
          Attack.get_predicted_label := _predict_hard;
          Attack.is_success := classification_untargeted_is_sucess |} |}.

(** A batch of two examples with two features each. *)
Definition demo_batch : tensor := [[1 # 2; 1 # 4]; [3 # 4; 1 # 1]].

Definition demo_loss : @loss_fn identity_engine :=
  LossModule (tt : @Loss identity_engine).

(** The same attack with clip bounds [(0, 1)], and what it returns on
    [demo_batch] with labels [[0; 1]]. *)
Definition fgsm_clipped_instance : @Attack.instance identity_engine :=
  {| Attack.mro := [GradientSignAttack.cls (1 # 10)];
     Attack.attrs :=
       {| Attack.model := tt : @Model identity_engine;
          Attack.loss := LossModule SoftmaxCrossEntropyLoss;
          Attack.clip_bounds := Some (0, 1)%Q;
          Attack.get_predicted_label := _predict_hard;
          Attack.is_success := classification_untargeted_is_sucess |} |}.

Definition fgsm_clipped_result : tensor * Namespace :=
  match Attack.perturb fgsm_clipped_instance demo_batch (Some [0; 1]) with
  | Ok r => r
  | Raise _ => ([], {| ns_x := []; ns_y := []; ns_x_adv := [] |})
  end.

(** A success predicate that holds for every example. *)
Definition always_success : success_fn := fun pred _ =>
  Ok (map (fun _ => true) pred).

(** The parameters of a PGD attack with three steps, a fixed draw for the
    random start, and no early stopping. *)
Definition pgd_params : PGDAttack.params :=
  {| PGDAttack.eps := 8 # 255;
     PGDAttack.step_count := 3;
     PGDAttack.step_size := 2 # 255;
     PGDAttack.grad_preprocessing := GPSign;
     PGDAttack.rand_init := true;
     PGDAttack.p := PInf;
     PGDAttack.stop_on_success := false;
     PGDAttack.rand_sample := [[1 # 2; (-1) # 2]; [1 # 1; 0 # 1]] |}.


(** A per-example cache of [abc_dataset] below, and a file system in
    which the file of index 1 does not unpickle. *)
Definition corrupt_content : bytes := "garbage".

(** A three-element dataset over raw data. *)
Definition abc_dataset : Dataset.t string :=
  {| Dataset.name := "abc"; Dataset.subset := Some "train";
     Dataset.modifiers := [];
     Dataset.len := 3;
     Dataset.get_example := fun i =>
       match ["a"; "b"; "c"] !! Z.to_nat i with
       | Some v => Ok v
       | None => Raise IndexError
       end |}.

Definition abc_cache : HDDCacheDataset.t string :=
  {| HDDCacheDataset.data := abc_dataset;
     HDDCacheDataset.cache_dir := "cache/abc-train.cache_hdd";
     HDDCacheDataset.separate_fields := false;
     HDDCacheDataset.keys := [] |}.

Definition abc_corrupt_fs : filesystem :=
  {| files := <["cache/abc-train.cache_hdd/1.p" := corrupt_content]>
              (<["cache/abc-train.cache_hdd/0.p" := String "P"%char "a"]> ∅);
     events := [] |}.

(** The element of [abc_dataset] at a valid index. *)
Definition abc_element (j : Z) : string :=
  match j with 0 => "a" | 1 => "b" | _ => "c" end.

(** Two examples sampled from [abc_dataset] without replacement. *)
Definition abc_sample : Dataset.t string * Z :=
  match sample (H := rotating_runtime) 0 abc_dataset 2 false 53 None None with
  | Ok r => r
  | Raise _ => (abc_dataset, 0)
  end.

(** A cache in the directory of [abc_cache] over a dataset whose
    elements have changed. *)
Definition abc_cache_stale : HDDCacheDataset.t string :=
  {| HDDCacheDataset.data :=
       {| Dataset.name := "abc"; Dataset.subset := Some "train";
          Dataset.modifiers := []; Dataset.len := 3;
          Dataset.get_example := fun _ => Ok "changed" |};
     HDDCacheDataset.cache_dir := "cache/abc-train.cache_hdd";
     HDDCacheDataset.separate_fields := false;
     HDDCacheDataset.keys := [] |}.

(** A dataset without examples. *)
Definition empty_dataset : Dataset.t string :=
  {| Dataset.name := "empty"; Dataset.subset := None; Dataset.modifiers := [];
     Dataset.len := 0; Dataset.get_example := fun _ => Raise IndexError |}.

(** A file system holding the cached examples 0 and 1 of the original
    [abc_dataset], and a file of another dataset. *)
Definition abc_fresh_fs : filesystem :=
  {| files := <["cache/abc-train.cache_hdd/1.p" := String "P"%char "b"]>
              (<["cache/abc-train.cache_hdd/0.p" := String "P"%char "a"]>
              (<["cache/other.cache_hdd/0.p" := String "P"%char "z"]> ∅));
     events := [] |}.

(** The first two examples of [abc_dataset] cached in memory. *)
Definition abc_cached : Dataset.t string * Z :=
  match CacheDataset.__init__ 0 abc_dataset (Some 2) None None with
  | Ok r => r
  | Raise _ => (abc_dataset, 0)
  end.

(* ===================================================================== *)
(** * Properties of attacks.py *)
(* ===================================================================== *)

(** ** The exception monad *)

Lemma bind_Ok {A B} (f : A -> result B) (a : A) : (Ok a ≫= f) = f a.
Proof. reflexivity. Qed.

Lemma bind_Raise {A B} (f : A -> result B) (e : exn) : (Raise e ≫= f) = Raise e.
Proof. reflexivity. Qed.

Lemma py_index_head {A} (a : A) (l : list A) : py_index (a :: l) 0 = Ok a.
Proof. reflexivity. Qed.

Lemma py_index_last_singleton {A} (a : A) : py_index [a] (-1) = Ok a.
Proof. reflexivity. Qed.

Lemma update_times_two (d0 d1 : tensor) :
  length d0 <> 0%nat -> update_times [d0; d1] = Ok ().
Proof.
  intros Hd0. unfold update_times.
  change (py_index [d0; d1] _) with (Ok d0).
  rewrite !bind_Ok.
  destruct (Nat.eqb_spec (length d0) 0); [contradiction | reflexivity].
Qed.

Lemma update_times_one (d0 : tensor) :
  update_times [d0]
  = if (length d0 =? 0)%nat then Raise ZeroDivisionError else Ok ().
Proof. reflexivity. Qed.

Lemma mask_select_ok {A} (mask : list bool) (l : list A) :
  length mask = length l -> mask_select mask l = Ok (mask_filter mask l).
Proof.
  intros Hlen. unfold mask_select.
  rewrite Hlen, Nat.eqb_refl. reflexivity.
Qed.

(** ** The constructor check of [Attack] *)

(** [type(...)] always yields a type object, and a type object is never
    equal to a function object. *)
Lemma py_type_ne_function (o : pyobj) (qualname : string) :
  py_eq (py_type o) (PyFunction qualname) = false.
Proof. destruct o; reflexivity. Qed.

Lemma lookup__perturb_inherited `{Engine} (mro : list Attack.subclass) :
  Forall (fun c => Attack.cls__perturb c = None) mro ->
  Attack.lookup__perturb mro = ("Attack._perturb", Attack._perturb).
Proof.
  induction 1 as [|c rest Hc _ IH]; simpl.
  - reflexivity.
  - rewrite Hc. exact IH.
Qed.

(** The constructor never raises, whatever the class of [self] is. *)
Lemma Attack_init_total `{Engine} (mro : list Attack.subclass) (model : Model)
    loss clip_bounds is_success get_predicted_label :
  exists a, Attack.__init__ mro model loss clip_bounds is_success
              get_predicted_label
            = Ok {| Attack.mro := mro; Attack.attrs := a |}.
Proof.
  unfold Attack.__init__, Attack._perturb_function.
  rewrite py_type_ne_function. eauto.
Qed.

(** C1. A subclass of [Attack] that does not override [_perturb] is
    constructed without any error: the comparison in [Attack.__init__] is
    between the type of a bound method and a function object and is never
    true.  The missing override only shows when [perturb] is called, as
    the [NotImplementedError] of the inherited [_perturb]. *)
Theorem Attack_init_accepts_missing_override `{Engine}
    (mro : list Attack.subclass) (model : Model) loss clip_bounds is_success
    get_predicted_label :
  Forall (fun c => Attack.cls__perturb c = None) mro ->
  exists self,
    Attack.__init__ mro model loss clip_bounds is_success get_predicted_label
      = Ok self
    /\ forall x y, Attack.perturb self x (Some y) = Raise NotImplementedError.
Proof.
  intros Hmro.
  destruct (Attack_init_total mro model loss clip_bounds is_success
              get_predicted_label) as [a Ha].
  eexists. split; [exact Ha|].
  intros x y. unfold Attack.perturb. simpl.
  rewrite (lookup__perturb_inherited mro Hmro). reflexivity.
Qed.

Lemma Attack_init_accepts_missing_override_witness :
  exists self,
    Attack.__init__ (H := identity_engine) [Broken] tt None None None None
      = Ok self
    /\ forall x y, Attack.perturb self x (Some y) = Raise NotImplementedError.
Proof.
  apply (Attack_init_accepts_missing_override (H := identity_engine) [Broken]).
  constructor; [reflexivity | constructor].
Defined.

(** ** [perturb] without a label *)

Lemma predict_hard_one_argument `{Engine} (v : pyval) :
  _predict_hard [v] = Raise TypeError.
Proof. reflexivity. Qed.

(** C2. With the default [_predict_hard] as predicted-label function,
    [perturb(x)] without a label raises [TypeError]: the two-parameter
    function [_predict_hard(predict, x)] is called as
    [self.get_predicted_label(x)], without the model.  No label is
    derived and the perturbation step is not reached. *)
Theorem perturb_without_label_raises `{Engine} (self : Attack.instance)
    (x : tensor) :
  Attack.get_predicted_label (Attack.attrs self) = _predict_hard ->
  Attack.perturb self x None = Raise TypeError.
Proof.
  intros Hdefault. unfold Attack.perturb.
  rewrite Hdefault, predict_hard_one_argument. reflexivity.
Qed.

Lemma perturb_without_label_raises_witness :
  Attack.perturb fgsm_instance [[1 # 2; 1 # 4]] None = Raise TypeError.
Proof.
  apply (perturb_without_label_raises (H := identity_engine)).
  reflexivity.
Defined.

(** The same for the instances that the constructors build by default. *)
Lemma default_attack_perturb_without_label `{Engine} (model : Model) (eps : Q)
    (x : tensor) :
  (GradientSignAttack.__init__ model None None None None eps
     ≫= fun self => Attack.perturb self x None) = Raise TypeError.
Proof. reflexivity. Qed.

(** ** Success predicates *)

(** C10. The targeted and the untargeted success predicate compute the
    same thing, [pred.argmax(dim=1) != label]; in particular the targeted
    one reports no success for an example whose prediction is the
    target label. *)
Theorem targeted_is_untargeted (pred : tensor) (label : labels) :
  classification_targeted_is_sucess pred label
    = classification_untargeted_is_sucess pred label
  /\ classification_targeted_is_sucess pred label
    = (argmax_dim1 pred ≫= fun am => ne_tensor am label)
  /\ forall v r,
       classification_targeted_is_sucess [v :: r] [argmax_from v 0 1 r]
         = Ok [false].
Proof.
  split; [reflexivity|]. split; [reflexivity|].
  intros v r. unfold classification_targeted_is_sucess. simpl.
  unfold ne_tensor. simpl. rewrite Z.eqb_refl. reflexivity.
Qed.

(** ** The iterative optimizer *)

(** C5. With [step_count = 0] the call raises: the loop body never binds
    [step], and the [else] clause of the loop, which runs because the loop
    was not left by [break], executes [step += 1]. *)
Theorem perturb_iterative_zero_steps `{Engine} (x : tensor) (y : labels)
    (predict : Model) (eps step_size : Q) (loss : loss_fn)
    (grad_preprocessing : grad_preprocessing_arg) (delta_init : option tensor)
    (p : pnorm) (clip_bounds : option (Q * Q))
    (is_success_for_stopping : option success_fn) :
  perturb_iterative x y predict 0 eps step_size loss grad_preprocessing
    delta_init p clip_bounds is_success_for_stopping
  = Raise UnboundLocalError.
Proof.
  unfold perturb_iterative, perturb_iterative_run.
  (* [range(0)] is empty: the loop ends at once, not by [break] *)
  change (seq 0 (Z.to_nat 0)) with (@nil nat). cbn [pi_loop].
  rewrite bind_Ok.
  (* the [else] clause reads [step], which is still unbound *)
  cbn [pi_else st_step]. reflexivity.
Qed.

(** The same through [PGDAttack]: an attack configured with
    [step_count=0] raises in its perturbation step. *)
Lemma PGDAttack_perturb_zero_steps `{Engine} (ps : PGDAttack.params)
    (self : Attack.t) (x : tensor) (y : labels) :
  PGDAttack.step_count ps = 0 ->
  PGDAttack._perturb ps self x y = Raise UnboundLocalError.
Proof.
  intros Hzero. unfold PGDAttack._perturb. rewrite Hzero. reflexivity.
Qed.

(** ** The Carlini-Wagner constructor *)

(** C7. A [CarliniWagnerL2Attack] cannot be constructed, with any
    [binary_search_steps] and [max_iter]: a given [loss] is rejected with
    [NotImplementedError], and without one the constructor calls
    [get_carlini_loss()] with no arguments, which raises [TypeError]. *)
Theorem CarliniWagnerL2Attack_init_raises `{Engine}
    (search : Attack.t -> tensor -> tensor -> labels -> result tensor)
    (model : Model) (loss : option loss_fn) (clip_bounds : option (Q * Q))
    (is_success : option success_fn) (get_predicted_label : callable)
    (ps : CarliniWagnerL2Attack.params) :
  CarliniWagnerL2Attack.__init__ search model loss clip_bounds is_success
    get_predicted_label ps
  = Raise (match loss with
           | None => TypeError
           | Some _ => NotImplementedError
           end).
Proof. destruct loss; reflexivity. Qed.

(** Even on an instance carrying exactly the attributes the constructor
    assigns, [_perturb] stops at [self._arctanh_clip(x)]: [clip_min] is
    never assigned. *)
Lemma CarliniWagnerL2Attack_perturb_raises `{Engine}
    (ps : CarliniWagnerL2Attack.params)
    (search : Attack.t -> tensor -> tensor -> labels -> result tensor)
    (self : Attack.t) (x : tensor) (y : labels) :
  CarliniWagnerL2Attack._perturb ps search self x y = Raise AttributeError.
Proof.
  unfold CarliniWagnerL2Attack._perturb, CarliniWagnerL2Attack._arctanh_clip.
  assert (Hmin : CarliniWagnerL2Attack.getattr_num
                   (CarliniWagnerL2Attack.own_attributes ps) "clip_min"
                 = Raise AttributeError).
  { unfold CarliniWagnerL2Attack.getattr_num,
      CarliniWagnerL2Attack.own_attributes.
    rewrite bool_decide_eq_false_2.
    - repeat (rewrite lookup_insert_ne by discriminate).
      rewrite lookup_empty. reflexivity.
    - unfold CarliniWagnerL2Attack.base_attributes.
      rewrite !elem_of_cons, elem_of_nil. intros H0.
      repeat (destruct H0 as [H0|H0]; [discriminate|]). exact H0. }
  rewrite Hmin. reflexivity.
Qed.

(** ** The first success check of [perturb_iterative] *)

Lemma all_true_negb_false (mask : list bool) :
  all_true mask = true -> mask <> [] -> all_true (map negb mask) = false.
Proof.
  destruct mask as [|b mask]; [congruence|].
  unfold all_true. simpl. intros Hall _.
  apply andb_true_iff in Hall as [Hb _].
  unfold id in Hb. rewrite Hb. reflexivity.
Qed.

Lemma mask_filter_negb_all_true {A} (mask : list bool) (l : list A) :
  all_true mask = true -> mask_filter (map negb mask) l = [].
Proof.
  revert l. induction mask as [|b mask IH]; intros l Hall; [reflexivity|].
  unfold all_true in Hall. simpl in Hall.
  apply andb_true_iff in Hall as [Hb Hall]. unfold id in Hb. subst b.
  destruct l as [|a l]; [reflexivity|]. simpl. apply IH. exact Hall.
Qed.

Lemma length_tadd (a b : tensor) :
  length a = length b -> length (tadd a b) = length a.
Proof.
  intros Hlen. unfold tadd, tmap2. rewrite length_zip_with. lia.
Qed.

Lemma perturb_iterative_run_first_check `{Engine} (x : tensor) (y : labels)
    (predict : Model) (step_count : Z) (eps step_size : Q) (l : Loss)
    (gp : grad_preprocessing_arg) (delta_init : option tensor) (p : pnorm)
    (clip_bounds : option (Q * Q)) (is_success : success_fn)
    (success : list bool) :
  let delta := initial_delta x delta_init in
  1 <= step_count ->
  x <> [] ->
  length y = length x ->
  length delta = length x ->
  is_success (forward predict (tadd x delta)) y = Ok success ->
  length success = length x ->
  all_true success = true ->
  perturb_iterative_run x y predict step_count eps step_size (LossModule l) gp
    delta_init p clip_bounds (Some is_success)
  = Ok (apply_delta x delta clip_bounds,
        state_after_first_check x y delta success).
Proof.
  intros delta Hsteps Hx Hy Hdelta Hcheck Hsuccess Hall.
  assert (Hne : success <> []).
  { intros ->. destruct x; [congruence | discriminate]. }
  unfold perturb_iterative_run. fold (initial_delta x delta_init). fold delta.
  destruct (Z.to_nat step_count) as [|n] eqn:Hn; [lia|].
  cbn [seq pi_loop].
  unfold pi_body at 1. cbn [loss_backward st_x st_y st_delta st_delta_grad].
  rewrite bind_Ok.
  unfold pi_early_stop.
  cbn [st_x st_y st_delta st_delta_grad st_xs st_ys st_deltas st_successes
       st_origins st_origin st_times st_step].
  rewrite Hcheck, bind_Ok.
  rewrite (all_true_negb_false success Hall Hne). cbn [negb].
  rewrite !mask_select_ok, !bind_Ok;
    rewrite ?length_map, ?length_seq, ?autograd_length, ?length_tadd;
    try congruence.
  rewrite !mask_filter_negb_all_true by exact Hall.
  rewrite Hall.
  unfold deltas_of. cbn [st_deltas st_delta app].
  rewrite update_times_two
    by (rewrite Hdelta; destruct x; [congruence | discriminate]).
  rewrite !bind_Ok. cbn [pi_finish].
  unfold pi_finish, fill_last_true, deltas_of.
  cbn [st_successes st_xs st_deltas st_delta st_origins app].
  rewrite py_index_last_singleton, !bind_Ok.
  rewrite !py_index_head, !bind_Ok.
  cbn [length Nat.sub seq app take pi_scatter].
  rewrite bind_Ok.
  unfold apply_delta, state_after_first_check.
  destruct clip_bounds; reflexivity.
Qed.

Lemma perturb_iterative_of_run `{Engine} x y predict step_count eps step_size
    loss gp delta_init p clip_bounds stop r :
  perturb_iterative_run x y predict step_count eps step_size loss gp delta_init
    p clip_bounds stop = r ->
  perturb_iterative x y predict step_count eps step_size loss gp delta_init
    p clip_bounds stop = (r ≫= fun v => Ok (fst v)).
Proof. intros <-. reflexivity. Qed.

(** C6, on a batch that contains an example.  For such a batch and
    [step_count >= 1], when early stopping is enabled and the success
    predicate holds for every example at the first check, the optimizer
    leaves the loop in its first iteration whatever [step_count] is:
    exactly one iteration is started,
    [step] is [0], no update of the perturbation is made, and the input
    plus the initial perturbation is returned (clipped when clip bounds
    are given). *)
Theorem early_stop_after_one_step `{Engine} (x : tensor) (y : labels)
    (predict : Model) (step_count : Z) (eps step_size : Q) (l : Loss)
    (gp : grad_preprocessing_arg) (delta_init : option tensor) (p : pnorm)
    (clip_bounds : option (Q * Q)) (is_success : success_fn) :
  let delta := initial_delta x delta_init in
  1 <= step_count ->
  (0 < length x)%nat ->
  length y = length x ->
  length delta = length x ->
  is_success (forward predict (tadd x delta)) y = Ok (replicate (length x) true) ->
  perturb_iterative x y predict step_count eps step_size (LossModule l) gp
    delta_init p clip_bounds (Some is_success)
  = Ok (apply_delta x delta clip_bounds)
  /\ exists st,
       perturb_iterative_run x y predict step_count eps step_size
         (LossModule l) gp delta_init p clip_bounds (Some is_success)
       = Ok (apply_delta x delta clip_bounds, st)
       /\ st_times st = 1%nat
       /\ st_step st = Some 0%nat
       /\ st_deltas st = [delta].
Proof.
  intros delta Hsteps Hx Hy Hdelta Hcheck.
  assert (Hrun := perturb_iterative_run_first_check x y predict step_count eps
                    step_size l gp delta_init p clip_bounds is_success
                    (replicate (length x) true)).
  cbv zeta in Hrun. fold delta in Hrun.
  specialize (Hrun Hsteps).
  assert (Hne : x <> []) by (intros ->; simpl in Hx; lia).
  assert (Hall : all_true (replicate (length x) true) = true).
  { unfold all_true. apply forallb_forall. intros b Hb.
    apply list_elem_of_In, elem_of_replicate in Hb as [-> _]. reflexivity. }
  specialize (Hrun Hne Hy Hdelta Hcheck (length_replicate _ _) Hall).
  split.
  - rewrite (perturb_iterative_of_run _ _ _ _ _ _ _ _ _ _ _ _ _ Hrun).
    reflexivity.
  - eexists. split; [exact Hrun|]. repeat split.
Qed.

Lemma early_stop_after_one_step_witness :
  perturb_iterative (H := identity_engine) demo_batch [0; 1] tt
    40 (8 # 255) (2 # 255) demo_loss GPSign None PInf (Some (0, 1)%Q)
    (Some always_success)
  = Ok (apply_delta demo_batch
          (initial_delta demo_batch None) (Some (0, 1)%Q))
  /\ exists st,
       perturb_iterative_run (H := identity_engine)
         demo_batch [0; 1] tt
         40 (8 # 255) (2 # 255) demo_loss GPSign None PInf
         (Some (0, 1)%Q) (Some always_success)
       = Ok (apply_delta demo_batch
               (initial_delta demo_batch None)
               (Some (0, 1)%Q), st)
       /\ st_times st = 1%nat
       /\ st_step st = Some 0%nat
       /\ st_deltas st = [initial_delta demo_batch None].
Proof.
  apply (early_stop_after_one_step (H := identity_engine)
           demo_batch [0; 1] tt 40 (8 # 255) (2 # 255) (tt : @Loss identity_engine)
           GPSign None PInf (Some (0, 1)%Q) always_success).
  - lia.
  - simpl. lia.
  - reflexivity.
  - reflexivity.
  - reflexivity.
Defined.

(** The batch has to contain an example: with none, [fail.all()] holds
    vacuously, the early-stopping block is skipped, and the first
    iteration ends in [update_times], which divides by the batch length. *)
Lemma early_stop_empty_batch :
  perturb_iterative (H := identity_engine) [] [] tt 40 (8 # 255) (2 # 255)
    demo_loss GPSign None PInf (Some (0, 1)%Q) (Some always_success)
  = Raise ZeroDivisionError.
Proof. reflexivity. Qed.

(** C6, on the empty batch.  The success predicate holds for every
    example (it returns one boolean per example, hence none), yet the
    loop is not left at the first check: [fail.all()] holds vacuously, so
    the early-stopping block with its [break] is skipped, the update is
    made, and the first iteration ends in [update_times], which divides by
    the batch length and raises [ZeroDivisionError]; this holds for every
    [step_count >= 1], model, loss module, labels, [eps], [step_size],
    clip bounds and supported gradient preprocessing. *)
Theorem early_stop_empty_batch_raises `{Engine} (y : labels) (predict : Model)
    (step_count : Z) (eps step_size : Q) (l : Loss)
    (gp : grad_preprocessing_arg) (clip_bounds : option (Q * Q))
    (is_success : success_fn) :
  1 <= step_count ->
  grad_preprocessing_supported gp = true ->
  project_to_p_ball [] eps PInf = [] ->
  is_success (forward predict []) y = Ok [] ->
  perturb_iterative [] y predict step_count eps step_size (LossModule l) gp
    None PInf clip_bounds (Some is_success)
  = Raise ZeroDivisionError.
Proof.
  intros Hsteps Hgp Hproj Hsucc.
  unfold perturb_iterative, perturb_iterative_run.
  destruct (Z.to_nat step_count) as [|n] eqn:Hn; [lia|].
  change (seq 0 (S n)) with (0%nat :: seq 1 n).
  cbn [pi_loop]. unfold pi_body at 1.
  cbn [st_x st_y st_delta st_delta_grad zeros_like tmap map tadd tmap2 zip_with
       loss_backward].
  rewrite !bind_Ok. unfold pi_early_stop.
  cbn [st_x st_y st_delta st_delta_grad]. rewrite Hsucc, bind_Ok.
  cbn [map all_true forallb negb]. rewrite !bind_Ok.
  unfold pi_update.
  assert (Hpgrad : exists pgrad,
            apply_grad_preprocessing gp PInf (autograd predict l [] y)
            = Ok pgrad).
  { destruct gp; try discriminate; cbn [apply_grad_preprocessing]; eauto. }
  destruct Hpgrad as (pgrad & ->). rewrite bind_Ok.
  cbn [p_is_inf st_x st_delta tadd tmap2 zip_with]. rewrite Hproj.
  destruct clip_bounds as [b|]; reflexivity.
Qed.

Lemma early_stop_empty_batch_raises_witness :
  perturb_iterative (H := identity_engine) [] [] tt 40 (8 # 255) (2 # 255)
    demo_loss GPSign None PInf (Some (0, 1)%Q) (Some always_success)
  = Raise ZeroDivisionError.
Proof.
  apply (early_stop_empty_batch_raises (H := identity_engine) [] tt 40
           (8 # 255) (2 # 255) (tt : @Loss identity_engine) GPSign
           (Some (0, 1)%Q) always_success).
  - lia.
  - reflexivity.
  - reflexivity.
  - reflexivity.
Defined.

(** ** Norms 1 and 2 *)





(* ===================================================================== *)
(** * Properties of dataset.py *)
(* ===================================================================== *)

(** ** Identity *)

(** The identifier is determined by name, subset and modifier list. *)
Lemma identifier_deterministic {V W} (d : Dataset.t V) (d' : Dataset.t W) :
  Dataset.attrs_of d = Dataset.attrs_of d' ->
  Dataset.identifier d = Dataset.identifier d'.
Proof.
  unfold Dataset.attrs_of, Dataset.identifier. intros [= -> -> ->]. reflexivity.
Qed.

(** The instance counter does not enter the attributes of a wrapper. *)
Lemma Dataset_init_wrapper_attrs (cname : string) (count : Z) name subset
    modifiers (attrs : string * option string * list string) :
  fst (Dataset.__init__ cname count name subset modifiers (Some attrs))
  = (default (fst (fst attrs)) (or_str name None),
     or_str subset (snd (fst attrs)),
     match modifiers with
     | MNone => snd attrs
     | MStr s => if str_truthy s then snd attrs ++ [s] else snd attrs
     | MList l => snd attrs ++ l
     end).
Proof.
  destruct attrs as [[n s] m]. unfold Dataset.__init__. cbn [fmap option_fmap
    option_map mbind option_bind default fst snd].
  destruct name as [nm|]; cbn [or_str]; [destruct (str_truthy nm)|]; reflexivity.
Qed.

Lemma permute_attrs `{PyRuntime} {V} (count : Z) (D : Dataset.t V) (seed : Z)
    (kw_name kw_subset : option string) :
  exists d c,
    permute count D seed kw_name kw_subset = Ok (d, c)
    /\ Dataset.attrs_of d
       = (default (Dataset.name D) (or_str kw_name None),
          or_str kw_subset (Dataset.subset D),
          Dataset.modifiers D ++ ["permute({seed})"]).
Proof.
  unfold permute, SubDataset.__init__. cbn [default from_option id].
  pose proof (Dataset_init_wrapper_attrs "SubDataset" count kw_name kw_subset
                (MStr "permute({seed})") (Dataset.attrs_of D)) as Hattrs.
  destruct (Dataset.__init__ "SubDataset" count kw_name kw_subset
              (MStr "permute({seed})") (Some (Dataset.attrs_of D)))
    as [[[n s] m] c].
  cbn [fst] in Hattrs. eexists _, c. split; [reflexivity|].
  unfold Dataset.attrs_of at 1. cbn [Dataset.name Dataset.subset Dataset.modifiers].
  exact Hattrs.
Qed.

(** C3. [permute] records the literal text [permute({seed})] as its
    modifier, so the views of one dataset under any two seeds carry the
    same modifier list and the same identifier, although no index hash is
    involved. *)
Theorem permute_identifier_ignores_seed `{PyRuntime} {V} (D : Dataset.t V)
    (count count' seed seed' : Z) (kw_name kw_subset : option string) :
  exists d d' c c',
    permute count D seed kw_name kw_subset = Ok (d, c)
    /\ permute count' D seed' kw_name kw_subset = Ok (d', c')
    /\ Dataset.modifiers d = Dataset.modifiers D ++ ["permute({seed})"]
    /\ Dataset.identifier d = Dataset.identifier d'.
Proof.
  destruct (permute_attrs count D seed kw_name kw_subset) as (d & c & Hd & Ha).
  destruct (permute_attrs count' D seed' kw_name kw_subset) as (d' & c' & Hd' & Ha').
  exists d, d', c, c'. repeat split; try assumption.
  - unfold Dataset.attrs_of in Ha. congruence.
  - apply identifier_deterministic. congruence.
Qed.

(** Two views of [abc_dataset] that order the examples differently and
    have one identifier. *)
Lemma permute_seed_1_seed_2 :
  (permute (H := rotating_runtime) 0 abc_dataset 1 None None
     ≫= fun r => Ok (Dataset.identifier (fst r), Dataset.__getitem__ (fst r) 0))
  = Ok ("abc-train.permute({seed})", Ok "b")
  /\ (permute (H := rotating_runtime) 0 abc_dataset 2 None None
     ≫= fun r => Ok (Dataset.identifier (fst r), Dataset.__getitem__ (fst r) 0))
  = Ok ("abc-train.permute({seed})", Ok "c").
Proof. split; reflexivity. Qed.

(** ** [sample] *)

(** C8. With assertions enabled (the default), asking for more examples
    than the dataset has, without replacement, fails with
    [AssertionError]: the [assert] at the top of
    [SampleDataset.__init__] fires before the [raise ValueError]. *)
Theorem sample_too_long_without_replacement `{PyRuntime} {V} (count : Z)
    (D : Dataset.t V) (length seed : Z) (kw_name kw_subset : option string) :
  py_debug = true ->
  0 <= Dataset.len D ->
  Dataset.len D < length ->
  sample count D length false seed kw_name kw_subset = Raise AssertionError.
Proof.
  intros Hdebug Hlen Hlong. unfold sample, SampleDataset.__init__, or_int.
  rewrite Hdebug.
  destruct (Z.eqb_spec length 0) as [->|_]; [lia|].
  cbn [orb andb].
  destruct (Z.leb_spec length (Dataset.len D)); [lia|]. reflexivity.
Qed.

Lemma sample_too_long_without_replacement_witness :
  sample (H := rotating_runtime) 0 abc_dataset 5 false 53 None None
  = Raise AssertionError.
Proof.
  apply (sample_too_long_without_replacement (H := rotating_runtime)).
  - reflexivity.
  - simpl. lia.
  - simpl. lia.
Defined.

(** The [ValueError] is reached only when Python runs with [-O]. *)
Lemma sample_too_long_optimized `{PyRuntime} {V} (count : Z)
    (D : Dataset.t V) (length seed : Z) (kw_name kw_subset : option string) :
  py_debug = false ->
  0 <= Dataset.len D ->
  Dataset.len D < length ->
  sample count D length false seed kw_name kw_subset = Raise ValueError.
Proof.
  intros Hdebug Hlen Hlong. unfold sample, SampleDataset.__init__, or_int.
  rewrite Hdebug.
  destruct (Z.eqb_spec length 0) as [->|_]; [lia|].
  cbn [orb andb].
  destruct (Z.ltb_spec (Dataset.len D) length); [|lia]. reflexivity.
Qed.

(** ** The per-example disk cache *)

(** C9. When the cache file of index [idx] (and field) exists but does
    not unpickle, reading that entry removes that file, recomputes the
    example from the wrapped dataset, writes it to the same path and
    returns it.  These are the only two file-system calls, every other
    path keeps its content, nothing is raised, and the next read of the
    entry is served from the repaired file. *)
Theorem corrupt_entry_is_repaired `{Example V} (self : HDDCacheDataset.t V)
    (idx : Z) (field : option string) (fs : filesystem) (content : bytes)
    (whole example : V) :
  let path := HDDCacheDataset._get_cache_path self idx field in
  files fs !! path = Some content ->
  pickle_load content = None ->
  0 <= idx < Dataset.len (HDDCacheDataset.data self) ->
  Dataset.get_example (HDDCacheDataset.data self) idx = Ok whole ->
  match field with
  | Some f => getitem_field whole f
  | None => Ok whole
  end = Ok example ->
  exists fs',
    HDDCacheDataset._get_example_or_field self idx field fs = (Ok example, fs')
    /\ events fs' = events fs ++ [EvRemove path; EvWrite path (pickle_dump example)]
    /\ files fs' !! path = Some (pickle_dump example)
    /\ (forall other, other <> path -> files fs' !! other = files fs !! other)
    /\ HDDCacheDataset._get_example_or_field self idx field fs'
       = (Ok example, fs').
Proof.
  intros path Hfile Hcorrupt Hidx Hwhole Hfield.
  assert (Hget : Dataset.__getitem__ (HDDCacheDataset.data self) idx = Ok whole).
  { unfold Dataset.__getitem__.
    assert (Hlt : (idx <? 0) = false) by (apply Z.ltb_ge; lia).
    assert (Hle : (Dataset.len (HDDCacheDataset.data self) <=? idx) = false)
      by (apply Z.leb_gt; lia).
    rewrite !Hlt, Hle. exact Hwhole. }
  exists (write_pickle path example (os_remove path fs)).
  unfold HDDCacheDataset._get_example_or_field, HDDCacheDataset.read_cached.
  fold path. rewrite Hfile, Hcorrupt, Hget, bind_Ok, Hfield.
  split; [reflexivity|].
  split; [cbn; rewrite <- app_assoc; reflexivity|].
  split; [cbn; apply lookup_insert_eq|].
  split.
  - intros other Hother. cbn.
    rewrite lookup_insert_ne, lookup_delete_ne by congruence. reflexivity.
  - cbn [write_pickle files]. rewrite lookup_insert_eq, pickle_load_dump.
    reflexivity.
Qed.

Lemma corrupt_entry_is_repaired_witness :
  exists fs',
    HDDCacheDataset._get_example_or_field (H := tagged_string_example)
      abc_cache 1 None abc_corrupt_fs = (Ok "b", fs')
    /\ events fs'
       = events abc_corrupt_fs
         ++ [EvRemove (HDDCacheDataset._get_cache_path abc_cache 1 None);
             EvWrite (HDDCacheDataset._get_cache_path abc_cache 1 None)
               (pickle_dump (Example := tagged_string_example) "b")]
    /\ files fs' !! HDDCacheDataset._get_cache_path abc_cache 1 None
       = Some (pickle_dump (Example := tagged_string_example) "b")
    /\ (forall other,
          other <> HDDCacheDataset._get_cache_path abc_cache 1 None ->
          files fs' !! other = files abc_corrupt_fs !! other)
    /\ HDDCacheDataset._get_example_or_field (H := tagged_string_example)
         abc_cache 1 None fs'
       = (Ok "b", fs').
Proof.
  apply (corrupt_entry_is_repaired (H := tagged_string_example) abc_cache 1
           None abc_corrupt_fs corrupt_content "b" "b").
  - vm_compute. reflexivity.
  - reflexivity.
  - simpl. lia.
  - reflexivity.
  - reflexivity.
Defined.

(** Reading the entry through indexing, on a cache without separate
    fields, takes the same path. *)
Lemma getitem_repairs_corrupt_entry :
  fst (HDDCacheDataset.__getitem__ (H := tagged_string_example)
         abc_cache 1 abc_corrupt_fs) = Ok "b"
  /\ events (snd (HDDCacheDataset.__getitem__ (H := tagged_string_example)
                    abc_cache 1 abc_corrupt_fs))
     = [EvRemove "cache/abc-train.cache_hdd/1.p";
        EvWrite "cache/abc-train.cache_hdd/1.p" (String "P"%char "b")].
Proof. split; vm_compute; reflexivity. Qed.

(* ===================================================================== *)
(** * Further properties of dataset.py *)
(* ===================================================================== *)

(** ** Indexing *)

Lemma getitem_in_range {V} (D : Dataset.t V) (idx : Z) :
  0 <= idx < Dataset.len D ->
  Dataset.__getitem__ D idx = Dataset.get_example D idx.
Proof.
  intros Hidx. unfold Dataset.__getitem__.
  assert (Hlt : (idx <? 0) = false) by (apply Z.ltb_ge; lia).
  assert (Hle : (Dataset.len D <=? idx) = false) by (apply Z.leb_gt; lia).
  rewrite !Hlt, Hle. reflexivity.
Qed.

Lemma getitem_at_len {V} (D : Dataset.t V) (idx : Z) :
  Dataset.len D <= idx -> 0 <= idx ->
  Dataset.__getitem__ D idx = Raise IndexError.
Proof.
  intros Hidx Hpos. unfold Dataset.__getitem__.
  assert (Hlt : (idx <? 0) = false) by (apply Z.ltb_ge; lia).
  assert (Hle : (Dataset.len D <=? idx) = true) by (apply Z.leb_le; lia).
  rewrite !Hlt, Hle. reflexivity.
Qed.

(** X1. Integer indexing of a dataset of length [n >= 0]: the indices
    [0 .. n-1] reach [get_example], a negative index [-n .. -1] is the
    same as that index plus [n], and every other index raises
    [IndexError]. *)
Theorem getitem_bounds {V} (D : Dataset.t V) :
  0 <= Dataset.len D ->
  (forall idx, 0 <= idx < Dataset.len D ->
     Dataset.__getitem__ D idx = Dataset.get_example D idx)
  /\ (forall idx, - Dataset.len D <= idx < 0 ->
        Dataset.__getitem__ D idx = Dataset.__getitem__ D (idx + Dataset.len D))
  /\ (forall idx, idx < - Dataset.len D \/ Dataset.len D <= idx ->
        Dataset.__getitem__ D idx = Raise IndexError).
Proof.
  intros Hlen. split; [|split].
  - intros idx Hidx. apply getitem_in_range. exact Hidx.
  - intros idx Hidx. rewrite (getitem_in_range D (idx + Dataset.len D)) by lia.
    unfold Dataset.__getitem__.
    assert (Hneg : (idx <? 0) = true) by (apply Z.ltb_lt; lia).
    assert (Hlt : (idx + Dataset.len D <? 0) = false) by (apply Z.ltb_ge; lia).
    assert (Hle : (Dataset.len D <=? idx + Dataset.len D) = false)
      by (apply Z.leb_gt; lia).
    rewrite Hneg, Hlt, Hle. reflexivity.
  - intros idx [Hlow|Hhigh].
    + unfold Dataset.__getitem__.
      assert (Hneg : (idx <? 0) = true) by (apply Z.ltb_lt; lia).
      assert (Hlt : (idx + Dataset.len D <? 0) = true) by (apply Z.ltb_lt; lia).
      rewrite Hneg, Hlt. reflexivity.
    + apply getitem_at_len; lia.
Qed.

Lemma getitem_bounds_witness :
  (forall idx, 0 <= idx < Dataset.len abc_dataset ->
     Dataset.__getitem__ abc_dataset idx = Dataset.get_example abc_dataset idx)
  /\ (forall idx, - Dataset.len abc_dataset <= idx < 0 ->
        Dataset.__getitem__ abc_dataset idx
        = Dataset.__getitem__ abc_dataset (idx + Dataset.len abc_dataset))
  /\ (forall idx, idx < - Dataset.len abc_dataset \/ Dataset.len abc_dataset <= idx ->
        Dataset.__getitem__ abc_dataset idx = Raise IndexError).
Proof.
  apply (getitem_bounds abc_dataset). simpl. lia.
Defined.

(** ** Identity of wrappers *)

Lemma string_app_assoc (a b c : string) : (a +:+ b) +:+ c = a +:+ (b +:+ c).
Proof.
  induction a as [|ch a IH]; [reflexivity|].
  change (String ch ((a +:+ b) +:+ c) = String ch (a +:+ (b +:+ c))).
  rewrite IH. reflexivity.
Qed.

Lemma concat_snoc (sep : string) (l : list string) (m : string) :
  String.concat sep (l ++ [m])
  = match l with
    | [] => m
    | _ => String.concat sep l +:+ sep +:+ m
    end.
Proof.
  induction l as [|a l IH]; [reflexivity|].
  destruct l as [|b l].
  - reflexivity.
  - change (String.concat sep ((a :: b :: l) ++ [m]))
      with (a +:+ sep +:+ String.concat sep ((b :: l) ++ [m])).
    rewrite IH.
    change (String.concat sep (a :: b :: l))
      with (a +:+ sep +:+ String.concat sep (b :: l)).
    rewrite !string_app_assoc. reflexivity.
Qed.

(** A wrapper that takes name and subset from the wrapped dataset and
    appends one non-empty modifier has the identifier of the wrapped
    dataset, followed by a dot and the modifier. *)
Lemma identifier_of_wrapper {V W} (D : Dataset.t V) (d : Dataset.t W)
    (cname : string) (count : Z) (m : string) :
  str_truthy m = true ->
  Dataset.attrs_of d
  = fst (Dataset.__init__ cname count None None (MStr m)
           (Some (Dataset.attrs_of D))) ->
  Dataset.identifier d = Dataset.identifier D +:+ "." +:+ m.
Proof.
  intros Hm Hattrs. rewrite Dataset_init_wrapper_attrs, Hm in Hattrs.
  unfold Dataset.attrs_of in Hattrs. cbn in Hattrs.
  injection Hattrs as Hn Hs Hmods.
  unfold Dataset.identifier. rewrite Hn, Hs, Hmods.
  rewrite length_app. cbn [length].
  replace (0 <? length (Dataset.modifiers D) + 1)%nat with true
    by (symmetry; apply Nat.ltb_lt; lia).
  rewrite concat_snoc.
  set (fn := match Dataset.subset D with
             | Some s => if str_truthy s then Dataset.name D +:+ "-" +:+ s
                         else Dataset.name D
             | None => Dataset.name D
             end).
  destruct (Dataset.modifiers D) as [|a l] eqn:Hl; cbn [length Nat.ltb Nat.leb].
  - reflexivity.
  - rewrite !string_app_assoc. reflexivity.
Qed.

(** ** [map] *)

Lemma getitem_wrapper {V W} (D : Dataset.t V) (d : Dataset.t W)
    (f : Z -> result W) (idx : Z) :
  Dataset.len d = Dataset.len D ->
  (forall i, 0 <= i < Dataset.len D -> Dataset.get_example d i = f i) ->
  Dataset.__getitem__ d idx
  = let i := if idx <? 0 then idx + Dataset.len D else idx in
    if (i <? 0) || (Dataset.len D <=? i) then Raise IndexError else f i.
Proof.
  intros Hlen Hget. unfold Dataset.__getitem__. rewrite Hlen. cbv zeta.
  destruct ((if idx <? 0 then idx + Dataset.len D else idx) <? 0) eqn:Hlt;
    [reflexivity|].
  destruct (Dataset.len D <=? (if idx <? 0 then idx + Dataset.len D else idx))
    eqn:Hle; [reflexivity|].
  cbn [orb]. apply Hget.
  apply Z.ltb_ge in Hlt. apply Z.leb_gt in Hle. lia.
Qed.

(** X2. [D.map(f)[i]] is [f(D[i])] for every integer [i]: an index that
    [D] rejects is rejected without calling [f], a negative index wraps
    as in [D], an exception of [D[i]] or of [f] propagates; and two maps
    compose, with [map_g] appended to the identifier after [map_f]. *)
Theorem map_getitem {V W U} (count : Z) (D : Dataset.t V)
    (f : V -> result W) (g : W -> result U) (f_name g_name : string)
    (idx : Z) :
  str_truthy f_name = true ->
  str_truthy g_name = true ->
  let Df := fst (DatasetOps.map count D f (Some f_name) None None) in
  let Dfg := fst (DatasetOps.map count Df g (Some g_name) None None) in
  Dataset.__getitem__ Df idx = (Dataset.__getitem__ D idx ≫= f)
  /\ Dataset.__getitem__ Dfg idx = ((Dataset.__getitem__ D idx ≫= f) ≫= g)
  /\ Dataset.identifier Dfg
     = Dataset.identifier D +:+ "." +:+ "map_" +:+ f_name
       +:+ "." +:+ "map_" +:+ g_name.
Proof.
  intros Hf Hg Df Dfg.
  assert (Hmap : forall A B (E : Dataset.t A) (h : A -> result B) nm c i,
            Dataset.__getitem__ (fst (DatasetOps.map c E h nm None None)) i
            = (Dataset.__getitem__ E i ≫= h)).
  { intros A B E h nm c i.
    unfold DatasetOps.map, MapDataset.__init__.
    destruct (Dataset.__init__ "MapDataset" c None None _ _) as [[[n s] m] c'].
    cbn [fst].
    rewrite (getitem_wrapper E _ (fun j => Dataset.__getitem__ E j ≫= h));
      [|reflexivity|reflexivity].
    cbv zeta. unfold Dataset.__getitem__ at 2.
    destruct ((if i <? 0 then i + Dataset.len E else i) <? 0) eqn:Hlt;
      [reflexivity|].
    destruct (Dataset.len E <=? (if i <? 0 then i + Dataset.len E else i))
      eqn:Hle; [reflexivity|].
    cbn [orb]. apply Z.ltb_ge in Hlt. apply Z.leb_gt in Hle.
    rewrite getitem_in_range by lia. reflexivity. }
  assert (Hid : forall A B (E : Dataset.t A) (h : A -> result B) nm c,
            str_truthy nm = true ->
            Dataset.identifier (fst (DatasetOps.map c E h (Some nm) None None))
            = Dataset.identifier E +:+ "." +:+ "map_" +:+ nm).
  { intros A B E h nm c Hnm.
    apply (identifier_of_wrapper E _ "MapDataset" c).
    - reflexivity.
    - unfold DatasetOps.map, MapDataset.__init__. rewrite Hnm.
      destruct (Dataset.__init__ "MapDataset" c None None _ _)
        as [[[n s] m] c']. reflexivity. }
  split; [apply Hmap|]. split.
  - unfold Dfg. rewrite Hmap. unfold Df. rewrite Hmap. reflexivity.
  - unfold Dfg. rewrite Hid by exact Hg. unfold Df. rewrite Hid by exact Hf.
    rewrite !string_app_assoc. reflexivity.
Qed.

Lemma map_getitem_witness :
  let Df := fst (DatasetOps.map 0 abc_dataset (fun v => Ok (v +:+ "!"))
                   (Some "bang") None None) in
  let Dfg := fst (DatasetOps.map 0 Df (fun v => Ok (String.length v))
                    (Some "len") None None) in
  Dataset.__getitem__ Df (-1)
  = (Dataset.__getitem__ abc_dataset (-1) ≫= fun v => Ok (v +:+ "!"))
  /\ Dataset.__getitem__ Dfg (-1)
     = ((Dataset.__getitem__ abc_dataset (-1) ≫= fun v => Ok (v +:+ "!"))
        ≫= fun v => Ok (String.length v))
  /\ Dataset.identifier Dfg
     = Dataset.identifier abc_dataset +:+ "." +:+ "map_" +:+ "bang"
       +:+ "." +:+ "map_" +:+ "len".
Proof.
  apply (map_getitem 0 abc_dataset (fun v => Ok (v +:+ "!"))
           (fun v => Ok (String.length v)) "bang" "len" (-1)).
  - reflexivity.
  - reflexivity.
Defined.

(** ** [mapM] in the exception monad *)

Lemma mapM_Ok_inv {A B} (f : A -> result B) (l : list A) (k : list B) :
  mapM f l = Ok k -> Forall2 (fun a b => f a = Ok b) l k.
Proof.
  revert k. induction l as [|a l IH]; intros k Hk; cbn in Hk.
  - injection Hk as <-. constructor.
  - destruct (f a) as [b|e] eqn:Hfa; [|discriminate]. rewrite bind_Ok in Hk.
    destruct (mapM f l) as [k'|e] eqn:Hl; [|discriminate].
    injection Hk as <-. constructor; [exact Hfa | apply IH; reflexivity].
Qed.

Lemma mapM_Ok_intro {A B} (f : A -> result B) (l : list A) (k : list B) :
  Forall2 (fun a b => f a = Ok b) l k -> mapM f l = Ok k.
Proof.
  induction 1 as [|a b l k Hab _ IH]; cbn; [reflexivity|].
  rewrite Hab, bind_Ok, IH. reflexivity.
Qed.

Lemma mapM_ext_in {A B} (f g : A -> result B) (l : list A) :
  (forall a, a ∈ l -> f a = g a) -> mapM f l = mapM g l.
Proof.
  induction l as [|a l IH]; intros Hfg; [reflexivity|]. cbn.
  rewrite (Hfg a) by (left).
  rewrite IH by (intros b Hb; apply Hfg; right; exact Hb). reflexivity.
Qed.

Lemma py_index_lookup {A} (l : list A) (i : Z) (a : A) :
  0 <= i -> l !! Z.to_nat i = Some a -> py_index l i = Ok a.
Proof.
  intros Hi Hl. unfold py_index.
  assert (Hlen := lookup_lt_Some _ _ _ Hl).
  assert (Hlt : (i <? 0) = false) by (apply Z.ltb_ge; lia).
  assert (Hle : (Z.of_nat (length l) <=? i) = false) by (apply Z.leb_gt; lia).
  rewrite !Hlt, Hle, Hl. reflexivity.
Qed.

(** Indexing is insensitive to wrapping the index first. *)
Lemma getitem_wrap {V} (D : Dataset.t V) (idx : Z) :
  Dataset.__getitem__ D idx
  = let i := if idx <? 0 then idx + Dataset.len D else idx in
    if (i <? 0) || (Dataset.len D <=? i) then Raise IndexError
    else Dataset.__getitem__ D i.
Proof.
  apply getitem_wrapper; [reflexivity|].
  intros i Hi. symmetry. apply getitem_in_range. exact Hi.
Qed.

(** Two views of equal length that agree on the valid non-negative
    indices agree on every index. *)
Lemma getitem_ext {V W} (D : Dataset.t V) (d d' : Dataset.t W) :
  Dataset.len d = Dataset.len D -> Dataset.len d' = Dataset.len D ->
  (forall i, 0 <= i < Dataset.len D ->
     Dataset.__getitem__ d i = Dataset.__getitem__ d' i) ->
  forall idx, Dataset.__getitem__ d idx = Dataset.__getitem__ d' idx.
Proof.
  intros Hd Hd' Hagree idx.
  rewrite (getitem_wrap d idx), (getitem_wrap d' idx), Hd, Hd'. cbv zeta.
  destruct ((if idx <? 0 then idx + Dataset.len D else idx) <? 0) eqn:Hlt;
    [reflexivity|].
  destruct (Dataset.len D <=? (if idx <? 0 then idx + Dataset.len D else idx))
    eqn:Hle; [reflexivity|].
  cbn [orb]. apply Hagree.
  apply Z.ltb_ge in Hlt. apply Z.leb_gt in Hle. lia.
Qed.

(** ** [zip] *)

Lemma all_same_len_cases {V} (first : Dataset.t V) (ds : list (Dataset.t V)) :
  ZipDataset.all_same_len first ds = Raise ValueError
  \/ ZipDataset.all_same_len first ds = Ok false
  \/ (ZipDataset.all_same_len first ds = Ok true
      /\ Forall (fun d => Dataset.len d = Dataset.len first) ds).
Proof.
  induction ds as [|d ds IH]; [right; right; split; [reflexivity|constructor]|].
  cbn [ZipDataset.all_same_len]. unfold py_len.
  destruct (Dataset.len d <? 0); [left; reflexivity|]. rewrite bind_Ok.
  destruct (Dataset.len first <? 0); [left; reflexivity|]. rewrite bind_Ok.
  destruct (Dataset.len d =? Dataset.len first) eqn:Heq;
    [|right; left; reflexivity].
  apply Z.eqb_eq in Heq.
  destruct IH as [IH | [IH | [IH Hall]]]; [left; exact IH | right; left; exact IH |].
  right; right. split; [exact IH|]. constructor; assumption.
Qed.

Lemma all_same_len_true {V} (first : Dataset.t V) (ds : list (Dataset.t V)) :
  0 <= Dataset.len first ->
  Forall (fun d => Dataset.len d = Dataset.len first) ds ->
  ZipDataset.all_same_len first ds = Ok true.
Proof.
  intros Hfirst Hall. induction Hall as [|d ds Hd _ IH]; [reflexivity|].
  cbn [ZipDataset.all_same_len]. unfold py_len. rewrite Hd.
  assert (Hneg : (Dataset.len first <? 0) = false) by (apply Z.ltb_ge; exact Hfirst).
  rewrite Hneg, !bind_Ok, Z.eqb_refl. exact IH.
Qed.

(** X3. Zipping datasets one of which differs in length from the first
    fails at construction with [ValueError]. *)
Theorem zip_length_mismatch {V} (count : Z) (first : Dataset.t V)
    (others : list (Dataset.t V)) (kw_subset : option string)
    (kw_modifiers : modifiers_arg) (d : Dataset.t V) :
  d ∈ others ->
  Dataset.len d <> Dataset.len first ->
  DatasetOps.zip count first others kw_subset kw_modifiers = Raise ValueError.
Proof.
  intros Hd Hlen. unfold DatasetOps.zip, ZipDataset.__init__. cbv zeta.
  destruct (all_same_len_cases first (first :: others))
    as [-> | [-> | [_ Hall]]]; [reflexivity | reflexivity |].
  exfalso. apply Hlen.
  rewrite Forall_forall in Hall. apply Hall. right. exact Hd.
Qed.

Lemma zip_length_mismatch_witness :
  DatasetOps.zip 0 abc_dataset
    [fst (DatasetOps.repeat 0 abc_dataset 2 None None)] None MNone
  = Raise ValueError.
Proof.
  apply (zip_length_mismatch 0 abc_dataset _ None MNone
           (fst (DatasetOps.repeat 0 abc_dataset 2 None None))).
  - left.
  - simpl. lia.
Defined.

(** X4. Zipping datasets of one length [n >= 0] gives a dataset of that
    length and named [zip[id1,id2,...]], whose element at any index is the
    tuple of the elements of the zipped datasets at that index, in order:
    it has one component per dataset, and it raises when one of them
    raises. *)
Theorem zip_getitem {V} (count : Z) (first : Dataset.t V)
    (others : list (Dataset.t V)) (kw_subset : option string) :
  0 <= Dataset.len first ->
  Forall (fun d => Dataset.len d = Dataset.len first) others ->
  exists z c,
    DatasetOps.zip count first others kw_subset MNone = Ok (z, c)
    /\ Dataset.len z = Dataset.len first
    /\ Dataset.name z
       = "zip[" +:+ String.concat "," (List.map Dataset.identifier (first :: others))
         +:+ "]"
    /\ (forall idx,
          Dataset.__getitem__ z idx
          = mapM (fun d => Dataset.__getitem__ d idx) (first :: others))
    /\ (forall idx t,
          Dataset.__getitem__ z idx = Ok t ->
          Forall2 (fun d v => Dataset.__getitem__ d idx = Ok v)
            (first :: others) t).
Proof.
  intros Hfirst Hlens. unfold DatasetOps.zip, ZipDataset.__init__. cbv zeta.
  rewrite (all_same_len_true first (first :: others) Hfirst)
    by (constructor; [reflexivity | exact Hlens]).
  rewrite bind_Ok. cbn [negb].
  set (nm := "zip[" +:+ _ +:+ "]").
  assert (Hnm : str_truthy nm = true) by reflexivity.
  unfold Dataset.__init__. cbn [or_str]. rewrite Hnm.
  cbn [fmap option_fmap option_map mbind option_bind default].
  eexists _, _. split; [reflexivity|].
  split; [reflexivity|]. split; [reflexivity|].
  assert (Hget : forall idx,
            Dataset.__getitem__
              {| Dataset.name := nm;
                 Dataset.subset := or_str kw_subset None;
                 Dataset.modifiers := [];
                 Dataset.len := Dataset.len first;
                 Dataset.get_example := fun idx0 =>
                   mapM (fun d => Dataset.__getitem__ d idx0) (first :: others) |}
              idx
            = mapM (fun d => Dataset.__getitem__ d idx) (first :: others)).
  { intros idx.
    rewrite (getitem_wrapper first _
               (fun i => mapM (fun d => Dataset.__getitem__ d i) (first :: others)));
      [|reflexivity|reflexivity].
    cbv zeta.
    destruct ((if idx <? 0 then idx + Dataset.len first else idx) <? 0) eqn:Hlt.
    { cbn [orb]. cbn [mapM]. rewrite (getitem_wrap first idx). cbv zeta.
      rewrite Hlt. reflexivity. }
    destruct (Dataset.len first <=?
                (if idx <? 0 then idx + Dataset.len first else idx)) eqn:Hle.
    { cbn [orb]. cbn [mapM]. rewrite (getitem_wrap first idx). cbv zeta.
      rewrite Hlt, Hle. reflexivity. }
    cbn [orb]. apply mapM_ext_in. intros d Hd.
    assert (Hd_len : Dataset.len d = Dataset.len first).
    { apply elem_of_cons in Hd as [->|Hd]; [reflexivity|].
      rewrite Forall_forall in Hlens. apply Hlens, Hd. }
    rewrite (getitem_wrap d idx). cbv zeta. rewrite Hd_len, Hlt, Hle.
    reflexivity. }
  split; [exact Hget|].
  intros idx t Ht. rewrite Hget in Ht. apply mapM_Ok_inv. exact Ht.
Qed.

Lemma zip_getitem_witness :
  exists z c,
    DatasetOps.zip 0 abc_dataset [abc_dataset] None MNone = Ok (z, c)
    /\ Dataset.len z = Dataset.len abc_dataset
    /\ Dataset.name z
       = "zip[" +:+ String.concat ","
                      (List.map Dataset.identifier [abc_dataset; abc_dataset])
         +:+ "]"
    /\ (forall idx,
          Dataset.__getitem__ z idx
          = mapM (fun d => Dataset.__getitem__ d idx) [abc_dataset; abc_dataset])
    /\ (forall idx t,
          Dataset.__getitem__ z idx = Ok t ->
          Forall2 (fun d v => Dataset.__getitem__ d idx = Ok v)
            [abc_dataset; abc_dataset] t).
Proof.
  apply (zip_getitem 0 abc_dataset [abc_dataset] None).
  - simpl. lia.
  - constructor; [reflexivity | constructor].
Defined.

(** ** [repeat] *)

(** X5. In [D.repeat(n)], every one of the [n] repetitions returns the
    elements of [D]: the element at [i + k * len(D)] is [D[i]].  The
    length is [len(D) * n], and the modulo by the length of [D] is never
    reached for an empty [D]. *)
Theorem repeat_getitem {V} (count : Z) (D : Dataset.t V) (n i k : Z) :
  0 <= i < Dataset.len D ->
  0 <= k < n ->
  let R := fst (DatasetOps.repeat count D n None None) in
  Dataset.len R = Dataset.len D * n
  /\ Dataset.__getitem__ R (i + k * Dataset.len D) = Dataset.__getitem__ D i
  /\ Dataset.identifier R
     = Dataset.identifier D +:+ "." +:+ "repeat(" +:+ pretty n +:+ ")".
Proof.
  intros Hi Hk R. unfold R, DatasetOps.repeat, RepeatDataset.__init__.
  pose proof (Dataset_init_wrapper_attrs "RepeatDataset" count None None
                (MList ["repeat(" +:+ pretty n +:+ ")"]) (Dataset.attrs_of D))
    as Hattrs.
  destruct (Dataset.__init__ "RepeatDataset" count None None _ _)
    as [[[nm s] m] c].
  cbn [fst] in *. split; [reflexivity|]. split.
  - rewrite getitem_in_range by (cbn [Dataset.len]; nia).
    cbn [Dataset.get_example].
    assert (Hz : (Dataset.len D =? 0) = false) by (apply Z.eqb_neq; lia).
    rewrite Hz, Z.mod_add, Z.mod_small by lia. reflexivity.
  - apply (identifier_of_wrapper D _ "RepeatDataset" count); [reflexivity|].
    rewrite Dataset_init_wrapper_attrs. unfold Dataset.attrs_of at 1.
    cbn [Dataset.name Dataset.subset Dataset.modifiers].
    rewrite Hattrs. reflexivity.
Qed.

Lemma repeat_getitem_witness :
  let R := fst (DatasetOps.repeat 0 abc_dataset 4 None None) in
  Dataset.len R = Dataset.len abc_dataset * 4
  /\ Dataset.__getitem__ R (1 + 3 * Dataset.len abc_dataset)
     = Dataset.__getitem__ abc_dataset 1
  /\ Dataset.identifier R
     = Dataset.identifier abc_dataset +:+ "." +:+ "repeat(" +:+ pretty 4 +:+ ")".
Proof.
  apply (repeat_getitem 0 abc_dataset 4 1 3).
  - simpl. lia.
  - lia.
Defined.

(** ** [batch] *)

Lemma ceil_div_cases (n k : Z) :
  0 < k -> 0 <= n ->
  (if n / k * k <? n then n / k + 1 else n / k) = (n + k - 1) / k.
Proof.
  intros Hk Hn.
  pose proof (Z.div_mod n k ltac:(lia)) as Hdm.
  pose proof (Z.mod_pos_bound n k Hk) as Hr.
  destruct (Z.ltb_spec (n / k * k) n) as [Hlt|Hge].
  - apply (Z.div_unique (n + k - 1) k (n / k + 1) (n mod k - 1)); lia.
  - apply (Z.div_unique (n + k - 1) k (n / k) (k - 1)); lia.
Qed.

(** X6. [D.batch(k)] for [k > 0] has [ceil(len(D) / k)] elements; its
    element [b] is the tuple of [D[b*k], ..., D[b*k + s - 1]] with
    [s = min(k, len(D) - b*k)], so every batch is non-empty, every batch
    but the last has exactly [k] examples, and consecutive batches
    continue where the previous one ended. *)
Theorem batch_getitem {V} (count : Z) (D : Dataset.t V) (k : Z) :
  0 < k ->
  0 <= Dataset.len D ->
  exists B c,
    DatasetOps.batch count D k None None = Ok (B, c)
    /\ Dataset.len B = (Dataset.len D + k - 1) / k
    /\ forall b, 0 <= b < Dataset.len B ->
         0 < Z.min k (Dataset.len D - b * k)
         /\ (b < Dataset.len B - 1 -> Z.min k (Dataset.len D - b * k) = k)
         /\ Dataset.__getitem__ B b
            = mapM (Dataset.__getitem__ D)
                (seqZ (b * k) (Z.min k (Dataset.len D - b * k))).
Proof.
  intros Hk Hn. unfold DatasetOps.batch, BatchDataset.__init__.
  destruct (Dataset.__init__ "BatchDataset" count None None _ _)
    as [[[nm s] m] c].
  assert (Hz : (k =? 0) = false) by (apply Z.eqb_neq; lia). rewrite Hz.
  eexists _, c. split; [reflexivity|].
  cbn [Dataset.len].
  pose proof (ceil_div_cases (Dataset.len D) k Hk Hn) as Hceil.
  split; [exact Hceil|].
  intros b Hb. rewrite Hceil in Hb.
  pose proof (Z.div_mod (Dataset.len D) k ltac:(lia)) as Hdm.
  pose proof (Z.mod_pos_bound (Dataset.len D) k Hk) as Hr.
  set (n := Dataset.len D) in *.
  remember ((n + k - 1) / k) as L eqn:HeqL.
  assert (HL : (L - 1) * k < n <= L * k).
  { rewrite <- Hceil. destruct (Z.ltb_spec (n / k * k) n); nia. }
  assert (Hmin : Z.min k (n - b * k)
                 = if b =? L - 1 then k - (L * k - n) else k).
  { destruct (Z.eqb_spec b (L - 1)) as [->|Hne]; nia. }
  split; [nia|]. split; [intros Hlast; nia|].
  rewrite getitem_in_range by (cbn [Dataset.len]; lia).
  cbn [Dataset.get_example]. rewrite Hceil, Hmin. reflexivity.
Qed.

Lemma batch_getitem_witness :
  exists B c,
    DatasetOps.batch 0 abc_dataset 2 None None = Ok (B, c)
    /\ Dataset.len B = (Dataset.len abc_dataset + 2 - 1) / 2
    /\ forall b, 0 <= b < Dataset.len B ->
         0 < Z.min 2 (Dataset.len abc_dataset - b * 2)
         /\ (b < Dataset.len B - 1 ->
             Z.min 2 (Dataset.len abc_dataset - b * 2) = 2)
         /\ Dataset.__getitem__ B b
            = mapM (Dataset.__getitem__ abc_dataset)
                (seqZ (b * 2) (Z.min 2 (Dataset.len abc_dataset - b * 2))).
Proof.
  apply (batch_getitem 0 abc_dataset 2).
  - lia.
  - simpl. lia.
Defined.

(** A batch size of zero is rejected at construction. *)
Lemma batch_size_zero {V} (count : Z) (D : Dataset.t V) :
  DatasetOps.batch count D 0 None None = Raise ZeroDivisionError.
Proof.
  unfold DatasetOps.batch, BatchDataset.__init__.
  destruct (Dataset.__init__ "BatchDataset" count None None _ _)
    as [[[nm s] m] c]. reflexivity.
Qed.

(** ** Iteration *)

Lemma iter_from_inv {V} (D : Dataset.t V) (fuel : nat) (i : Z) (l : list V) :
  iter_from fuel D i = Ok l ->
  Forall2 (fun j v => Dataset.__getitem__ D j = Ok v)
    (seqZ i (Z.of_nat (length l))) l.
Proof.
  revert i l. induction fuel as [|fuel IH]; intros i l Hl; cbn in Hl.
  - injection Hl as <-. constructor.
  - destruct (Dataset.__getitem__ D i) as [v|e] eqn:Hi.
    + destruct (iter_from fuel D (i + 1)) as [rest|e] eqn:Hrest; [|discriminate].
      rewrite bind_Ok in Hl. injection Hl as <-.
      rewrite seqZ_cons by (cbn [length]; lia).
      replace (Z.pred (Z.of_nat (length (v :: rest))))
        with (Z.of_nat (length rest)) by (cbn [length]; lia).
      constructor; [exact Hi|]. apply IH. exact Hrest.
    + destruct e; try discriminate. injection Hl as <-. constructor.
Qed.

Lemma iter_from_length {V} (D : Dataset.t V) (fuel : nat) (i : Z) (l : list V) :
  0 <= i <= Dataset.len D ->
  (Z.to_nat (Dataset.len D - i) < fuel)%nat ->
  (forall j, 0 <= j < Dataset.len D ->
     Dataset.__getitem__ D j <> Raise IndexError) ->
  iter_from fuel D i = Ok l ->
  Z.of_nat (length l) = Dataset.len D - i.
Proof.
  intros Hi Hfuel Hno. revert i l Hi Hfuel.
  induction fuel as [|fuel IH]; intros i l Hi Hfuel Hl; [lia|]. cbn in Hl.
  destruct (Z.eq_dec i (Dataset.len D)) as [->|Hne].
  - rewrite getitem_at_len in Hl by lia. injection Hl as <-. cbn. lia.
  - destruct (Dataset.__getitem__ D i) as [v|e] eqn:Hget.
    + destruct (iter_from fuel D (i + 1)) as [rest|e] eqn:Hrest; [|discriminate].
      rewrite bind_Ok in Hl. injection Hl as <-. cbn [length].
      rewrite Nat2Z.inj_succ, (IH (i + 1) rest) by (try exact Hrest; lia). lia.
    + destruct e; try discriminate. exfalso. apply (Hno i); [lia | exact Hget].
Qed.

Lemma iter_from_intro {V} (D : Dataset.t V) (l : list V) :
  forall (fuel : nat) (i : Z),
    0 <= i ->
    i + Z.of_nat (length l) = Dataset.len D ->
    (length l < fuel)%nat ->
    Forall2 (fun j v => Dataset.__getitem__ D j = Ok v)
      (seqZ i (Z.of_nat (length l))) l ->
    iter_from fuel D i = Ok l.
Proof.
  induction l as [|v l IH]; intros fuel i Hi Hlen Hfuel Hall;
    (destruct fuel as [|fuel]; [cbn [length] in Hfuel; lia|]); cbn [iter_from].
  - rewrite getitem_at_len by (cbn [length] in Hlen; lia). reflexivity.
  - rewrite seqZ_cons in Hall by (cbn [length]; lia).
    apply Forall2_cons in Hall as [Hv Hall]. rewrite Hv.
    replace (Z.pred (Z.of_nat (length (v :: l)))) with (Z.of_nat (length l))
      in Hall by (cbn [length]; lia).
    rewrite (IH fuel (i + 1)); cbn [length] in *; try lia; [reflexivity|].
    replace (i + 1) with (Z.succ i) by lia. exact Hall.
Qed.

Lemma to_list_intro {V} (D : Dataset.t V) (l : list V) :
  Z.of_nat (length l) = Dataset.len D ->
  Forall2 (fun j v => Dataset.__getitem__ D j = Ok v)
    (seqZ 0 (Z.of_nat (length l))) l ->
  to_list D = Ok l.
Proof.
  intros Hlen Hall. unfold to_list. apply iter_from_intro; try lia. exact Hall.
Qed.

Lemma Forall2_seqZ_intro {A} (P : Z -> A -> Prop) (l : list A) :
  forall i,
    (forall (j : nat) v, l !! j = Some v -> P (i + Z.of_nat j) v) ->
    Forall2 P (seqZ i (Z.of_nat (length l))) l.
Proof.
  induction l as [|a l IH]; intros i HP; [constructor|].
  rewrite seqZ_cons by (cbn [length]; lia).
  replace (Z.pred (Z.of_nat (length (a :: l)))) with (Z.of_nat (length l))
    by (cbn [length]; lia).
  constructor.
  - replace i with (i + Z.of_nat 0) by lia. apply HP. reflexivity.
  - apply IH. intros j v Hj.
    replace (Z.succ i + Z.of_nat j) with (i + Z.of_nat (S j)) by lia.
    apply HP. exact Hj.
Qed.

(** ** [cache] in memory *)

(** X7. A RAM cache is transparent: when [D.cache(max_cache_size)] can be
    built over a dataset whose valid indices do not raise [IndexError],
    it has the length of [D] and returns at every integer index what [D]
    returns there, whether the index falls into the cached range or
    not. *)
Theorem cache_is_transparent {V} (count : Z) (D : Dataset.t V)
    (max_cache_size : option Z) (kw_name kw_subset : option string)
    (C : Dataset.t V) (c : Z) :
  0 <= Dataset.len D ->
  (forall j, 0 <= j < Dataset.len D ->
     Dataset.__getitem__ D j <> Raise IndexError) ->
  CacheDataset.__init__ count D max_cache_size kw_name kw_subset = Ok (C, c) ->
  Dataset.len C = Dataset.len D
  /\ forall idx, Dataset.__getitem__ C idx = Dataset.__getitem__ D idx.
Proof.
  intros Hlen Hno Hinit. unfold CacheDataset.__init__ in Hinit.
  destruct (Dataset.__init__ "CacheDataset" count kw_name kw_subset _ _)
    as [[[nm s] m] c'].
  set (cache_size := match max_cache_size with
                     | Some m0 => Dataset.len D `min` m0
                     | None => Dataset.len D
                     end) in *.
  destruct (cache_size =? Dataset.len D) eqn:Hall.
  - (* the whole dataset is cached *)
    destruct (to_list D) as [cached|e] eqn:Hcached; [|discriminate].
    rewrite bind_Ok in Hinit. injection Hinit as <- <-.
    split; [reflexivity|].
    apply (getitem_ext D); [reflexivity | reflexivity |].
    intros i Hi. rewrite getitem_in_range by (cbn [Dataset.len]; exact Hi).
    cbn [Dataset.get_example orb].
    unfold to_list in Hcached.
    assert (Hlength : Z.of_nat (length cached) = Dataset.len D - 0).
    { apply (iter_from_length D (S (Z.to_nat (Dataset.len D))) 0 cached);
        [lia | lia | exact Hno | exact Hcached]. }
    pose proof (iter_from_inv D _ 0 cached Hcached) as Hinv.
    destruct (cached !! Z.to_nat i) as [v|] eqn:Hv.
    + rewrite (py_index_lookup cached i v) by (lia || exact Hv).
      destruct (Forall2_lookup_r _ _ _ _ _ Hinv Hv) as (j & Hj & Hget).
      apply lookup_seqZ in Hj as [-> _].
      replace (0 + Z.of_nat (Z.to_nat i)) with i in Hget by lia.
      symmetry. exact Hget.
    + apply lookup_ge_None in Hv. lia.
  - (* only a prefix is cached *)
    destruct (mapM (Dataset.__getitem__ D) (seqZ 0 cache_size))
      as [cached|e] eqn:Hcached; [|discriminate].
    rewrite bind_Ok in Hinit. injection Hinit as <- <-.
    split; [reflexivity|].
    apply (getitem_ext D); [reflexivity | reflexivity |].
    intros i Hi. rewrite getitem_in_range by (cbn [Dataset.len]; exact Hi).
    cbn [Dataset.get_example orb].
    apply mapM_Ok_inv in Hcached.
    destruct (Z.ltb_spec i (Z.of_nat (length cached))) as [Hhit|Hmiss];
      [|reflexivity].
    destruct (cached !! Z.to_nat i) as [v|] eqn:Hv.
    + rewrite (py_index_lookup cached i v) by (lia || exact Hv).
      destruct (Forall2_lookup_r _ _ _ _ _ Hcached Hv) as (j & Hj & Hget).
      apply lookup_seqZ in Hj as [-> _].
      replace (0 + Z.of_nat (Z.to_nat i)) with i in Hget by lia.
      symmetry. exact Hget.
    + apply lookup_ge_None in Hv. lia.
Qed.

Lemma cache_is_transparent_witness :
  Dataset.len (fst abc_cached) = Dataset.len abc_dataset
  /\ forall idx,
       Dataset.__getitem__ (fst abc_cached) idx
       = Dataset.__getitem__ abc_dataset idx.
Proof.
  apply (cache_is_transparent 0 abc_dataset (Some 2) None None
           (fst abc_cached) (snd abc_cached)).
  - simpl. lia.
  - intros j Hj. simpl in Hj.
    assert (Hcases : j = 0 \/ j = 1 \/ j = 2) by lia.
    destruct Hcases as [-> | [-> | ->]]; discriminate.
  - reflexivity.
Defined.

(** ** Index subsets *)

Lemma map_mod_id (w : Z) (indices : list Z) :
  Forall (fun i => 0 <= i < 2 ^ w) indices ->
  List.map (fun i => i mod 2 ^ w) indices = indices.
Proof.
  induction 1 as [|i l Hi _ IH]; [reflexivity|]. cbn [List.map].
  rewrite Z.mod_small by exact Hi. rewrite IH. reflexivity.
Qed.

Lemma compress_indices_id (indices : list Z) (max : Z) :
  Forall (fun i => 0 <= i <= max) indices ->
  _compress_indices indices max = indices.
Proof.
  intros Hall. unfold _compress_indices.
  repeat match goal with
  | |- context [?m <=? 2 ^ ?w - 1] =>
      destruct (Z.leb_spec m (2 ^ w - 1));
      [apply map_mod_id; eapply Forall_impl; [exact Hall|];
       cbv beta; intros; lia|]
  end.
  reflexivity.
Qed.

(** X8. The dtype compression of an index list changes no index that
    lies in [0 .. max], whichever of the four unsigned widths, or none,
    is chosen. *)
Theorem compress_indices_preserves (indices : list Z) (max : Z) :
  Forall (fun i => 0 <= i <= max) indices ->
  _compress_indices indices max = indices
  /\ length (_compress_indices indices max) = length indices.
Proof.
  intros Hall. rewrite (compress_indices_id indices max Hall).
  split; reflexivity.
Qed.

Lemma compress_indices_preserves_witness :
  _compress_indices [0; 255; 256; 70000] 70000 = [0; 255; 256; 70000]
  /\ length (_compress_indices [0; 255; 256; 70000] 70000)
     = length [0; 255; 256; 70000].
Proof.
  apply (compress_indices_preserves [0; 255; 256; 70000] 70000).
  repeat constructor; lia.
Defined.

Lemma SubDataset_spec `{PyRuntime} {V} (count : Z) (D : Dataset.t V)
    (indices : list Z) (kw_modifiers : option modifiers_arg)
    (kw_name kw_subset : option string) :
  Forall (fun i => 0 <= i < Dataset.len D) indices ->
  exists ds c,
    SubDataset.__init__ count D (IdxSeq indices) kw_modifiers kw_name kw_subset
      = Ok (ds, c)
    /\ Dataset.len ds = Z.of_nat (length indices)
    /\ forall (j : nat) i,
         indices !! j = Some i ->
         Dataset.__getitem__ ds (Z.of_nat j) = Dataset.__getitem__ D i.
Proof.
  intros Hall. unfold SubDataset.__init__.
  rewrite compress_indices_id
    by (eapply Forall_impl; [exact Hall|]; cbv beta; intros; lia).
  destruct (Dataset.__init__ "SubDataset" count kw_name kw_subset _ _)
    as [[[n s] m] c].
  eexists _, c. split; [reflexivity|]. split; [reflexivity|].
  intros j i Hj.
  rewrite getitem_in_range
    by (cbn [Dataset.len]; apply lookup_lt_Some in Hj; lia).
  cbn [Dataset.get_example].
  rewrite (py_index_lookup indices (Z.of_nat j) i)
    by (try lia; rewrite Nat2Z.id; exact Hj).
  reflexivity.
Qed.

Lemma getitem_Ok_range {V} (D : Dataset.t V) (j : Z) (v : V) :
  0 <= j -> Dataset.__getitem__ D j = Ok v -> j < Dataset.len D.
Proof.
  intros Hj Hget. destruct (Z.lt_ge_cases j (Dataset.len D)) as [Hlt|Hge];
    [exact Hlt|].
  rewrite getitem_at_len in Hget by lia. discriminate.
Qed.

(** ** [filter] *)

Lemma filter_indices_spec {V} (D : Dataset.t V) (func : V -> result bool)
    (p : V -> bool) (fuel : nat) :
  forall (i : Z) (l : list V),
    0 <= i ->
    iter_from fuel D i = Ok l ->
    (forall v, v ∈ l -> func v = Ok (p v)) ->
    exists indices,
      filter_indices_from fuel D func i = Ok indices
      /\ Forall2 (fun j v => Dataset.__getitem__ D j = Ok v) indices
           (List.filter p l)
      /\ Forall (fun j => 0 <= j) indices.
Proof.
  induction fuel as [|fuel IH]; intros i l Hi Hl Hfunc; cbn in Hl |- *.
  - injection Hl as <-. exists []. repeat split; constructor.
  - destruct (Dataset.__getitem__ D i) as [v|e] eqn:Hget.
    + destruct (iter_from fuel D (i + 1)) as [rest|e] eqn:Hrest; [|discriminate].
      rewrite bind_Ok in Hl. injection Hl as <-.
      destruct (IH (i + 1) rest ltac:(lia) Hrest) as (indices & Hidx & Hall & Hpos).
      { intros w Hw. apply Hfunc. right. exact Hw. }
      rewrite (Hfunc v) by (left). rewrite bind_Ok, Hidx, bind_Ok.
      cbn [List.filter]. destruct (p v).
      * exists (i :: indices). split; [reflexivity|].
        split; constructor; assumption.
      * exists indices. repeat split; assumption.
    + destruct e; try discriminate. injection Hl as <-.
      exists []. repeat split; constructor.
Qed.

(** X9. [D.filter(func)] keeps exactly the elements of [D] on which
    [func] holds, in their order: listing the filtered view gives the
    list of [D] filtered by [func], and its length is the number of
    matches. *)
Theorem filter_to_list `{PyRuntime} {V} (count : Z) (D : Dataset.t V)
    (func : V -> result bool) (p : V -> bool) (func_name : option string)
    (kw_name kw_subset : option string) (elements : list V) :
  to_list D = Ok elements ->
  (forall v, v ∈ elements -> func v = Ok (p v)) ->
  exists F c,
    DatasetOps.filter count D func func_name kw_name kw_subset = Ok (F, c)
    /\ Dataset.len F = Z.of_nat (length (List.filter p elements))
    /\ to_list F = Ok (List.filter p elements).
Proof.
  intros Hlist Hfunc. unfold DatasetOps.filter. unfold to_list in Hlist.
  destruct (filter_indices_spec D func p _ 0 elements ltac:(lia) Hlist Hfunc)
    as (indices & Hidx & Hall & Hpos).
  rewrite Hidx, bind_Ok.
  assert (Hrange : Forall (fun i => 0 <= i < Dataset.len D) indices).
  { apply Forall_forall. intros i Hi.
    apply list_elem_of_lookup in Hi as [j Hj].
    destruct (Forall2_lookup_l _ _ _ _ _ Hall Hj) as (v & _ & Hget).
    rewrite Forall_forall in Hpos.
    assert (0 <= i) by (apply Hpos, list_elem_of_lookup; eauto).
    split; [assumption | eapply getitem_Ok_range; eassumption]. }
  destruct (SubDataset_spec count D indices
              (Some (MStr ("filter(" +:+
                 match func_name with
                 | Some s => if str_truthy s then s
                             else format_hex (_subset_hash indices)
                 | None => format_hex (_subset_hash indices)
                 end +:+ ")")))
              kw_name kw_subset Hrange) as (F & c & HF & Hlen & Hget).
  exists F, c. split; [exact HF|].
  pose proof (Forall2_length _ _ _ Hall) as Hsame.
  split; [rewrite Hlen, Hsame; reflexivity|].
  apply to_list_intro; [rewrite Hlen, Hsame; reflexivity|].
  apply Forall2_seqZ_intro. intros j v Hv.
  destruct (Forall2_lookup_r _ _ _ _ _ Hall Hv) as (i & Hi & Hgeti).
  rewrite Z.add_0_l, (Hget j i Hi). exact Hgeti.
Qed.

Lemma filter_to_list_witness :
  exists F c,
    DatasetOps.filter (H := rotating_runtime) 0 abc_dataset
      (fun v => Ok (negb (String.eqb v "b"))) None None None = Ok (F, c)
    /\ Dataset.len F
       = Z.of_nat (length (List.filter (fun v => negb (String.eqb v "b"))
                             ["a"; "b"; "c"]))
    /\ to_list F
       = Ok (List.filter (fun v => negb (String.eqb v "b")) ["a"; "b"; "c"]).
Proof.
  apply (filter_to_list (H := rotating_runtime) 0 abc_dataset
           (fun v => Ok (negb (String.eqb v "b")))
           (fun v => negb (String.eqb v "b")) None None None ["a"; "b"; "c"]).
  - reflexivity.
  - intros v _. reflexivity.
Defined.

(** ** [permute] *)

(** X10. When the generator returns a permutation of [0 .. len(D)-1],
    [D.permute(seed)] has the length of [D], its element [j] is the
    element of [D] at the [j]-th drawn index, and listing it gives a
    rearrangement of the list of [D]: no element is lost or repeated. *)
Theorem permute_is_rearrangement `{PyRuntime} {V} (count : Z)
    (D : Dataset.t V) (seed : Z) (kw_name kw_subset : option string)
    (e : Z -> V) :
  0 <= Dataset.len D ->
  permutation seed (Dataset.len D) ≡ₚ seqZ 0 (Dataset.len D) ->
  (forall j, 0 <= j < Dataset.len D -> Dataset.__getitem__ D j = Ok (e j)) ->
  exists P c,
    permute count D seed kw_name kw_subset = Ok (P, c)
    /\ Dataset.len P = Dataset.len D
    /\ to_list D = Ok (e <$> seqZ 0 (Dataset.len D))
    /\ to_list P = Ok (e <$> permutation seed (Dataset.len D))
    /\ (e <$> permutation seed (Dataset.len D)) ≡ₚ (e <$> seqZ 0 (Dataset.len D)).
Proof.
  intros Hnonneg Hperm He. unfold permute.
  assert (Hrange : Forall (fun i => 0 <= i < Dataset.len D)
                     (permutation seed (Dataset.len D))).
  { apply Forall_forall. intros i Hi. rewrite Hperm in Hi.
    apply elem_of_seqZ in Hi. lia. }
  destruct (SubDataset_spec count D (permutation seed (Dataset.len D))
              (Some (MStr "permute({seed})")) kw_name kw_subset Hrange)
    as (P & c & HP & Hlen & Hget).
  assert (Hsize : Z.of_nat (length (permutation seed (Dataset.len D)))
                  = Z.max 0 (Dataset.len D)).
  { rewrite Hperm, length_seqZ. lia. }
  exists P, c. split; [exact HP|].
  split; [lia|]. split; [|split].
  - apply to_list_intro; rewrite length_fmap, length_seqZ; [lia|].
    rewrite <- (length_seqZ 0 (Dataset.len D)).
    rewrite <- (length_fmap e (seqZ 0 (Dataset.len D))).
    apply Forall2_seqZ_intro. intros j v Hv.
    apply list_lookup_fmap_Some in Hv as (i & -> & Hi).
    apply lookup_seqZ in Hi as [-> Hlt]. apply He. lia.
  - apply to_list_intro; rewrite length_fmap; [lia|].
    rewrite <- (length_fmap e (permutation seed (Dataset.len D))).
    apply Forall2_seqZ_intro. intros j v Hv.
    apply list_lookup_fmap_Some in Hv as (i & -> & Hi).
    rewrite Z.add_0_l, (Hget j i Hi). apply He.
    rewrite Forall_forall in Hrange. apply Hrange.
    apply list_elem_of_lookup. eauto.
  - rewrite Hperm. reflexivity.
Qed.

Lemma permute_is_rearrangement_witness :
  exists P c,
    permute (H := rotating_runtime) 0 abc_dataset 1 None None = Ok (P, c)
    /\ Dataset.len P = Dataset.len abc_dataset
    /\ to_list abc_dataset = Ok (abc_element <$> seqZ 0 (Dataset.len abc_dataset))
    /\ to_list P
       = Ok (abc_element
               <$> permutation (PyRuntime := rotating_runtime) 1
                     (Dataset.len abc_dataset))
    /\ (abc_element <$> permutation (PyRuntime := rotating_runtime) 1
                          (Dataset.len abc_dataset))
       ≡ₚ (abc_element <$> seqZ 0 (Dataset.len abc_dataset)).
Proof.
  apply (permute_is_rearrangement (H := rotating_runtime) 0 abc_dataset 1
           None None abc_element).
  - simpl. lia.
  - symmetry. apply (Permutation_cons_append [1; 2] 0).
  - intros j Hj. simpl in Hj.
    assert (Hcases : j = 0 \/ j = 1 \/ j = 2) by lia.
    destruct Hcases as [-> | [-> | ->]]; reflexivity.
Defined.

(** ** [sample], continued *)

(** X11. A sample view yields no element: once [D.sample(...)] is
    built, indexing it at a valid index raises [TypeError] (the index
    array is called instead of subscripted), and at any other index
    [IndexError]. *)
Theorem sample_view_yields_nothing `{PyRuntime} {V} (count : Z)
    (D : Dataset.t V) (length : Z) (replace : bool) (seed : Z)
    (kw_name kw_subset : option string) (S : Dataset.t V) (c : Z) :
  sample count D length replace seed kw_name kw_subset = Ok (S, c) ->
  (forall idx, 0 <= idx < Dataset.len S ->
     Dataset.__getitem__ S idx = Raise TypeError)
  /\ (forall idx v, Dataset.__getitem__ S idx <> Ok v).
Proof.
  intros Hsample. unfold sample, SampleDataset.__init__ in Hsample.
  destruct (py_debug && _); [discriminate|].
  assert (Hshape : exists nm s m n,
            S = {| Dataset.name := nm; Dataset.subset := s;
                   Dataset.modifiers := m; Dataset.len := n;
                   Dataset.get_example := fun _ => Raise TypeError |}).
  { destruct replace.
    - rewrite bind_Ok in Hsample.
      destruct (Dataset.__init__ "SampleDataset" count kw_name kw_subset _ _)
        as [[[nm s] m] c'].
      injection Hsample as <- <-. eauto.
    - destruct (Dataset.len D <? or_int (Some length) (Dataset.len D));
        [discriminate|].
      rewrite bind_Ok in Hsample.
      destruct (Dataset.__init__ "SampleDataset" count kw_name kw_subset _ _)
        as [[[nm s] m] c'].
      injection Hsample as <- <-. eauto. }
  destruct Hshape as (nm & s & m & n & ->). split.
  - intros idx Hidx. rewrite getitem_in_range by exact Hidx. reflexivity.
  - intros idx v. unfold Dataset.__getitem__. cbn [Dataset.get_example].
    destruct (_ || _); discriminate.
Qed.

Lemma sample_view_yields_nothing_witness :
  (forall idx, 0 <= idx < Dataset.len (fst abc_sample) ->
     Dataset.__getitem__ (fst abc_sample) idx = Raise TypeError)
  /\ (forall idx v, Dataset.__getitem__ (fst abc_sample) idx <> Ok v).
Proof.
  apply (sample_view_yields_nothing (H := rotating_runtime) 0 abc_dataset 2
           false 53 None None (fst abc_sample) (snd abc_sample)).
  reflexivity.
Defined.

(** ** The per-example disk cache, continued *)

Lemma prefix_app (a b : string) : String.prefix a (a +:+ b) = true.
Proof.
  induction a as [|ch a IH]; [destruct b; reflexivity|].
  change (String.prefix (String ch a) (String ch (a +:+ b)) = true).
  cbn [String.prefix]. destruct (Ascii.ascii_dec ch ch); [exact IH | congruence].
Qed.

Lemma cache_path_below {V} (self : HDDCacheDataset.t V) (idx : Z)
    (field : option string) :
  below (HDDCacheDataset.cache_dir self)
    (HDDCacheDataset._get_cache_path self idx field) = true.
Proof.
  unfold below, HDDCacheDataset._get_cache_path.
  destruct field as [f|]; [destruct (str_truthy f)|]; cbv zeta;
    rewrite !string_app_assoc;
    rewrite <- (string_app_assoc (HDDCacheDataset.cache_dir self) "/");
    apply prefix_app.
Qed.

(** Reading an entry changes no path but the path of that entry,
    whatever the outcome of the read. *)
Lemma get_example_or_field_frame `{Example V} (self : HDDCacheDataset.t V)
    (idx : Z) (field : option string) (fs : filesystem) (other : string) :
  other <> HDDCacheDataset._get_cache_path self idx field ->
  files (snd (HDDCacheDataset._get_example_or_field self idx field fs)) !! other
  = files fs !! other.
Proof.
  intros Hother.
  unfold HDDCacheDataset._get_example_or_field, HDDCacheDataset.read_cached.
  set (path := HDDCacheDataset._get_cache_path self idx field) in *.
  destruct (files fs !! path) as [content|] eqn:Hfile.
  - destruct (pickle_load content) as [v|]; [reflexivity|].
    destruct (Dataset.__getitem__ (HDDCacheDataset.data self) idx ≫= _)
      as [example|e]; cbn.
    + rewrite lookup_insert_ne, lookup_delete_ne by congruence. reflexivity.
    + rewrite lookup_delete_ne by congruence. reflexivity.
  - destruct (Dataset.__getitem__ (HDDCacheDataset.data self) idx ≫= _)
      as [example|e]; cbn; [|reflexivity].
    rewrite lookup_insert_ne by congruence. reflexivity.
Qed.

(** X12. Round trip of the per-example cache: reading an entry that has
    no file computes the example from the wrapped dataset, writes it to
    the entry's path (the only file-system call) and returns it; reading
    the entry again returns the same value from the file and changes
    nothing. *)
Theorem cache_miss_then_hit `{Example V} (self : HDDCacheDataset.t V)
    (idx : Z) (field : option string) (fs : filesystem) (whole example : V) :
  let path := HDDCacheDataset._get_cache_path self idx field in
  files fs !! path = None ->
  0 <= idx < Dataset.len (HDDCacheDataset.data self) ->
  Dataset.get_example (HDDCacheDataset.data self) idx = Ok whole ->
  match field with
  | Some f => getitem_field whole f
  | None => Ok whole
  end = Ok example ->
  exists fs',
    HDDCacheDataset._get_example_or_field self idx field fs = (Ok example, fs')
    /\ events fs' = events fs ++ [EvWrite path (pickle_dump example)]
    /\ files fs' = <[path := pickle_dump example]> (files fs)
    /\ HDDCacheDataset._get_example_or_field self idx field fs'
       = (Ok example, fs').
Proof.
  intros path Hfile Hidx Hwhole Hfield.
  exists (write_pickle path example fs).
  unfold HDDCacheDataset._get_example_or_field, HDDCacheDataset.read_cached.
  fold path. rewrite Hfile, getitem_in_range, Hwhole, bind_Ok, Hfield by exact Hidx.
  split; [reflexivity|]. split; [reflexivity|]. split; [reflexivity|].
  cbn [write_pickle files]. rewrite lookup_insert_eq, pickle_load_dump.
  reflexivity.
Qed.

Lemma cache_miss_then_hit_witness :
  exists fs',
    HDDCacheDataset._get_example_or_field (H := tagged_string_example)
      abc_cache 2 None abc_corrupt_fs = (Ok "c", fs')
    /\ events fs'
       = events abc_corrupt_fs
         ++ [EvWrite (HDDCacheDataset._get_cache_path abc_cache 2 None)
               (pickle_dump (Example := tagged_string_example) "c")]
    /\ files fs'
       = <[HDDCacheDataset._get_cache_path abc_cache 2 None
           := pickle_dump (Example := tagged_string_example) "c"]>
         (files abc_corrupt_fs)
    /\ HDDCacheDataset._get_example_or_field (H := tagged_string_example)
         abc_cache 2 None fs'
       = (Ok "c", fs').
Proof.
  apply (cache_miss_then_hit (H := tagged_string_example) abc_cache 2 None
           abc_corrupt_fs "c" "c").
  - vm_compute. reflexivity.
  - simpl. lia.
  - reflexivity.
  - reflexivity.
Defined.

(** X13. A cache file that unpickles is returned as it is: the wrapped
    dataset is not consulted, so two caches that share a directory but
    wrap different datasets return the same value for the entry, for any
    index, and neither changes the file system. *)
Theorem cache_hit_ignores_dataset `{Example V} (self self' : HDDCacheDataset.t V)
    (idx : Z) (field : option string) (fs : filesystem) (v : V) :
  HDDCacheDataset.cache_dir self' = HDDCacheDataset.cache_dir self ->
  files fs !! HDDCacheDataset._get_cache_path self idx field
    = Some (pickle_dump v) ->
  HDDCacheDataset._get_example_or_field self idx field fs = (Ok v, fs)
  /\ HDDCacheDataset._get_example_or_field self' idx field fs = (Ok v, fs).
Proof.
  intros Hdir Hfile.
  assert (Hpath : HDDCacheDataset._get_cache_path self' idx field
                  = HDDCacheDataset._get_cache_path self idx field).
  { unfold HDDCacheDataset._get_cache_path. rewrite Hdir. reflexivity. }
  unfold HDDCacheDataset._get_example_or_field, HDDCacheDataset.read_cached.
  rewrite Hpath, Hfile, pickle_load_dump. split; reflexivity.
Qed.

Lemma cache_hit_ignores_dataset_witness :
  HDDCacheDataset._get_example_or_field (H := tagged_string_example)
    abc_cache 0 None abc_corrupt_fs = (Ok "a", abc_corrupt_fs)
  /\ HDDCacheDataset._get_example_or_field (H := tagged_string_example)
       abc_cache_stale 0 None abc_corrupt_fs = (Ok "a", abc_corrupt_fs).
Proof.
  apply (cache_hit_ignores_dataset (H := tagged_string_example)
           abc_cache abc_cache_stale 0 None abc_corrupt_fs "a").
  - reflexivity.
  - vm_compute. reflexivity.
Defined.

(** *** One file per index *)

Lemma string_length_app (a b : string) :
  String.length (a +:+ b) = (String.length a + String.length b)%nat.
Proof.
  induction a as [|ch a IH]; [reflexivity|].
  change (S (String.length (a +:+ b))
          = S (String.length a + String.length b)).
  rewrite IH. reflexivity.
Qed.

Lemma string_app_inj_r (a b c : string) : a +:+ c = b +:+ c -> a = b.
Proof.
  revert b. induction a as [|x a IH]; intros [|y b] Heq.
  - reflexivity.
  - change (c = String y b +:+ c) in Heq.
    apply (f_equal String.length) in Heq.
    rewrite string_length_app in Heq. cbn [String.length] in Heq. lia.
  - change (String x a +:+ c = c) in Heq.
    apply (f_equal String.length) in Heq.
    rewrite string_length_app in Heq. cbn [String.length] in Heq. lia.
  - change (String x (a +:+ c) = String y (b +:+ c)) in Heq.
    injection Heq as -> Heq. rewrite (IH b Heq). reflexivity.
Qed.

Lemma cache_path_inj {V} (self : HDDCacheDataset.t V) (i j : Z) :
  HDDCacheDataset._get_cache_path self i None
  = HDDCacheDataset._get_cache_path self j None ->
  i = j.
Proof.
  unfold HDDCacheDataset._get_cache_path. cbv zeta. intros Heq.
  apply string_app_inj_r in Heq.
  do 2 apply String.app_inj in Heq.
  apply (inj pretty) in Heq. exact Heq.
Qed.

(** X14. Without separate fields every index has a file of its own:
    the paths of two different indices differ, and reading index [i],
    whatever happens (hit, miss, repair of a corrupt file, or an
    exception), leaves the file of index [j] as it was. *)
Theorem reading_leaves_other_indices `{Example V}
    (self : HDDCacheDataset.t V) (i j : Z) (fs : filesystem) :
  i <> j ->
  HDDCacheDataset._get_cache_path self i None
    <> HDDCacheDataset._get_cache_path self j None
  /\ files (snd (HDDCacheDataset._get_example_or_field self i None fs))
       !! HDDCacheDataset._get_cache_path self j None
     = files fs !! HDDCacheDataset._get_cache_path self j None.
Proof.
  intros Hij.
  assert (Hpaths : HDDCacheDataset._get_cache_path self j None
                   <> HDDCacheDataset._get_cache_path self i None).
  { intros Heq. apply Hij. symmetry. exact (cache_path_inj self j i Heq). }
  split; [congruence|].
  apply get_example_or_field_frame. exact Hpaths.
Qed.

Lemma reading_leaves_other_indices_witness :
  HDDCacheDataset._get_cache_path abc_cache 1 None
    <> HDDCacheDataset._get_cache_path abc_cache 0 None
  /\ files (snd (HDDCacheDataset._get_example_or_field
                   (H := tagged_string_example) abc_cache 1 None abc_corrupt_fs))
       !! HDDCacheDataset._get_cache_path abc_cache 0 None
     = files abc_corrupt_fs !! HDDCacheDataset._get_cache_path abc_cache 0 None.
Proof.
  apply (reading_leaves_other_indices (H := tagged_string_example)
           abc_cache 1 0 abc_corrupt_fs).
  lia.
Defined.

(** *** Construction of the disk caches *)

Lemma rmtree_files (dir : string) (fs : filesystem) (p : string) :
  files (rmtree dir fs) !! p = if below dir p then None else files fs !! p.
Proof.
  unfold rmtree. cbn [files].
  destruct (below dir p) eqn:Hbelow.
  - apply map_lookup_filter_None_2. right. intros x _ Hkeep.
    cbn [fst] in Hkeep. congruence.
  - destruct (files fs !! p) as [x|] eqn:Hp.
    + apply map_lookup_filter_Some_2; [exact Hp | exact Hbelow].
    + apply map_lookup_filter_None_2. left. exact Hp.
Qed.

Lemma getitem_cache_frame `{Example V} (self : HDDCacheDataset.t V) (idx : Z)
    (fs : filesystem) (p : string) :
  below (HDDCacheDataset.cache_dir self) p = false ->
  files (snd (HDDCacheDataset.__getitem__ self idx fs)) !! p = files fs !! p.
Proof.
  intros Hp. unfold HDDCacheDataset.__getitem__. cbv zeta.
  destruct (_ || _); [reflexivity|].
  apply get_example_or_field_frame. intros ->.
  rewrite cache_path_below in Hp. discriminate.
Qed.

Lemma consistency_check_frame `{Example V} (self : HDDCacheDataset.t V)
    (dataset : Dataset.t V) (samples : list Z) (p : string) :
  below (HDDCacheDataset.cache_dir self) p = false ->
  forall fs,
    files (snd (HDDCacheDataset_init.consistency_check self dataset samples fs))
      !! p
    = files fs !! p.
Proof.
  intros Hp. induction samples as [|i samples IH]; intros fs; [reflexivity|].
  cbn [HDDCacheDataset_init.consistency_check]. cbv zeta.
  destruct (Dataset.__getitem__ dataset _) as [fresh|e]; [|reflexivity].
  pose proof (getitem_cache_frame self (i * Dataset.len dataset / 16) fs p Hp)
    as Hframe.
  destruct (HDDCacheDataset.__getitem__ self _ fs) as [[cached|e] fs1];
    cbn [snd] in Hframe; [|exact Hframe].
  destruct (negb _).
  - cbn [snd]. unfold HDDCacheDataset_init.delete_cache.
    rewrite rmtree_files, Hp. exact Hframe.
  - rewrite IH. exact Hframe.
Qed.

(** X15. Constructing a per-example disk cache, with its consistency
    check and a possible deletion of the cache, changes no file outside
    the cache directory of that dataset, the path
    [Path(cache_dir) / identifier], whether the construction succeeds or
    raises. *)
Theorem cache_construction_stays_in_directory `{Example V} (count : Z)
    (dataset : Dataset.t V) (cache_dir : string)
    (kw_name kw_subset : option string) (fs : filesystem) (p : string) :
  let '(n, s, m) :=
    fst (Dataset.__init__ "HDDCacheDataset" count kw_name kw_subset
           (MStr "cache_hdd") (Some (Dataset.attrs_of dataset))) in
  let directory :=
    path_str
      (truediv (Path cache_dir)
         (Dataset.identifier
            {| Dataset.name := n; Dataset.subset := s; Dataset.modifiers := m;
               Dataset.len := Dataset.len dataset;
               Dataset.get_example := Dataset.get_example dataset |})) in
  below directory p = false ->
  files (snd (HDDCacheDataset_init.__init__ count dataset cache_dir kw_name
                kw_subset fs)) !! p
  = files fs !! p.
Proof.
  unfold HDDCacheDataset_init.__init__.
  destruct (Dataset.__init__ "HDDCacheDataset" count kw_name kw_subset _ _)
    as [[[n s] m] c].
  cbn [fst]. cbv zeta. intros Hp.
  match goal with
  | |- context [HDDCacheDataset_init.consistency_check ?self ?d ?l ?f] =>
      pose proof (consistency_check_frame self d l p Hp f) as Hframe;
      destruct (HDDCacheDataset_init.consistency_check self d l f)
        as [[ok|e] fs1]
  end; exact Hframe.
Qed.

Lemma cache_construction_stays_in_directory_witness :
  files (snd (HDDCacheDataset_init.__init__ (H := tagged_string_example) 0
                abc_dataset "cache/" None None abc_corrupt_fs))
    !! "cache/abc-train.cache_hdd.p"
  = files abc_corrupt_fs !! "cache/abc-train.cache_hdd.p".
Proof.
  apply (cache_construction_stays_in_directory (H := tagged_string_example) 0
           abc_dataset "cache/" None None abc_corrupt_fs
           "cache/abc-train.cache_hdd.p").
  reflexivity.
Defined.

(** X16. A per-example disk cache cannot be built over an empty
    dataset: the consistency check indexes the wrapped dataset at 0 and
    the constructor raises [IndexError], before any file is touched. *)
Theorem cache_of_empty_dataset `{Example V} (count : Z) (dataset : Dataset.t V)
    (cache_dir : string) (kw_name kw_subset : option string)
    (fs : filesystem) :
  Dataset.len dataset = 0 ->
  HDDCacheDataset_init.__init__ count dataset cache_dir kw_name kw_subset fs
  = (Raise IndexError, fs).
Proof.
  intros Hlen. unfold HDDCacheDataset_init.__init__.
  destruct (Dataset.__init__ "HDDCacheDataset" count kw_name kw_subset _ _)
    as [[[n s] m] c].
  rewrite (seqZ_cons 0 16) by lia.
  cbn [HDDCacheDataset_init.consistency_check]. cbv zeta.
  rewrite Hlen. change (0 * 0 / 16) with 0.
  rewrite getitem_at_len by lia. reflexivity.
Qed.

Lemma cache_of_empty_dataset_witness :
  HDDCacheDataset_init.__init__ (H := tagged_string_example) 0 empty_dataset
    "cache" None None abc_corrupt_fs
  = (Raise IndexError, abc_corrupt_fs).
Proof.
  apply (cache_of_empty_dataset (H := tagged_string_example) 0 empty_dataset
           "cache" None None abc_corrupt_fs).
  reflexivity.
Defined.

(** X17. Stale caches are discarded: when the cache file of index 0
    unpickles to a value whose pickle differs from that of the dataset's
    element 0, the constructor succeeds and leaves no file below the
    cache directory [Path(cache_dir) / identifier], while every other
    file is kept. *)
Theorem stale_cache_is_deleted `{Example V} (count : Z) (dataset : Dataset.t V)
    (cache_dir : string) (fs : filesystem) (fresh cached : V) :
  let directory :=
    path_str (truediv (Path cache_dir)
                (Dataset.identifier dataset +:+ "." +:+ "cache_hdd")) in
  0 < Dataset.len dataset ->
  Dataset.get_example dataset 0 = Ok fresh ->
  files fs !! (directory +:+ "/" +:+ pretty 0 +:+ ".p")
    = Some (pickle_dump cached) ->
  pickle_dump fresh <> pickle_dump cached ->
  exists self c fs',
    HDDCacheDataset_init.__init__ count dataset cache_dir None None fs
      = (Ok (self, c), fs')
    /\ HDDCacheDataset.cache_dir self = directory
    /\ forall p, files fs' !! p
                 = if below directory p then None else files fs !! p.
Proof.
  intros directory Hlen Hfresh Hfile Hdiff.
  unfold HDDCacheDataset_init.__init__.
  pose proof (Dataset_init_wrapper_attrs "HDDCacheDataset" count None None
                (MStr "cache_hdd") (Dataset.attrs_of dataset)) as Hattrs.
  destruct (Dataset.__init__ "HDDCacheDataset" count None None _ _)
    as [[[n s] m] c].
  cbn [fst] in Hattrs.
  set (wrapper := {| Dataset.name := n; Dataset.subset := s;
                     Dataset.modifiers := m;
                     Dataset.len := Dataset.len dataset;
                     Dataset.get_example := Dataset.get_example dataset |}).
  assert (Hid : Dataset.identifier wrapper
                = Dataset.identifier dataset +:+ "." +:+ "cache_hdd").
  { apply (identifier_of_wrapper dataset wrapper "HDDCacheDataset" count);
      [reflexivity|].
    rewrite Dataset_init_wrapper_attrs. exact Hattrs. }
  rewrite Hid. fold directory.
  set (self := {| HDDCacheDataset.data := dataset;
                  HDDCacheDataset.cache_dir := directory;
                  HDDCacheDataset.separate_fields := false;
                  HDDCacheDataset.keys := [] |}).
  rewrite (seqZ_cons 0 16) by lia.
  cbn [HDDCacheDataset_init.consistency_check]. cbv zeta.
  change (0 * Dataset.len dataset / 16) with (0 / 16).
  change (0 / 16) with 0.
  rewrite getitem_in_range, Hfresh by lia.
  assert (Hread : HDDCacheDataset.__getitem__ self 0 fs = (Ok cached, fs)).
  { unfold HDDCacheDataset.__getitem__, HDDCacheDataset.__len__. cbv zeta.
    cbn [HDDCacheDataset.data self].
    assert (Hle : (Dataset.len dataset <=? 0) = false) by (apply Z.leb_gt; lia).
    change (0 <? 0) with false. cbn [orb]. rewrite Hle.
    unfold HDDCacheDataset._get_example_or_field, HDDCacheDataset.read_cached.
    change (HDDCacheDataset._get_cache_path self 0 None)
      with ((directory +:+ "/" +:+ pretty 0) +:+ ".p").
    rewrite string_app_assoc, (string_app_assoc "/").
    rewrite Hfile, pickle_load_dump. reflexivity. }
  rewrite Hread.
  assert (Hneq : negb (String.eqb (pickle_dump fresh) (pickle_dump cached)) = true).
  { apply negb_true_iff, String.eqb_neq. exact Hdiff. }
  rewrite Hneq.
  eexists self, c, _. split; [reflexivity|]. split; [reflexivity|].
  intros p. unfold HDDCacheDataset_init.delete_cache. apply rmtree_files.
Qed.

Lemma stale_cache_is_deleted_witness :
  exists self c fs',
    HDDCacheDataset_init.__init__ (H := tagged_string_example) 0
      (HDDCacheDataset.data abc_cache_stale) "cache" None None abc_fresh_fs
      = (Ok (self, c), fs')
    /\ HDDCacheDataset.cache_dir self
       = path_str
           (truediv (Path "cache")
              (Dataset.identifier (HDDCacheDataset.data abc_cache_stale)
               +:+ "." +:+ "cache_hdd"))
    /\ forall p,
         files fs' !! p
         = if below
                (path_str
                   (truediv (Path "cache")
                      (Dataset.identifier (HDDCacheDataset.data abc_cache_stale)
                       +:+ "." +:+ "cache_hdd"))) p
           then None
           else files abc_fresh_fs !! p.
Proof.
  apply (stale_cache_is_deleted (H := tagged_string_example) 0
           (HDDCacheDataset.data abc_cache_stale) "cache" abc_fresh_fs
           "changed" "a").
  - simpl. lia.
  - reflexivity.
  - vm_compute. reflexivity.
  - discriminate.
Defined.

(** X18. [D.cache(directory=d)] fails for every dataset: the
    constructor of the RAM-and-disk cache reads [self.identifier] before
    the base constructor has assigned [name], so it raises
    [AttributeError] and neither reads nor writes a cache file; without
    a directory, [cache] builds the RAM cache. *)
Theorem cache_with_directory_raises {V}
    (rest : string -> filesystem -> result (Dataset.t V * Z) * filesystem)
    (count : Z) (D : Dataset.t V) (max_cache_size : option Z)
    (directory : string) (chunk_size : Z) (kw_name kw_subset : option string)
    (fs : filesystem) :
  cache rest count D max_cache_size (Some directory) chunk_size kw_name
    kw_subset fs
  = (Raise AttributeError, fs)
  /\ cache rest count D max_cache_size None chunk_size kw_name kw_subset fs
     = (CacheDataset.__init__ count D max_cache_size kw_name kw_subset, fs).
Proof. split; reflexivity. Qed.

(* ===================================================================== *)
(** * Further properties of attacks.py *)
(* ===================================================================== *)

(** ** Clipping *)

Lemma Qclamp_within (lo hi v : Q) :
  (lo <= hi)%Q -> (lo <= Qclamp lo hi v <= hi)%Q.
Proof.
  intros Hle. unfold Qclamp. split.
  - apply Q.min_glb; [apply Q.le_max_r | exact Hle].
  - apply Q.le_min_r.
Qed.

Lemma clamp_within (a : tensor) (lo hi : Q) :
  (lo <= hi)%Q ->
  Forall (Forall (fun v => (lo <= v <= hi)%Q)) (clamp a (lo, hi)).
Proof.
  intros Hle. unfold clamp, tmap. cbn [fst snd].
  apply Forall_forall. intros row Hrow.
  apply list_elem_of_In, in_map_iff in Hrow as (row0 & <- & _).
  apply Forall_forall. intros v Hv.
  apply list_elem_of_In, in_map_iff in Hv as (v0 & <- & _).
  apply Qclamp_within. exact Hle.
Qed.

(** X19. When clip bounds [(lo, hi)] with [lo <= hi] are configured,
    the adversarial input that [perturb] returns is the clipped output of
    the subclass's [_perturb], called with the label used: the label given
    by the caller or, when there is none, the one that
    [get_predicted_label] derived from [x].  Every entry of it lies in
    [[lo, hi]] (entries are rationals, the values of tensors without NaN),
    and the payload of [perturb_completed] carries the caller's [x], that
    label and that same clipped result. *)
Theorem perturb_result_within_clip_bounds `{Engine} (self : Attack.instance)
    (x : tensor) (y : option labels) (lo hi : Q) (x_adv : tensor)
    (ns : Namespace) :
  Attack.clip_bounds (Attack.attrs self) = Some (lo, hi) ->
  (lo <= hi)%Q ->
  Attack.perturb self x y = Ok (x_adv, ns) ->
  Forall (Forall (fun v => (lo <= v <= hi)%Q)) x_adv
  /\ ns_x ns = x
  /\ ns_x_adv ns = x_adv
  /\ match y with
     | Some y0 => ns_y ns = y0
     | None =>
         Attack.get_predicted_label (Attack.attrs self) [VTensor x]
         = Ok (VLabels (ns_y ns))
     end
  /\ exists raw,
       snd (Attack.lookup__perturb (Attack.mro self)) (Attack.attrs self) x
         (ns_y ns) = Ok raw
       /\ x_adv = clamp raw (lo, hi).
Proof.
  intros Hbounds Hle Hperturb. unfold Attack.perturb in Hperturb.
  cbv zeta in Hperturb.
  destruct (match y with Some y0 => Ok y0 | None => _ end) as [y1|e] eqn:Hy;
    [|discriminate].
  rewrite bind_Ok in Hperturb.
  destruct (snd (Attack.lookup__perturb (Attack.mro self)) (Attack.attrs self) x y1)
    as [raw|e] eqn:Hraw; [|discriminate].
  rewrite bind_Ok in Hperturb. unfold Attack._clip in Hperturb.
  rewrite Hbounds, bind_Ok in Hperturb. injection Hperturb as <- <-.
  cbn [ns_x ns_y ns_x_adv].
  split; [apply clamp_within; exact Hle|].
  split; [reflexivity|]. split; [reflexivity|].
  split; [|exists raw; split; [exact Hraw | reflexivity]].
  destruct y as [y0|].
  - injection Hy as ->. reflexivity.
  - destruct (Attack.get_predicted_label (Attack.attrs self) [VTensor x])
      as [r|e]; [|discriminate].
    rewrite bind_Ok in Hy. destruct r; try discriminate.
    injection Hy as ->. reflexivity.
Qed.

Lemma perturb_result_within_clip_bounds_witness :
  Forall (Forall (fun v => (0 <= v <= 1)%Q)) (fst fgsm_clipped_result)
  /\ ns_x (snd fgsm_clipped_result) = demo_batch
  /\ ns_x_adv (snd fgsm_clipped_result) = fst fgsm_clipped_result
  /\ ns_y (snd fgsm_clipped_result) = [0; 1]
  /\ exists raw,
       snd (Attack.lookup__perturb (Attack.mro fgsm_clipped_instance))
         (Attack.attrs fgsm_clipped_instance) demo_batch
         (ns_y (snd fgsm_clipped_result)) = Ok raw
       /\ fst fgsm_clipped_result = clamp raw (0, 1)%Q.
Proof.
  apply (perturb_result_within_clip_bounds (H := identity_engine)
           fgsm_clipped_instance demo_batch (Some [0; 1]) 0 1
           (fst fgsm_clipped_result) (snd fgsm_clipped_result)).
  - reflexivity.
  - discriminate.
  - reflexivity.
Defined.

(** ** The iterative optimizer without early stopping *)

Lemma pi_body_no_stop `{Engine} (predict : Model) (l : Loss)
    (eps step_size : Q) (gp : grad_preprocessing_arg)
    (clip_bounds : option (Q * Q)) (step : nat) (st : pi_state) :
  grad_preprocessing_supported gp = true ->
  exists st',
    pi_body predict (LossModule l) eps step_size gp PInf clip_bounds None step st
      = Ok (st', Continue)
    /\ st_x st' = st_x st
    /\ st_times st' = S (st_times st)
    /\ st_step st' = Some step.
Proof.
  intros Hgp. unfold pi_body, pi_early_stop, pi_update.
  cbn [loss_backward]. rewrite !bind_Ok.
  destruct gp; try discriminate; cbn [apply_grad_preprocessing p_is_inf];
    rewrite !bind_Ok; eexists; (split; [reflexivity|]); repeat split.
Qed.

Lemma pi_loop_no_stop `{Engine} (predict : Model) (l : Loss)
    (eps step_size : Q) (gp : grad_preprocessing_arg)
    (clip_bounds : option (Q * Q)) (steps : list nat) :
  grad_preprocessing_supported gp = true ->
  forall st,
    exists st',
      pi_loop predict (LossModule l) eps step_size gp PInf clip_bounds None
        steps st = Ok (st', Continue)
      /\ st_x st' = st_x st
      /\ st_times st' = (st_times st + length steps)%nat
      /\ st_step st' = match last steps with
                       | Some s => Some s
                       | None => st_step st
                       end.
Proof.
  intros Hgp. induction steps as [|step steps IH]; intros st.
  - exists st. cbn. rewrite Nat.add_0_r. repeat split.
  - cbn [pi_loop].
    destruct (pi_body_no_stop predict l eps step_size gp clip_bounds step st Hgp)
      as (st1 & Hbody & Hx1 & Ht1 & Hs1).
    rewrite Hbody, bind_Ok.
    destruct (IH st1) as (st' & Hloop & Hx & Ht & Hs).
    exists st'. split; [exact Hloop|].
    split; [congruence|]. split; [cbn [length]; lia|].
    rewrite Hs, Hs1. destruct steps as [|s2 steps']; [reflexivity|].
    change (last (step :: s2 :: steps')) with (last (s2 :: steps')).
    destruct (last (s2 :: steps')) eqn:Hlast; [reflexivity|].
    apply last_None in Hlast. discriminate.
Qed.

Lemma same_shape_refl (a : tensor) : same_shape a a.
Proof. induction a as [|r a IH]; constructor; [reflexivity | exact IH]. Qed.

Lemma same_shape_sym (a b : tensor) : same_shape a b -> same_shape b a.
Proof.
  intros Hab. induction Hab as [|r s a b Hrs _ IH]; constructor;
    [symmetry; exact Hrs | exact IH].
Qed.

Lemma same_shape_trans (a b c : tensor) :
  same_shape a b -> same_shape b c -> same_shape a c.
Proof.
  intros Hab. revert c. induction Hab as [|r s a b Hrs _ IH]; intros c Hbc;
    inversion Hbc; subst; constructor; [congruence | apply IH; assumption].
Qed.

Lemma same_shape_tmap (f : Q -> Q) (a : tensor) : same_shape (tmap f a) a.
Proof.
  unfold tmap. induction a as [|r a IH]; cbn [map]; constructor;
    [apply length_map | exact IH].
Qed.

Lemma same_shape_tmap2 (f : Q -> Q -> Q) (a b : tensor) :
  same_shape a b -> same_shape (tmap2 f a b) a.
Proof.
  unfold tmap2. intros Hab. induction Hab as [|r s a b Hrs _ IH];
    cbn [zip_with]; constructor; [|exact IH].
  rewrite length_zip_with. lia.
Qed.

Lemma same_shape_normalize (g : tensor) (norms : list Q) :
  length norms = length g ->
  same_shape (zip_with (fun row n => map (fun v => (v / n)%Q) row) g norms) g.
Proof.
  revert norms. induction g as [|r g IH]; intros [|n norms] Hlen;
    cbn [length] in Hlen; try discriminate; cbn [zip_with]; constructor.
  - apply length_map.
  - apply IH. lia.
Qed.

Lemma pi_body_keeps_shapes `{Engine} (predict : Model) (l : Loss)
    (eps step_size : Q) (gp : grad_preprocessing_arg)
    (clip_bounds : option (Q * Q)) (x : tensor) (step : nat) (st : pi_state) :
  grad_preprocessing_supported gp = true ->
  (forall m l0 a b, same_shape (autograd m l0 a b) a) ->
  (forall d r, same_shape (project_to_p_ball d r PInf) d) ->
  (forall g, length (batch_norm g PInf) = length g) ->
  shapes_kept x st ->
  exists st',
    pi_body predict (LossModule l) eps step_size gp PInf clip_bounds None step st
      = Ok (st', Continue)
    /\ shapes_kept x st'
    /\ st_times st' = S (st_times st)
    /\ st_step st' = Some step.
Proof.
  intros Hgp Hauto Hproj Hnorm (Hx & Hd & Hacc).
  unfold pi_body, pi_early_stop, pi_update.
  cbn [loss_backward]. rewrite !bind_Ok.
  cbn [st_y st_x st_delta st_delta_grad].
  set (g := autograd predict l (tadd (st_x st) (st_delta st)) (st_y st)).
  assert (Hg : same_shape g x).
  { unfold g. eapply same_shape_trans; [apply Hauto|].
    rewrite Hx. unfold tadd. apply same_shape_tmap2, same_shape_sym, Hd. }
  set (grad := match st_delta_grad st with
               | Some acc => tadd acc g
               | None => g
               end).
  assert (Hgrad : same_shape grad x).
  { unfold grad. destruct (st_delta_grad st) as [acc|] eqn:Ha; [|exact Hg].
    pose proof (Hacc acc eq_refl) as Hshape.
    eapply same_shape_trans; [|exact Hshape].
    unfold tadd. apply same_shape_tmap2.
    eapply same_shape_trans; [exact Hshape | apply same_shape_sym, Hg]. }
  assert (Hpgrad : exists pgrad,
            apply_grad_preprocessing gp PInf grad = Ok pgrad
            /\ same_shape pgrad x).
  { destruct gp; try discriminate; cbn [apply_grad_preprocessing];
      eexists; (split; [reflexivity|]).
    - eapply same_shape_trans; [apply same_shape_tmap | exact Hgrad].
    - eapply same_shape_trans; [apply same_shape_normalize, Hnorm | exact Hgrad]. }
  destruct Hpgrad as (pgrad & -> & Hpgrad). rewrite bind_Ok.
  cbn [p_is_inf]. rewrite !bind_Ok.
  set (d1 := project_to_p_ball
               (tadd (st_delta st) (tmul_scalar pgrad step_size)) eps PInf).
  assert (Hd1 : same_shape d1 x).
  { unfold d1. eapply same_shape_trans; [apply Hproj|].
    eapply same_shape_trans; [|exact Hd].
    unfold tadd. apply same_shape_tmap2.
    eapply same_shape_trans; [exact Hd|]. apply same_shape_sym.
    eapply same_shape_trans; [apply same_shape_tmap | exact Hpgrad]. }
  eexists. split; [reflexivity|].
  cbn [st_times st_step]. split; [|split; reflexivity].
  unfold shapes_kept. cbn [st_x st_delta st_delta_grad].
  split; [exact Hx|]. split.
  - destruct clip_bounds as [b|]; [|exact Hd1].
    rewrite Hx. unfold tsub.
    eapply same_shape_trans; [apply same_shape_tmap2|].
    + eapply same_shape_trans; [apply same_shape_tmap|].
      unfold tadd. apply same_shape_tmap2, same_shape_sym, Hd1.
    + eapply same_shape_trans; [apply same_shape_tmap|].
      unfold tadd. apply same_shape_tmap2, same_shape_sym, Hd1.
  - intros acc [= <-]. exact Hgrad.
Qed.

Lemma pi_loop_keeps_shapes `{Engine} (predict : Model) (l : Loss)
    (eps step_size : Q) (gp : grad_preprocessing_arg)
    (clip_bounds : option (Q * Q)) (x : tensor) (steps : list nat) :
  grad_preprocessing_supported gp = true ->
  (forall m l0 a b, same_shape (autograd m l0 a b) a) ->
  (forall d r, same_shape (project_to_p_ball d r PInf) d) ->
  (forall g, length (batch_norm g PInf) = length g) ->
  forall st,
    shapes_kept x st ->
    exists st',
      pi_loop predict (LossModule l) eps step_size gp PInf clip_bounds None
        steps st = Ok (st', Continue)
      /\ shapes_kept x st'
      /\ st_times st' = (st_times st + length steps)%nat
      /\ st_step st' = match last steps with
                       | Some s => Some s
                       | None => st_step st
                       end.
Proof.
  intros Hgp Hauto Hproj Hnorm.
  induction steps as [|step steps IH]; intros st Hinv.
  - exists st. split; [reflexivity|]. split; [exact Hinv|].
    cbn [length last]. rewrite Nat.add_0_r. split; reflexivity.
  - cbn [pi_loop].
    destruct (pi_body_keeps_shapes predict l eps step_size gp clip_bounds x
                step st Hgp Hauto Hproj Hnorm Hinv)
      as (st1 & Hbody & Hinv1 & Ht1 & Hs1).
    rewrite Hbody, bind_Ok.
    destruct (IH st1 Hinv1) as (st' & Hloop & Hinv' & Ht & Hs).
    exists st'. split; [exact Hloop|]. split; [exact Hinv'|].
    split; [cbn [length]; lia|].
    rewrite Hs, Hs1. destruct steps as [|s2 steps']; [reflexivity|].
    change (last (step :: s2 :: steps')) with (last (s2 :: steps')).
    destruct (last (s2 :: steps')) eqn:Hlast; [reflexivity|].
    apply last_None in Hlast. discriminate.
Qed.

(** X22. Without early stopping, with the infinity norm and a supported
    gradient preprocessing, a well-shaped call of [perturb_iterative]
    with [step_count >= 1] does not raise: one label per example, an
    initial perturbation of the shape of [x], and collaborators that keep
    shapes (the gradient has the shape of its tensor, the projection that
    of its argument, there is one norm per example).  It runs exactly
    [step_count] iterations, ends with [step == step_count], leaves [x]
    unchanged, and the final [delta] and the returned [x + delta]
    (clamped when clip bounds are given) have the shape of [x]: no
    elementwise operation met operands of different shapes. *)
Theorem perturb_iterative_linf_total `{Engine} (x : tensor) (y : labels)
    (predict : Model) (step_count : Z) (eps step_size : Q) (l : Loss)
    (gp : grad_preprocessing_arg) (delta_init : option tensor)
    (clip_bounds : option (Q * Q)) :
  1 <= step_count ->
  grad_preprocessing_supported gp = true ->
  length y = length x ->
  (forall d, delta_init = Some d -> same_shape d x) ->
  (forall m l0 a b, same_shape (autograd m l0 a b) a) ->
  (forall d r, same_shape (project_to_p_ball d r PInf) d) ->
  (forall g, length (batch_norm g PInf) = length g) ->
  exists st,
    perturb_iterative_run x y predict step_count eps step_size (LossModule l)
      gp delta_init PInf clip_bounds None
    = Ok (apply_delta x (st_delta st) clip_bounds, st)
    /\ st_x st = x
    /\ same_shape (st_delta st) x
    /\ same_shape (apply_delta x (st_delta st) clip_bounds) x
    /\ st_times st = Z.to_nat step_count
    /\ st_step st = Some (Z.to_nat step_count).
Proof.
  intros Hsteps Hgp _ Hinit Hauto Hproj Hnorm. unfold perturb_iterative_run.
  match goal with
  | |- context [pi_loop _ _ _ _ _ _ _ _ ?steps ?st0] =>
      destruct (pi_loop_keeps_shapes predict l eps step_size gp clip_bounds x
                  steps Hgp Hauto Hproj Hnorm st0)
        as (st1 & Hloop & (Hx & Hd & _) & Ht & Hs)
  end.
  { unfold shapes_kept. cbn [st_x st_delta st_delta_grad].
    split; [reflexivity|]. split; [|discriminate].
    destruct delta_init as [d|]; [apply Hinit; reflexivity|].
    unfold zeros_like. apply same_shape_tmap. }
  rewrite Hloop, bind_Ok. cbn [st_x st_times st_step] in Ht, Hs.
  destruct (Z.to_nat step_count) as [|n] eqn:Hn; [lia|].
  rewrite length_seq in Ht. rewrite seq_S, last_snoc in Hs.
  cbn [Nat.add] in Hs.
  unfold pi_else. rewrite Hs, bind_Ok.
  unfold pi_finish. rewrite !bind_Ok. cbn [st_x st_delta]. rewrite Hx.
  match goal with
  | |- exists st, Ok (_, ?r) = _ /\ _ => exists r
  end.
  cbn [st_x st_times st_step st_delta].
  split; [unfold apply_delta; destruct clip_bounds; reflexivity|].
  split; [reflexivity|]. split; [exact Hd|]. split.
  - unfold apply_delta, clamp, tadd. destruct clip_bounds as [b|].
    + eapply same_shape_trans; [apply same_shape_tmap|].
      apply same_shape_tmap2, same_shape_sym, Hd.
    + apply same_shape_tmap2, same_shape_sym, Hd.
  - split; [lia | reflexivity].
Qed.

Lemma perturb_iterative_linf_total_witness :
  exists st,
    perturb_iterative_run (H := identity_engine) demo_batch [0; 1] tt 3
      (8 # 255) (2 # 255) demo_loss GPSign None PInf (Some (0, 1)%Q) None
    = Ok (apply_delta demo_batch (st_delta st) (Some (0, 1)%Q), st)
    /\ st_x st = demo_batch
    /\ same_shape (st_delta st) demo_batch
    /\ same_shape (apply_delta demo_batch (st_delta st) (Some (0, 1)%Q)) demo_batch
    /\ st_times st = Z.to_nat 3
    /\ st_step st = Some (Z.to_nat 3).
Proof.
  apply (perturb_iterative_linf_total (H := identity_engine) demo_batch [0; 1]
           tt 3 (8 # 255) (2 # 255) (tt : @Loss identity_engine) GPSign None
           (Some (0, 1)%Q)).
  - lia.
  - reflexivity.
  - reflexivity.
  - discriminate.
  - intros m l0 a b. cbn [autograd identity_engine]. apply same_shape_tmap.
  - intros d r. cbn [project_to_p_ball identity_engine]. apply same_shape_tmap.
  - intros g. cbn [batch_norm identity_engine]. apply length_map.
Defined.

(** ** Early stopping when no example ever succeeds *)








(** ** The PGD attack end to end *)

(** X24. A PGD attack with the default loss and success predicate, the
    infinity norm, a supported gradient preprocessing, at least one step
    and no early stopping can be constructed, and [perturb] with a label
    returns: the random start and the iterations raise nothing, and the
    payload of [perturb_completed] carries [x], [y] and the returned
    adversarial input. *)
Theorem pgd_perturb_returns `{Engine} (model : Model)
    (clip_bounds : option (Q * Q)) (ps : PGDAttack.params) (x : tensor)
    (y : labels) :
  1 <= PGDAttack.step_count ps ->
  PGDAttack.p ps = PInf ->
  PGDAttack.stop_on_success ps = false ->
  grad_preprocessing_supported (PGDAttack.grad_preprocessing ps) = true ->
  exists self x_adv,
    PGDAttack.__init__ model None clip_bounds None _predict_hard ps = Ok self
    /\ Attack.perturb self x (Some y)
       = Ok (x_adv, {| ns_x := x; ns_y := y; ns_x_adv := x_adv |}).
Proof.
  intros Hsteps Hp Hstop Hgp.
  eexists. unfold PGDAttack.__init__, Attack.__init__.
  cbn [Attack.getattr__perturb Attack.lookup__perturb Attack.cls__perturb
       PGDAttack.cls py_type py_eq].
  assert (Hrun : exists r,
    PGDAttack._perturb ps
      {| Attack.model := model;
         Attack.loss := LossModule SoftmaxCrossEntropyLoss;
         Attack.clip_bounds := clip_bounds;
         Attack.get_predicted_label := _predict_hard;
         Attack.is_success := classification_untargeted_is_sucess |} x y
    = Ok r).
  { unfold PGDAttack._perturb, perturb_iterative, perturb_iterative_run.
    cbn [Attack.model Attack.loss Attack.clip_bounds Attack.is_success].
    rewrite Hp, Hstop.
    match goal with
    | |- context [pi_loop _ _ _ _ _ _ _ _ ?steps ?st0] =>
        destruct (pi_loop_no_stop model SoftmaxCrossEntropyLoss (PGDAttack.eps ps)
                    (PGDAttack.step_size ps) (PGDAttack.grad_preprocessing ps)
                    clip_bounds steps Hgp st0) as (st1 & Hloop & _ & _ & Hs)
    end.
    rewrite Hloop, bind_Ok.
    destruct (Z.to_nat (PGDAttack.step_count ps)) as [|n] eqn:Hn; [lia|].
    rewrite seq_S, last_snoc in Hs.
    unfold pi_else. rewrite Hs, bind_Ok.
    unfold pi_finish. rewrite !bind_Ok. eexists. reflexivity. }
  destruct Hrun as (r & Hr).
  exists (match clip_bounds with Some b => clamp r b | None => r end).
  split; [reflexivity|].
  unfold Attack.perturb.
  cbn [Attack.attrs Attack.mro Attack.lookup__perturb Attack.cls__perturb
       PGDAttack.cls snd Attack.clip_bounds].
  rewrite bind_Ok, Hr, bind_Ok.
  destruct clip_bounds as [b|]; reflexivity.
Qed.

Lemma pgd_perturb_returns_witness :
  exists self x_adv,
    PGDAttack.__init__ (H := identity_engine) tt None (Some (0, 1)%Q) None
      _predict_hard pgd_params = Ok self
    /\ Attack.perturb self demo_batch (Some [0; 1])
       = Ok (x_adv, {| ns_x := demo_batch; ns_y := [0; 1]; ns_x_adv := x_adv |}).
Proof.
  apply (pgd_perturb_returns (H := identity_engine) tt (Some (0, 1)%Q)
           pgd_params demo_batch [0; 1]).
  - cbn. lia.
  - reflexivity.
  - reflexivity.
  - reflexivity.
Defined.
